(** * n8n-nodes-gravity: envelope and streaming-aggregation contract

    A shallow embedding of the Gravity workflow nodes (GravityOpenAI,
    GravityClaude, GravityOutput, GravityUpdate, GravityEmbed), of the two
    service modules they call (OpenAIService, BedrockService) and of the
    shared error utilities.

    Conventions of the embedding:
    - a JavaScript string is a [string]; one character stands for one code
      unit, [++] is [+=] and [""] is the only falsy string;
    - a value of type [any] that comes out of [JSON.parse] is a [JSON] tree;
      object members are kept as an association list in insertion order;
    - a JavaScript number that only travels through the code (temperature,
      token limits, clock readings) is a [Q] or a [Z]; counters that the code
      increments are [nat];
    - asynchronous code is sequential: every [await] is a bind of the [Js]
      monad, whose state is the part of the store the function can touch and
      whose result is either a normal completion or a thrown error;
    - the JavaScript runtime (JSON.parse, the clock, the random generator) is
      a [Platform]; the model providers and the event bus are variables of
      the sections that call them;
    - a node reads its parameters through [getNodeParameter]; the embedding
      gives it the resolved values, fallbacks applied, as a record; for
      GravityOpenAI the resolution against the input items is modelled too;
    - [n8n-workflow] is not part of the sources: of its error classes the
      embedding keeps the constructor name, the message, the stack, and the
      one reading of the clock their constructor makes;
    - calls to [console.log] and [console.error] have no counterpart. *)

From Stdlib Require Import String Ascii List ZArith QArith Lia Bool DecimalString.
Import ListNotations.
Local Close Scope Q_scope.
Local Open Scope nat_scope.
Local Open Scope string_scope.
Local Open Scope list_scope.

(** ** JavaScript values *)

#[warnings="-register-all"]
Inductive JSON : Type :=
| JNull
| JBool (b : bool)
| JNumber (q : Q)
| JString (s : string)
| JArray (elements : list JSON)
| JObject (members : list (string * JSON)).

(** An [Error]: the fields of it the code reads. The stack of an error
    that the code or the runtime constructs is left empty. *)
Record JSError : Type := mkError {
  err_name : string;        (* error.constructor.name *)
  err_message : string;     (* error.message *)
  err_stack : string        (* error.stack *)
}.

(** A thrown value, or the reason of a rejected promise, of type [unknown]:
    an [Error], or anything else, [None] standing for [undefined]. *)
Inductive Thrown : Type :=
| AnError (e : JSError)
| NotAnError (v : option JSON).

Definition NodeOperationError (message : string) : JSError :=
  {| err_name := "NodeOperationError"; err_message := message; err_stack := "" |}.

Definition TypeError (message : string) : JSError :=
  {| err_name := "TypeError"; err_message := message; err_stack := "" |}.

Definition SyntaxError (message : string) : JSError :=
  {| err_name := "SyntaxError"; err_message := message; err_stack := "" |}.

Module JS.

(** [!!s] for a string. *)
Definition truthy_string (s : string) : bool :=
  match s with
  | EmptyString => false
  | String _ _ => true
  end.

(** [a || b] on strings. *)
Definition or_string (a b : string) : string :=
  if truthy_string a then a else b.

(** [!!v] for a parsed value. *)
Definition truthy (v : JSON) : bool :=
  match v with
  | JNull => false
  | JBool b => b
  | JNumber q => negb (Qeq_bool q 0)
  | JString s => truthy_string s
  | JArray _ => true
  | JObject _ => true
  end.

Fixpoint lookup (key : string) (members : list (string * JSON)) : option JSON :=
  match members with
  | [] => None
  | (k, v) :: rest => if String.eqb k key then Some v else lookup key rest
  end.

(** [v.key]: [None] is [undefined]; reading a member of [null] throws. *)
Definition get_member (v : JSON) (key : string) : JSError + option JSON :=
  match v with
  | JNull => inl (TypeError ("Cannot read properties of null (reading '"
                             ++ key ++ "')")%string)
  | JObject members => inr (lookup key members)
  | _ => inr None
  end.

Definition truthy_opt (v : option JSON) : bool :=
  match v with
  | Some x => truthy x
  | None => false
  end.

(** [v || fallback] for a value that may be [undefined]. *)
Definition or_value (v : option JSON) (fallback : string) : JSON :=
  match v with
  | Some x => if truthy x then x else JString fallback
  | None => JString fallback
  end.

(** [error.message] for a caught value: the message of an [Error]; for any
    other value the member of that name, if it has one; reading it from
    [null] or [undefined] throws. *)
Definition message_of (error : Thrown) : JSError + option JSON :=
  match error with
  | AnError e => inr (Some (JString (err_message e)))
  | NotAnError (Some v) => get_member v "message"
  | NotAnError None =>
      inl (TypeError "Cannot read properties of undefined (reading 'message')")
  end.

(** [key in v] for an object value. *)
Definition has_member (key : string) (members : list (string * JSON)) : bool :=
  match lookup key members with
  | Some _ => true
  | None => false
  end.

(** [Array.isArray(v)]. *)
Definition isArray (v : JSON) : bool :=
  match v with
  | JArray _ => true
  | _ => false
  end.

(** [`${n}`] for an integral number. *)
Definition Number_toString (z : Z) : string :=
  NilZero.string_of_int (Z.to_int z).

(** [s.split(':')[0]]. *)
Fixpoint before_colon (s : string) : string :=
  match s with
  | EmptyString => EmptyString
  | String c rest =>
      if Ascii.eqb c ":"%char then EmptyString else String c (before_colon rest)
  end.

(** [s.substring(0, n)]. *)
Definition substring0 (n : nat) (s : string) : string := String.substring 0 n s.

(** White space as [String.prototype.trim] sees it in the Latin-1 range. *)
Definition is_space (c : ascii) : bool :=
  match nat_of_ascii c with
  | 9 | 10 | 11 | 12 | 13 | 32 | 160 => true
  | _ => false
  end.

Fixpoint trimStart (s : string) : string :=
  match s with
  | EmptyString => EmptyString
  | String c rest => if is_space c then trimStart rest else s
  end.

Fixpoint trimEnd (s : string) : string :=
  match s with
  | EmptyString => EmptyString
  | String c rest =>
      match trimEnd rest with
      | EmptyString => if is_space c then EmptyString else String c EmptyString
      | kept => String c kept
      end
  end.

(** [s.trim()]. *)
Definition trim (s : string) : string := trimEnd (trimStart s).

End JS.

(** ** The monad of effects

    A computation runs on a store and completes normally or throws. What
    it can throw is a parameter: the streaming nodes read a caught value
    only through [error?.message] and [error?.stack], and their providers
    are taken to reject with an [Error] ([Js]); the publishing nodes read
    [error.message] unguarded and test [instanceof Error], so that for
    them any value can be thrown ([JsT]). *)

Inductive Outcome (E A : Type) : Type :=
| Normal (a : A)
| Throw (e : E).
Arguments Normal {E A} a.
Arguments Throw {E A} e.

Definition JsE (E St A : Type) : Type := St -> Outcome E A * St.

Abbreviation Completion := (Outcome JSError).
Abbreviation Js := (JsE JSError).
Abbreviation JsT := (JsE Thrown).

Definition ret {E St A} (a : A) : JsE E St A := fun st => (Normal a, st).

Definition throw {E St A} (e : E) : JsE E St A := fun st => (Throw e, st).

Definition bind {E St A B} (c : JsE E St A) (k : A -> JsE E St B) : JsE E St B :=
  fun st =>
    match c st with
    | (Normal a, st') => k a st'
    | (Throw e, st') => (Throw e, st')
    end.

(** [try { body } catch (error) { handler }]: the store keeps what the body
    did before it threw. *)
Definition try_catch {E St A} (body : JsE E St A) (handler : E -> JsE E St A)
    : JsE E St A :=
  fun st =>
    match body st with
    | (Normal a, st') => (Normal a, st')
    | (Throw e, st') => handler e st'
    end.

Definition lift_sum {E St A} (r : E + A) : JsE E St A :=
  match r with
  | inl e => throw e
  | inr a => ret a
  end.

(** A runtime error, always an [Error], in a computation that can throw
    any value. *)
Definition lift_error {St A} (r : JSError + A) : JsT St A :=
  match r with
  | inl e => throw (AnError e)
  | inr a => ret a
  end.

Declare Scope js_scope.
Delimit Scope js_scope with js.
Notation "x <- c1 ;; c2" := (bind c1 (fun x => c2))
  (at level 61, c1 at next level, right associativity) : js_scope.
Notation "c1 ;;; c2" := (bind c1 (fun _ => c2))
  (at level 61, right associativity) : js_scope.
Local Open Scope js_scope.

(** ** Asynchronous iterables

    What a [for await] loop can observe of a provider stream that ends: the
    next value, the end of the stream, or a rejection. *)
Inductive AsyncStream (C : Type) : Type :=
| Done
| Yield (c : C) (rest : AsyncStream C)
| Fails (e : JSError).
Arguments Done {C}.
Arguments Yield {C} c rest.
Arguments Fails {C} e.

Fixpoint stream_of_list {C} (l : list C) : AsyncStream C :=
  match l with
  | [] => Done
  | c :: rest => Yield c (stream_of_list rest)
  end.

(** The values delivered before the stream ends or rejects. *)
Fixpoint yielded {C} (s : AsyncStream C) : list C :=
  match s with
  | Done => []
  | Yield c rest => c :: yielded rest
  | Fails _ => []
  end.

(** The stream rejects after the values in [l]. *)
Fixpoint failing_after {C} (l : list C) (e : JSError) : AsyncStream C :=
  match l with
  | [] => Fails e
  | c :: rest => Yield c (failing_after rest e)
  end.

(** ** Constants of [@gravityai-dev/gravity-server] *)

(** Modelled from the spec: the [ChatState] enumeration of gravity-server is
    not part of the sources; the spec (section 3) lists its members as
    idle, active, thinking, responding, waiting, complete, error,
    cancelled. *)
Module ChatState.
Definition IDLE : string := "idle".
Definition ACTIVE : string := "active".
Definition THINKING : string := "thinking".
Definition RESPONDING : string := "responding".
Definition WAITING : string := "waiting".
Definition COMPLETE : string := "complete".
Definition ERROR : string := "error".
Definition CANCELLED : string := "cancelled".
End ChatState.

(** Modelled from the spec: the [MessageType] discriminants of
    gravity-server are not part of the sources; the spec (section 3) lists
    them as text, jsonData, imageResponse, toolOutput, actionSuggestion,
    progressUpdate, messageChunk, metadata. *)
Module MessageType.
Definition TEXT : string := "text".
Definition JSON_DATA : string := "jsonData".
Definition IMAGE_RESPONSE : string := "imageResponse".
Definition TOOL_OUTPUT : string := "toolOutput".
Definition ACTION_SUGGESTION : string := "actionSuggestion".
Definition PROGRESS_UPDATE : string := "progressUpdate".
Definition MESSAGE_CHUNK : string := "messageChunk".
Definition METADATA : string := "metadata".
End MessageType.

(** ** The JavaScript runtime *)

Record Platform : Type := {
  (** [JSON.parse]: [None] when it throws a SyntaxError. *)
  JSON_parse : string -> option JSON;
  (** The SyntaxError that [JSON.parse] throws on a text it rejects. *)
  JSON_parse_error : string -> JSError;
  (** [JSON.stringify]. *)
  JSON_stringify : JSON -> string;
  (** [Date.now()] at the k-th reading of the clock. *)
  Date_now : nat -> Z;
  (** [Date.prototype.toISOString]. *)
  toISOString : Z -> string;
  (** [Math.random().toString(36).substr(2, 9)] at the k-th draw. *)
  Math_random_token : nat -> string
}.

(** ** Output records of the streaming nodes *)

(** The [json] of a stream chunk; [progressMessage] is absent unless set. *)
Record StreamChunk : Type := {
  chunk_model : string;
  chunk_text : string;
  chunkIndex : nat;
  chunk_timestamp : string;
  chunk_state : string;
  chunk_progressMessage : option string
}.

Record ErrorResponse : Type := {
  error_flag : bool;
  error_message : string;
  error_stack : string;
  error_timestamp : string
}.

Record ResponseMetadata : Type := {
  meta_timestamp : string;
  meta_model : string;
  meta_temperature : Q;
  meta_maxTokens : Q;
  totalCharacters : nat
}.

Record FinalResponse : Type := {
  final_model : string;
  response : string;
  final_chunkCount : nat;
  final_messages : list JSON;
  updatedMessages : list JSON;
  final_metadata : ResponseMetadata
}.

Record McpMetadata : Type := {
  mcp_timestamp : string;
  mcp_temperature : Q;
  mcp_maxTokens : Q;
  mcp_source : string;
  mcp_done : bool
}.

Record McpOutput : Type := {
  mcp_type : string;
  mcp_content : string;
  mcp_model : string;
  mcp_metadata : McpMetadata;
  mcp_providerId : option string
}.

(** [INodeExecutionData] as the streaming nodes build it. *)
Inductive NodeItem : Type :=
| ChunkItem (c : StreamChunk)
| FinalItem (f : FinalResponse)
| McpItem (m : McpOutput)
| ErrorItem (e : ErrorResponse).

(** What [execute] of a streaming node can touch: the clock and the local
    array [streamOutput] that the chunk callback closes over. *)
Record Store : Type := {
  ticks : nat;
  streamOutput : list NodeItem
}.

(** What [sendOpenAIRequest] and [sendClaudeRequest] resolve to. *)
Record SendResult : Type := {
  fullResponse : string;
  chunkCount : nat
}.

Section StoreOps.
Variable P : Platform.

(** [new Date().toISOString()]. *)
Definition now_iso : Js Store string :=
  fun st =>
    (Normal (toISOString P (Date_now P (ticks st))),
     {| ticks := S (ticks st); streamOutput := streamOutput st |}).

(** [const streamOutput = []]. *)
Definition new_streamOutput : Js Store unit :=
  fun st => (Normal tt, {| ticks := ticks st; streamOutput := [] |}).

(** [streamOutput.push(item)]. *)
Definition push_streamOutput (item : NodeItem) : Js Store unit :=
  fun st =>
    (Normal tt, {| ticks := ticks st; streamOutput := streamOutput st ++ [item] |}).

Definition read_streamOutput : Js Store (list NodeItem) :=
  fun st => (Normal (streamOutput st), st).

(** [formatErrorResponse], the same function in both services. *)
Definition formatErrorResponse (error : JSError) : Js Store NodeItem :=
  timestamp <- now_iso ;;
  ret (ErrorItem {| error_flag := true;
                    error_message := JS.or_string (err_message error) "Unknown error";
                    error_stack := JS.or_string (err_stack error) "";
                    error_timestamp := timestamp |}).

End StoreOps.

(** ** OpenAIService *)

Module OpenAIService.

Record OpenAIConfig : Type := {
  apiKey : string;
  organization : option string;
  baseURL : option string
}.

Record OpenAIRequestOptions : Type := {
  model : string;
  systemPrompt : option string;
  messages : list JSON;
  temperature : Q;
  maxTokens : Q;
  stream : bool
}.

(** The body of [openai.chat.completions.create]. *)
Record ChatCompletionCreate : Type := {
  create_model : string;
  create_messages : list JSON;
  create_temperature : Q;
  create_max_tokens : Q;
  create_stream : bool
}.

(** One element of the provider stream, as far as the loop reads it. *)
Record Delta : Type := { content : option string }.
Record Choice : Type := { delta : option Delta }.
Record ChatCompletionChunk : Type := { choices : list Choice }.

(** [chunk.choices[0]?.delta?.content || '']. *)
Definition chunk_content (chunk : ChatCompletionChunk) : string :=
  match choices chunk with
  | [] => ""
  | first :: _ =>
      match delta first with
      | None => ""
      | Some d =>
          match content d with
          | None => ""
          | Some text => JS.or_string text ""
          end
      end
  end.

(** A provider chunk that carries the fragment [text]. *)
Definition chunk_of_fragment (text : string) : ChatCompletionChunk :=
  {| choices := [ {| delta := Some {| content := Some text |} |} ] |}.

Definition message (role text : string) : JSON :=
  JObject [("role", JString role); ("content", JString text)].

(** The [messages] array and the request [sendOpenAIRequest] builds. *)
Definition create_request (options : OpenAIRequestOptions) : ChatCompletionCreate :=
  let system :=
    match systemPrompt options with
    | Some prompt => if JS.truthy_string prompt then [message "system" prompt] else []
    | None => []
    end in
  let messages := system ++ messages options in
  {| create_model := model options;
     create_messages := messages;
     create_temperature := temperature options;
     create_max_tokens := maxTokens options;
     create_stream := true |}.

Section Service.
Variable P : Platform.
(** The OpenAI client: the request either rejects or resolves to a stream. *)
Variable chat_completions_create :
  OpenAIConfig -> ChatCompletionCreate -> JSError + AsyncStream ChatCompletionChunk.

Section Send.
Context {St : Type}.

(** The [for await (const chunk of stream)] loop of [sendOpenAIRequest],
    started with the current values of [fullResponse] and [chunkCount]. *)
Fixpoint for_await (onChunk : option (string -> nat -> Js St unit))
    (stream : AsyncStream ChatCompletionChunk)
    (fullResponse : string) (chunkCount : nat) : Js St SendResult :=
  match stream with
  | Done => ret {| fullResponse := fullResponse; chunkCount := chunkCount |}
  | Fails e => throw e
  | Yield chunk rest =>
      let content := chunk_content chunk in
      if JS.truthy_string content then
        let fullResponse := (fullResponse ++ content)%string in
        let chunkCount := S chunkCount in
        match onChunk with
        | Some callback =>
            callback content (chunkCount - 1) ;;;
            for_await onChunk rest fullResponse chunkCount
        | None => for_await onChunk rest fullResponse chunkCount
        end
      else for_await onChunk rest fullResponse chunkCount
  end.

Definition sendOpenAIRequest (config : OpenAIConfig) (options : OpenAIRequestOptions)
    (onChunk : option (string -> nat -> Js St unit)) : Js St SendResult :=
  stream <- lift_sum (chat_completions_create config (create_request options)) ;;
  for_await onChunk stream "" 0.

End Send.

(** [messageObj.role && messageObj.content] inside the [try] block; [None]
    when the member access throws. *)
Definition has_role_and_content (messageObj : JSON) : option bool :=
  match JS.get_member messageObj "role" with
  | inl _ => None
  | inr role =>
      if JS.truthy_opt role then
        match JS.get_member messageObj "content" with
        | inl _ => None
        | inr content => Some (JS.truthy_opt content)
        end
      else Some false
  end.

Definition processUserMessage (userMessage : JSON) : list JSON :=
  match userMessage with
  | JString text =>
      match JSON_parse P text with
      | Some messageObj =>
          match has_role_and_content messageObj with
          | Some true => [messageObj]
          | _ => [message "user" text]
          end
      | None => [message "user" text]
      end
  | JArray elements => elements
  | JObject _ => [userMessage]
  | _ => [message "user" "Hello"]
  end.

Definition createFinalResponseObject (model : string) (fullResponse : string)
    (chunkCount : nat) (messages : list JSON) (temperature maxTokens : Q)
    : Js Store FinalResponse :=
  timestamp <- now_iso P ;;
  ret {| final_model := model;
         response := fullResponse;
         final_chunkCount := chunkCount;
         final_messages := messages;
         updatedMessages := messages ++ [message "assistant" fullResponse];
         final_metadata := {| meta_timestamp := timestamp;
                              meta_model := model;
                              meta_temperature := temperature;
                              meta_maxTokens := maxTokens;
                              totalCharacters := String.length fullResponse |} |}.

(** [stateOverride || fallback], with [None] for an omitted argument. *)
Definition state_or (stateOverride : option string) (fallback : string) : string :=
  match stateOverride with
  | Some state => JS.or_string state fallback
  | None => fallback
  end.

(** [if (progressMessage) json.progressMessage = progressMessage]. *)
Definition progress_field (progressMessage : option string) : option string :=
  match progressMessage with
  | Some text => if JS.truthy_string text then Some text else None
  | None => None
  end.

Definition formatStreamChunk (model text : string) (chunkIndex : nat)
    (stateOverride progressMessage : option string) : Js Store NodeItem :=
  timestamp <- now_iso P ;;
  ret (ChunkItem {| chunk_model := model;
                    chunk_text := text;
                    chunkIndex := chunkIndex;
                    chunk_timestamp := timestamp;
                    chunk_state := state_or stateOverride ChatState.RESPONDING;
                    chunk_progressMessage := progress_field progressMessage |}).

Definition createCompletionChunk (model : string) (chunkCount : nat)
    (stateOverride progressMessage : option string) : Js Store NodeItem :=
  timestamp <- now_iso P ;;
  ret (ChunkItem {| chunk_model := model;
                    chunk_text := " ";
                    chunkIndex := chunkCount;
                    chunk_timestamp := timestamp;
                    chunk_state := state_or stateOverride ChatState.COMPLETE;
                    chunk_progressMessage := progress_field progressMessage |}).

End Service.
End OpenAIService.

(** ** GravityOpenAI *)

Module GravityOpenAI.
Import OpenAIService.

Record OpenAiApiCredentials : Type := {
  cred_apiKey : string;
  cred_organizationId : option string
}.

(** What [execute] works with once it has read its parameters: the node
    parameters as [getNodeParameter(name, 0, fallback)] has resolved them,
    and the outcome of [getCredentials("openAiApi")]. *)
Record Context : Type := {
  param_model : string;
  param_systemPrompt : string;
  param_temperature : Q;
  param_maxTokens : Q;
  param_message : JSON;
  param_baseURL : string;
  credentials : JSError + OpenAiApiCredentials
}.

(** A node parameter as the workflow stores it, seen through what
    [getNodeParameter(name, itemIndex, fallback)] makes of it: the workflow
    engine resolves it for an item index against the items on the main
    input, and resolution can throw. A fixed value resolves to itself; an
    expression such as [={{ $json.message }}] reads the item at the index. *)
Definition NodeParameter (A : Type) : Type := list JSON -> nat -> JSError + A.

Definition fixed {A : Type} (a : A) : NodeParameter A := fun _ _ => inr a.

Definition of_item {A : Type} (read : option JSON -> JSError + A) : NodeParameter A :=
  fun items itemIndex => read (nth_error items itemIndex).

(** What [this] gives to [execute]: the items on the main input, the node
    parameters as stored, and the outcome of [getCredentials]. *)
Record Invocation : Type := {
  inputData : list JSON;
  node_model : NodeParameter string;
  node_systemPrompt : NodeParameter string;
  node_temperature : NodeParameter Q;
  node_maxTokens : NodeParameter Q;
  node_message : NodeParameter JSON;
  node_baseURL : NodeParameter string;
  node_credentials : JSError + OpenAiApiCredentials
}.

(** The same invocation with other items on the main input. *)
Definition with_inputData (this : Invocation) (items : list JSON) : Invocation :=
  {| inputData := items;
     node_model := node_model this;
     node_systemPrompt := node_systemPrompt this;
     node_temperature := node_temperature this;
     node_maxTokens := node_maxTokens this;
     node_message := node_message this;
     node_baseURL := node_baseURL this;
     node_credentials := node_credentials this |}.

(** [this.getNodeParameter(name, itemIndex, fallback)] for the parameter
    [parameter]. *)
Definition getNodeParameter {St A : Type} (this : Invocation) (parameter : NodeParameter A)
    (itemIndex : nat) : Js St A :=
  lift_sum (parameter (inputData this) itemIndex).

Section Node.
Variable P : Platform.
Variable chat_completions_create :
  OpenAIConfig -> ChatCompletionCreate -> JSError + AsyncStream ChatCompletionChunk.

(** The arrow function passed as [onChunk]. *)
Definition onChunk (model : string) (text : string) (chunkIndex : nat) : Js Store unit :=
  item <- formatStreamChunk P model text chunkIndex None None ;;
  push_streamOutput item.

(** The [openAIConfig] object of [execute]. *)
Definition openAIConfig (this : Context) (openAICredentials : OpenAiApiCredentials)
    : OpenAIConfig :=
  let baseURL := param_baseURL this in
  {| apiKey := cred_apiKey openAICredentials;
     organization := cred_organizationId openAICredentials;
     baseURL := if JS.truthy_string baseURL then Some baseURL else None |}.

(** The [requestOptions] object of [execute]. *)
Definition requestOptions (this : Context) : OpenAIRequestOptions :=
  {| model := param_model this;
     systemPrompt := Some (param_systemPrompt this);
     messages := processUserMessage P (param_message this);
     temperature := param_temperature this;
     maxTokens := param_maxTokens this;
     stream := true |}.

(** The [try] block of [execute], past its six calls of
    [getNodeParameter]. *)
Definition execute_body (this : Context) : Js Store (list (list NodeItem)) :=
  let model := param_model this in
  let temperature := param_temperature this in
  let maxTokens := param_maxTokens this in
  openAICredentials <- lift_sum (credentials this) ;;
  let messages := processUserMessage P (param_message this) in
  new_streamOutput ;;;
  sent <- sendOpenAIRequest chat_completions_create
            (openAIConfig this openAICredentials) (requestOptions this)
            (Some (onChunk model)) ;;
  completion <- createCompletionChunk P model (chunkCount sent) None None ;;
  push_streamOutput completion ;;;
  finalResponseObject <- createFinalResponseObject P model (fullResponse sent)
                           (chunkCount sent) messages temperature maxTokens ;;
  streamOutput <- read_streamOutput ;;
  ret [streamOutput; [FinalItem finalResponseObject]].

(** [execute] on parameters that have resolved to the values in [this]. *)
Definition execute (this : Context) : Js Store (list (list NodeItem)) :=
  try_catch (execute_body this)
    (fun error =>
       errorResponse <- formatErrorResponse P error ;;
       ret [[errorResponse]; [errorResponse]]).

(** The six calls of [getNodeParameter] that open the [try] block, all of
    them with [itemIndex = 0]. *)
Definition getNodeParameters (this : Invocation) : Js Store Context :=
  let itemIndex := 0 in
  model <- getNodeParameter this (node_model this) itemIndex ;;
  systemPrompt <- getNodeParameter this (node_systemPrompt this) itemIndex ;;
  temperature <- getNodeParameter this (node_temperature this) itemIndex ;;
  maxTokens <- getNodeParameter this (node_maxTokens this) itemIndex ;;
  userMessage <- getNodeParameter this (node_message this) itemIndex ;;
  baseURL <- getNodeParameter this (node_baseURL this) itemIndex ;;
  ret {| param_model := model;
         param_systemPrompt := systemPrompt;
         param_temperature := temperature;
         param_maxTokens := maxTokens;
         param_message := userMessage;
         param_baseURL := baseURL;
         credentials := node_credentials this |}.

(** [execute] from the parameters as stored: the [try] block resolves them
    and goes on as [execute_body]; an error of the resolution is caught
    like any other. *)
Definition execute_invocation (this : Invocation) : Js Store (list (list NodeItem)) :=
  try_catch (resolved <- getNodeParameters this ;; execute_body resolved)
    (fun error =>
       errorResponse <- formatErrorResponse P error ;;
       ret [[errorResponse]; [errorResponse]]).

End Node.
End GravityOpenAI.

(** ** BedrockService *)

Module BedrockService.

Record McpTool : Type := {
  name : JSON;
  description : JSON;
  inputSchema : JSON
}.

Record BedrockConfig : Type := {
  region : string;
  accessKeyId : string;
  secretAccessKey : string
}.

Record ClaudeRequestOptions : Type := {
  model : string;
  systemPrompt : option string;
  messages : list JSON;
  temperature : Q;
  maxTokens : Q;
  enableTools : bool;
  mcpTools : list McpTool;
  enableAnyTool : option bool;
  toolChoice : option string
}.

Record ToolConfig : Type := {
  tools : list McpTool;            (* one toolSpec per tool *)
  any : bool;                      (* toolConfig.any = {} was set *)
  tool_choice_name : option string (* toolConfig.toolChoice.tool.name *)
}.

(** The input of [ConverseStreamCommand]. *)
Record CommandInput : Type := {
  modelId : string;
  system : option (list string);
  input_messages : list JSON;
  inference_temperature : Q;
  inference_maxTokens : Q;
  toolConfig : option ToolConfig
}.

(** One event of the Converse stream, as far as the loop reads it. *)
Record BlockDelta : Type := { text : option string }.
Record ContentBlockDeltaEvent : Type := { delta : option BlockDelta }.
Record ConverseStreamOutput : Type := { contentBlockDelta : option ContentBlockDeltaEvent }.

(** The response of [bedrockClient.send]; [stream] may be undefined. *)
Record ConverseStreamResponse : Type := {
  stream : option (AsyncStream ConverseStreamOutput)
}.

(** [chunkAny.contentBlockDelta?.delta?.text], [""] standing for every
    falsy outcome. *)
Definition chunk_text_of (chunk : ConverseStreamOutput) : string :=
  match contentBlockDelta chunk with
  | None => ""
  | Some event =>
      match delta event with
      | None => ""
      | Some d =>
          match text d with
          | None => ""
          | Some t => t
          end
      end
  end.

(** A Converse event that carries the fragment [t]. *)
Definition chunk_of_fragment (t : string) : ConverseStreamOutput :=
  {| contentBlockDelta := Some {| delta := Some {| text := Some t |} |} |}.

Definition text_message (role t : string) : JSON :=
  JObject [("role", JString role);
           ("content", JArray [JObject [("text", JString t)]])].

(** A call that passes more arguments than the callee declares: JavaScript
    evaluates and drops the surplus. *)
Definition call_with_surplus {A B : Type} (callee : A) (surplus : B) : A := callee.

Definition build_toolConfig (options : ClaudeRequestOptions) : option ToolConfig :=
  if enableTools options && Nat.ltb 0 (List.length (mcpTools options)) then
    Some {| tools := mcpTools options;
            any := match enableAnyTool options with
                   | Some true => true
                   | _ => false
                   end;
            tool_choice_name :=
              match toolChoice options with
              | Some choice => if JS.truthy_string choice then Some choice else None
              | None => None
              end |}
  else None.

(** The [commandInput] object [sendClaudeRequest] builds. *)
Definition commandInput (options : ClaudeRequestOptions) : CommandInput :=
  {| modelId := model options;
     system := match systemPrompt options with
               | Some prompt => if JS.truthy_string prompt then Some [prompt] else None
               | None => None
               end;
     input_messages := messages options;
     inference_temperature := temperature options;
     inference_maxTokens := maxTokens options;
     toolConfig := build_toolConfig options |}.

Section Service.
Variable P : Platform.
(** The Bedrock client: the command either rejects or resolves. *)
Variable bedrock_send : BedrockConfig -> CommandInput -> JSError + ConverseStreamResponse.

Section Send.
Context {St : Type}.

(** The [for await (const chunk of converseStream.stream)] loop of
    [sendClaudeRequest], started with the current values of [fullResponse]
    and [chunkCount]. *)
Fixpoint for_await (onChunk : option (string -> nat -> Js St unit))
    (stream : AsyncStream ConverseStreamOutput)
    (fullResponse : string) (chunkCount : nat) : Js St SendResult :=
  match stream with
  | Done => ret {| fullResponse := fullResponse; chunkCount := chunkCount |}
  | Fails e => throw e
  | Yield chunk rest =>
      if JS.truthy_string (chunk_text_of chunk) then
        let text := chunk_text_of chunk in
        let fullResponse := (fullResponse ++ text)%string in
        let chunkCount := S chunkCount in
        match onChunk with
        | Some callback =>
            callback text (chunkCount - 1) ;;;
            for_await onChunk rest fullResponse chunkCount
        | None => for_await onChunk rest fullResponse chunkCount
        end
      else for_await onChunk rest fullResponse chunkCount
  end.

Definition sendClaudeRequest (config : BedrockConfig) (options : ClaudeRequestOptions)
    (onChunk : option (string -> nat -> Js St unit)) : Js St SendResult :=
  converseStream <- lift_sum (bedrock_send config (commandInput options)) ;;
  match stream converseStream with
  | Some s => for_await onChunk s "" 0
  | None => ret {| fullResponse := ""; chunkCount := 0 |}
  end.

End Send.

(** [messageObj.role && messageObj.content] inside the [try] block; [None]
    when the member access throws. *)
Definition has_role_and_content (messageObj : JSON) : option bool :=
  match JS.get_member messageObj "role" with
  | inl _ => None
  | inr role =>
      if JS.truthy_opt role then
        match JS.get_member messageObj "content" with
        | inl _ => None
        | inr content => Some (JS.truthy_opt content)
        end
      else Some false
  end.

Definition processUserMessage (userMessage : JSON) : list JSON :=
  match userMessage with
  | JString t =>
      match JSON_parse P t with
      | Some messageObj =>
          match has_role_and_content messageObj with
          | Some true => [messageObj]
          | _ => [text_message "user" t]
          end
      | None => [text_message "user" t]
      end
  | JArray _ => [userMessage]
  | JObject _ => [userMessage]
  | _ => [text_message "user" "Hello"]
  end.

(** [toolInput.json?.tool] and the membership tests of [extractMcpTools]. *)
Definition tool_of_input (json : JSON) : option McpTool :=
  match json with
  | JObject members =>
      match JS.lookup "tool" members with
      | Some (JObject tool) =>
          if JS.has_member "name" tool && JS.has_member "description" tool
             && JS.has_member "inputSchema" tool
          then
            match JS.lookup "name" tool, JS.lookup "description" tool,
                  JS.lookup "inputSchema" tool with
            | Some n, Some d, Some s =>
                Some {| name := n; description := d; inputSchema := s |}
            | _, _, _ => None
            end
          else None
      | _ => None
      end
  | _ => None
  end.

Fixpoint extractMcpTools (toolInputs : list JSON) : list McpTool :=
  match toolInputs with
  | [] => []
  | toolInput :: rest =>
      match tool_of_input toolInput with
      | Some tool => tool :: extractMcpTools rest
      | None => extractMcpTools rest
      end
  end.

(** [formatMcpOutput]; [useMcpProvider] is [None] when the caller omits it,
    and then takes its default [true]. *)
Definition formatMcpOutput (fullResponse model : string) (temperature maxTokens : Q)
    (useMcpProvider : option bool) : Js Store NodeItem :=
  timestamp <- now_iso P ;;
  ret (McpItem {| mcp_type := "text";
                  mcp_content := fullResponse;
                  mcp_model := JS.before_colon model;
                  mcp_metadata := {| mcp_timestamp := timestamp;
                                     mcp_temperature := temperature;
                                     mcp_maxTokens := maxTokens;
                                     mcp_source := "claude";
                                     mcp_done := true |};
                  mcp_providerId :=
                    match useMcpProvider with
                    | Some false => None
                    | _ => Some "mcp"
                    end |}).

Definition createFinalResponseObject (model : string) (fullResponse : string)
    (chunkCount : nat) (messages : list JSON) (temperature maxTokens : Q)
    : Js Store FinalResponse :=
  timestamp <- now_iso P ;;
  ret {| final_model := model;
         response := fullResponse;
         final_chunkCount := chunkCount;
         final_messages := messages;
         updatedMessages := messages ++ [text_message "assistant" fullResponse];
         final_metadata := {| meta_timestamp := timestamp;
                              meta_model := model;
                              meta_temperature := temperature;
                              meta_maxTokens := maxTokens;
                              totalCharacters := String.length fullResponse |} |}.

(** [formatStreamChunk(model, text, chunkIndex)]: three parameters. *)
Definition formatStreamChunk (model text : string) (chunkIndex : nat)
    : Js Store NodeItem :=
  timestamp <- now_iso P ;;
  ret (ChunkItem {| chunk_model := model;
                    chunk_text := text;
                    chunkIndex := chunkIndex;
                    chunk_timestamp := timestamp;
                    chunk_state := ChatState.RESPONDING;
                    chunk_progressMessage := None |}).

(** [createCompletionChunk(model, chunkCount)]: two parameters. *)
Definition createCompletionChunk (model : string) (chunkCount : nat)
    : Js Store NodeItem :=
  timestamp <- now_iso P ;;
  ret (ChunkItem {| chunk_model := model;
                    chunk_text := " ";
                    chunkIndex := chunkCount;
                    chunk_timestamp := timestamp;
                    chunk_state := ChatState.COMPLETE;
                    chunk_progressMessage := None |}).

End Service.
End BedrockService.

(** ** GravityClaude *)

Module GravityClaude.
Import BedrockService.

Record AwsCredentials : Type := {
  cred_accessKeyId : string;
  cred_secretAccessKey : string
}.

(** The [advancedOptions] collection; a member is [None] when not set. *)
Record AdvancedOptions : Type := {
  state : option string;
  progressMessage : option string
}.

(** What [this] gives to [execute]: the items on the second input
    ([getInputData(1)], which may be undefined), the node parameters as
    [getNodeParameter(name, 0, fallback)] resolves them, the outcome of
    [getCredentials("aws")] and [process.env.AWS_REGION]. *)
Record Context : Type := {
  toolInputData : option (list JSON);
  param_model : string;
  param_systemPrompt : string;
  param_temperature : Q;
  param_maxTokens : Q;
  param_message : JSON;
  param_enableAnyTool : bool;
  param_toolChoice : string;
  param_advancedOptions : AdvancedOptions;
  credentials : JSError + AwsCredentials;
  env_AWS_REGION : option string
}.

(** The same invocation with other advanced options. *)
Definition with_advancedOptions (this : Context) (advancedOptions : AdvancedOptions)
    : Context :=
  {| toolInputData := toolInputData this;
     param_model := param_model this;
     param_systemPrompt := param_systemPrompt this;
     param_temperature := param_temperature this;
     param_maxTokens := param_maxTokens this;
     param_message := param_message this;
     param_enableAnyTool := param_enableAnyTool this;
     param_toolChoice := param_toolChoice this;
     param_advancedOptions := advancedOptions;
     credentials := credentials this;
     env_AWS_REGION := env_AWS_REGION this |}.

Section Node.
Variable P : Platform.
Variable bedrock_send : BedrockConfig -> CommandInput -> JSError + ConverseStreamResponse.

(** The arrow function passed as [onChunk]: it hands [advancedOptions.state]
    and [advancedOptions.progressMessage] to [formatStreamChunk] as fourth
    and fifth argument. *)
Definition onChunk (model : string) (advancedOptions : AdvancedOptions)
    (text : string) (chunkIndex : nat) : Js Store unit :=
  item <- call_with_surplus (formatStreamChunk P model text chunkIndex)
            (state advancedOptions, progressMessage advancedOptions) ;;
  push_streamOutput item.

(** The [bedrockConfig] object of [execute]. *)
Definition bedrockConfig (this : Context) (awsCredentials : AwsCredentials)
    : BedrockConfig :=
  {| region := match env_AWS_REGION this with
               | Some r => JS.or_string r "us-east-1"
               | None => "us-east-1"
               end;
     accessKeyId := cred_accessKeyId awsCredentials;
     secretAccessKey := cred_secretAccessKey awsCredentials |}.

(** [this.getInputData(1) || []]. *)
Definition toolInputs (this : Context) : list JSON :=
  match toolInputData this with
  | Some items => items
  | None => []
  end.

(** The [requestOptions] object of [execute]. *)
Definition requestOptions (this : Context) : ClaudeRequestOptions :=
  let mcpTools := extractMcpTools (toolInputs this) in
  let toolChoice := param_toolChoice this in
  {| model := param_model this;
     systemPrompt := Some (param_systemPrompt this);
     messages := processUserMessage P (param_message this);
     temperature := param_temperature this;
     maxTokens := param_maxTokens this;
     enableTools := Nat.ltb 0 (List.length mcpTools);
     mcpTools := mcpTools;
     enableAnyTool := Some (param_enableAnyTool this);
     toolChoice := if JS.truthy_string (JS.trim toolChoice)
                   then Some (JS.trim toolChoice) else None |}.

(** The [try] block of [execute]. *)
Definition execute_body (this : Context) : Js Store (list (list NodeItem)) :=
  let model := param_model this in
  let temperature := param_temperature this in
  let maxTokens := param_maxTokens this in
  let advancedOptions := param_advancedOptions this in
  awsCredentials <- lift_sum (credentials this) ;;
  let messages := processUserMessage P (param_message this) in
  new_streamOutput ;;;
  sent <- sendClaudeRequest bedrock_send (bedrockConfig this awsCredentials)
            (requestOptions this) (Some (onChunk model advancedOptions)) ;;
  completion <- call_with_surplus (createCompletionChunk P model (chunkCount sent))
                  (state advancedOptions, progressMessage advancedOptions) ;;
  push_streamOutput completion ;;;
  finalResponseObject <- createFinalResponseObject P model (fullResponse sent)
                           (chunkCount sent) messages temperature maxTokens ;;
  mcpOutput <- formatMcpOutput P (fullResponse sent) model temperature maxTokens None ;;
  streamOutput <- read_streamOutput ;;
  ret [streamOutput; [FinalItem finalResponseObject]; [mcpOutput]].

Definition execute (this : Context) : Js Store (list (list NodeItem)) :=
  try_catch (execute_body this)
    (fun error =>
       errorResponse <- formatErrorResponse P error ;;
       ret [[errorResponse]; [errorResponse]; [errorResponse]]).

End Node.
End GravityClaude.

(** ** Envelopes and the event bus *)

Module Envelope.

(** The [baseEvent] object literal of GravityOutput and GravityUpdate. *)
Record BaseEvent : Type := {
  id : string;
  chatId : string;
  conversationId : string;
  userId : string;
  providerId : string;
  timestamp : Z;
  state : string
}.

Record VoiceConfig : Type := {
  enabled : bool;
  textField : string
}.

Inductive Payload : Type :=
| TextPayload (content : string) (voiceConfig : option VoiceConfig)
| JsonDataPayload (_dataType : string) (items : list JSON)
| ImageResponsePayload (url alt : string)
| ToolOutputPayload (tool : string) (result : JSON)
| ActionSuggestionPayload (type : string) (payload : JSON)
| ProgressUpdatePayload (message : string)
| MessageChunkPayload (text : string)
| MetadataPayload (serialized : string).

Record Message : Type := {
  base : BaseEvent;
  type : string;
  payload : Payload
}.

(** Modelled from the spec: the message constructors of gravity-server
    ([createText], [createJsonData], [createImageResponse],
    [createToolOutput], [createActionSuggestion], [createProgressUpdate],
    [createMessageChunk], [createMetadata]) are not part of the sources; by
    the spec (section 4.2) each attaches its discriminant and its payload to
    the base envelope and does nothing else. *)
Definition createMessage (baseEvent : BaseEvent) (discriminant : string)
    (p : Payload) : Message :=
  {| base := baseEvent; type := discriminant; payload := p |}.

Definition createText (baseEvent : BaseEvent) (text : string) : Message :=
  createMessage baseEvent MessageType.TEXT (TextPayload text None).

(** [formattedData] is the object [{ _dataType, items }]. *)
Definition createJsonData (baseEvent : BaseEvent) (formattedData : string * list JSON)
    : Message :=
  createMessage baseEvent MessageType.JSON_DATA
    (JsonDataPayload (fst formattedData) (snd formattedData)).

Definition createImageResponse (baseEvent : BaseEvent) (url alt : string) : Message :=
  createMessage baseEvent MessageType.IMAGE_RESPONSE (ImageResponsePayload url alt).

Definition createToolOutput (baseEvent : BaseEvent) (tool : string) (result : JSON)
    : Message :=
  createMessage baseEvent MessageType.TOOL_OUTPUT (ToolOutputPayload tool result).

Definition createActionSuggestion (baseEvent : BaseEvent) (actionType : string)
    (p : JSON) : Message :=
  createMessage baseEvent MessageType.ACTION_SUGGESTION (ActionSuggestionPayload actionType p).

Definition createProgressUpdate (baseEvent : BaseEvent) (message : string) : Message :=
  createMessage baseEvent MessageType.PROGRESS_UPDATE (ProgressUpdatePayload message).

Definition createMessageChunk (baseEvent : BaseEvent) (text : string) : Message :=
  createMessage baseEvent MessageType.MESSAGE_CHUNK (MessageChunkPayload text).

Definition createMetadata (baseEvent : BaseEvent) (metadataStr : string) : Message :=
  createMessage baseEvent MessageType.METADATA (MetadataPayload metadataStr).

(** [message.voiceConfig = config]. *)
Definition set_voiceConfig (message : Message) (config : VoiceConfig) : Message :=
  match payload message with
  | TextPayload content _ =>
      {| base := base message; type := type message;
         payload := TextPayload content (Some config) |}
  | _ => message
  end.

(** The [items] member of a jsonData message. *)
Definition items_of (message : Message) : option (list JSON) :=
  match payload message with
  | JsonDataPayload _ items => Some items
  | _ => None
  end.

(** What [Publisher.fromCredentials] is given. *)
Record Publisher : Type := {
  serverUrl : string;
  publisher_apiKey : string;
  publisher_providerId : string
}.

Record GravityApiCredentials : Type := {
  cred_serverUrl : string;
  cred_apiKey : string
}.

(** What a publishing node can touch outside its local variables: the
    clock, the random generator, the calls made to [publishEvent] (channel
    and message, in order) and the texts given to [sendMessageToUI]. *)
Record World : Type := {
  clock : nat;
  draws : nat;
  publishCalls : list (string * Message);
  uiMessages : list string
}.

Section Bus.
Variable P : Platform.
(** The bus client: [None] when the publication resolves, the reason of the
    rejection otherwise. *)
Variable publish_outcome : Publisher -> string -> Message -> option Thrown.

(** [Date.now()]. *)
Definition DateNow : JsT World Z :=
  fun w =>
    (Normal (Date_now P (clock w)),
     {| clock := S (clock w); draws := draws w;
        publishCalls := publishCalls w; uiMessages := uiMessages w |}).

(** [Math.random().toString(36).substr(2, 9)]. *)
Definition randomToken : JsT World string :=
  fun w =>
    (Normal (Math_random_token P (draws w)),
     {| clock := clock w; draws := S (draws w);
        publishCalls := publishCalls w; uiMessages := uiMessages w |}).

(** [new Date().toISOString()]. *)
Definition nowISO : JsT World string :=
  now <- DateNow ;;
  ret (toISOString P now).

(** [new NodeOperationError(this.getNode(), message, { itemIndex })]. The
    error classes of n8n-workflow record the time of their construction:
    the constructor reads the clock once. *)
Definition newNodeOperationError (message : string) : JsT World JSError :=
  DateNow ;;;
  ret (NodeOperationError message).

(** [new NodeOperationError(this.getNode(), error, { itemIndex })] for a
    caught [Error]: the new error takes over its message and stack. *)
Definition wrapNodeOperationError (error : JSError) : JsT World JSError :=
  DateNow ;;;
  ret {| err_name := "NodeOperationError";
         err_message := err_message error;
         err_stack := err_stack error |}.

(** [throw new NodeOperationError(this.getNode(), message, { itemIndex })]. *)
Definition throwNodeOperationError {A} (message : string) : JsT World A :=
  error <- newNodeOperationError message ;;
  throw (AnError error).

(** [this.sendMessageToUI(text)]. *)
Definition sendMessageToUI (text : string) : JsT World unit :=
  fun w =>
    (Normal tt,
     {| clock := clock w; draws := draws w;
        publishCalls := publishCalls w; uiMessages := uiMessages w ++ [text] |}).

(** [await publisher.publishEvent(channel, message)]. *)
Definition publishEvent (publisher : Publisher) (channel : string) (message : Message)
    : JsT World unit :=
  fun w =>
    let w' := {| clock := clock w; draws := draws w;
                 publishCalls := publishCalls w ++ [(channel, message)];
                 uiMessages := uiMessages w |} in
    match publish_outcome publisher channel message with
    | None => (Normal tt, w')
    | Some e => (Throw e, w')
    end.

(** The object literal [{ id: `${Date.now()}-${Math.random()...}`, chatId,
    conversationId, userId, providerId, timestamp: Date.now(), state }]. *)
Definition newBaseEvent (chatId conversationId userId providerId state : string)
    : JsT World BaseEvent :=
  now <- DateNow ;;
  token <- randomToken ;;
  timestamp <- DateNow ;;
  ret {| id := (JS.Number_toString now ++ "-" ++ token)%string;
         chatId := chatId;
         conversationId := conversationId;
         userId := userId;
         providerId := providerId;
         timestamp := timestamp;
         state := state |}.

(** [`n8n:${workflowId}:${nodeId}`] with the two [|| "unknown"] fallbacks. *)
Definition nodeProviderId (workflowId nodeId : option string) : string :=
  let w := match workflowId with
           | Some i => JS.or_string i "unknown"
           | None => "unknown"
           end in
  let n := match nodeId with
           | Some i => JS.or_string i "unknown"
           | None => "unknown"
           end in
  ("n8n:" ++ w ++ ":" ++ n)%string.

(** [Array.isArray(parsedData) ? parsedData : [parsedData]]. *)
Definition dataArray (parsedData : JSON) : list JSON :=
  match parsedData with
  | JArray elements => elements
  | _ => [parsedData]
  end.

End Bus.
End Envelope.

(** ** GravityOutput *)

Module GravityOutput.
Import Envelope.

(** The node parameters as [getNodeParameter(name, itemIndex, fallback)]
    resolves them for one item. *)
Record Parameters : Type := {
  param_conversationId : string;
  param_chatId : string;
  param_userId : string;
  param_outputType : string;
  param_advancedOptions : bool;
  param_state : string;
  param_textContent : string;
  param_enableAudio : bool;
  param_jsonData : string;
  param_jsonDataFieldName : string;
  param_imageUrl : string;
  param_imageAlt : string;
  param_toolName : string;
  param_actionType : string;
  param_errorHandling : string
}.

(** One input item: its [json] members and the parameters resolved for it. *)
Record InputItem : Type := {
  json : list (string * JSON);
  parameters : Parameters
}.

Record Context : Type := {
  inputData : list InputItem;
  credentials : Thrown + GravityApiCredentials;
  workflowId : option string;
  nodeId : option string
}.

(** The [json] of an element of [returnData]; [inherited] is the spread
    [...items[itemIndex].json], [error] the value of
    [error.message || "Unknown error in Gravity Output"]. *)
Inductive ReturnItem : Type :=
| Sent (inherited : list (string * JSON))
       (outputType state timestamp conversationId chatId userId : string)
| NotSent (inherited : list (string * JSON)) (error : JSON).

Section Node.
Variable P : Platform.
Variable publish_outcome : Publisher -> string -> Message -> option Thrown.
Variable AI_RESULT_CHANNEL : string.

(** The [switch (outputType)] statement. *)
Definition dispatch (publisher : Publisher) (baseEvent : BaseEvent) (p : Parameters)
    : JsT World unit :=
  let outputType := param_outputType p in
  if String.eqb outputType MessageType.TEXT then
    let text := param_textContent p in
    let enableAudio := param_enableAudio p in
    sendMessageToUI ("Sending text: " ++ JS.substring0 50 text ++ "...")%string ;;;
    let message := createText baseEvent text in
    let message :=
      if enableAudio
      then set_voiceConfig message {| enabled := true; textField := "text" |}
      else message in
    publishEvent publish_outcome publisher AI_RESULT_CHANNEL message
  else if String.eqb outputType MessageType.JSON_DATA then
    try_catch
      (let jsonDataStr := param_jsonData p in
       let jsonDataFieldName := param_jsonDataFieldName p in
       match JSON_parse P jsonDataStr with
       | None => throw (AnError (JSON_parse_error P jsonDataStr))
       | Some parsedData =>
           sendMessageToUI ("Sending JSON data with field name: "
                            ++ jsonDataFieldName)%string ;;;
           let formattedData := (jsonDataFieldName, dataArray parsedData) in
           let message := createJsonData baseEvent formattedData in
           publishEvent publish_outcome publisher AI_RESULT_CHANNEL message
       end)
      (fun _ => throwNodeOperationError P "Invalid JSON data")
  else if String.eqb outputType MessageType.IMAGE_RESPONSE then
    let url := param_imageUrl p in
    let alt := param_imageAlt p in
    sendMessageToUI ("Sending image: " ++ url)%string ;;;
    let message := createImageResponse baseEvent url alt in
    publishEvent publish_outcome publisher AI_RESULT_CHANNEL message
  else if String.eqb outputType MessageType.TOOL_OUTPUT then
    try_catch
      (let tool := param_toolName p in
       let resultString := param_jsonData p in
       match JSON_parse P resultString with
       | None => throw (AnError (JSON_parse_error P resultString))
       | Some result =>
           sendMessageToUI ("Sending tool output: " ++ tool)%string ;;;
           let message := createToolOutput baseEvent tool result in
           publishEvent publish_outcome publisher AI_RESULT_CHANNEL message
       end)
      (fun _ => throwNodeOperationError P "Invalid JSON data for tool output")
  else if String.eqb outputType MessageType.ACTION_SUGGESTION then
    try_catch
      (let actionType := param_actionType p in
       let payloadString := param_jsonData p in
       match JSON_parse P payloadString with
       | None => throw (AnError (JSON_parse_error P payloadString))
       | Some payload =>
           sendMessageToUI ("Sending action suggestion: " ++ actionType)%string ;;;
           let message := createActionSuggestion baseEvent actionType payload in
           publishEvent publish_outcome publisher AI_RESULT_CHANNEL message
       end)
      (fun _ => throwNodeOperationError P "Invalid JSON data for action payload")
  else
    throwNodeOperationError P ("Unsupported output type: " ++ outputType)%string.

(** The [try] block of the loop body, for one item. *)
Definition item_body (this : Context) (item : InputItem) : JsT World ReturnItem :=
  credentials <- lift_sum (credentials this) ;;
  let nodeProviderId := nodeProviderId (workflowId this) (nodeId this) in
  let publisher := {| serverUrl := cred_serverUrl credentials;
                      publisher_apiKey := cred_apiKey credentials;
                      publisher_providerId := nodeProviderId |} in
  let p := parameters item in
  let conversationId := param_conversationId p in
  let chatId := param_chatId p in
  let userId := param_userId p in
  let outputType := param_outputType p in
  let advancedOptions := param_advancedOptions p in
  if negb (JS.truthy_string conversationId) || negb (JS.truthy_string chatId)
     || negb (JS.truthy_string userId)
  then throwNodeOperationError P "Required IDs missing"
  else
    let messageState := if advancedOptions then param_state p else ChatState.ACTIVE in
    baseEvent <- newBaseEvent P chatId conversationId userId nodeProviderId messageState ;;
    dispatch publisher baseEvent p ;;;
    timestamp <- nowISO P ;;
    ret (Sent (json item) outputType messageState timestamp conversationId chatId userId).

(** The [catch] block of the loop body; [error.message] is read without a
    guard. *)
Definition item_catch (item : InputItem) (error : Thrown) : JsT World ReturnItem :=
  let p := parameters item in
  let advancedOptions := param_advancedOptions p in
  let errorHandling := if advancedOptions then param_errorHandling p else "throw" in
  if String.eqb errorHandling "continue" then
    message <- lift_error (JS.message_of error) ;;
    ret (NotSent (json item) (JS.or_value message "Unknown error in Gravity Output"))
  else throw error.

Definition process_item (this : Context) (item : InputItem) : JsT World ReturnItem :=
  try_catch (item_body this item) (item_catch item).

(** The [for] loop over the input items. *)
Fixpoint loop (this : Context) (items : list InputItem) (returnData : list ReturnItem)
    : JsT World (list ReturnItem) :=
  match items with
  | [] => ret returnData
  | item :: rest =>
      pushed <- process_item this item ;;
      loop this rest (returnData ++ [pushed])
  end.

Definition execute (this : Context) : JsT World (list (list ReturnItem)) :=
  returnData <- loop this (inputData this) [] ;;
  ret [returnData].

End Node.
End GravityOutput.

(** ** GravityUpdate *)

Module GravityUpdate.
Import Envelope.

(** The node parameters as [getNodeParameter(name, itemIndex, fallback)]
    resolves them for one item. *)
Record Parameters : Type := {
  param_chatId : string;
  param_conversationId : string;
  param_userId : string;
  param_updateType : string;
  param_advancedOptions : bool;
  param_state : string;
  param_message : string;
  param_text : string;
  param_jsonData : string;
  param_jsonDataFieldName : string;
  param_metadataKey : string;
  param_metadataValue : string
}.

Record Context : Type := {
  inputData : list Parameters;
  credentials : Thrown + GravityApiCredentials;
  workflowId : option string;
  nodeId : option string;
  continueOnFail : bool
}.

(** The [json] of an element of [returnData]; [error] is the value of
    [error.message], [None] when it is [undefined]. *)
Inductive ReturnItem : Type :=
| ProgressSent (timestamp message : string)
| ChunkSent (timestamp textPreview : string)
| JsonSent (timestamp dataType : string) (itemCount : nat)
| MetadataSent (timestamp key value : string)
| NotSent (error : option JSON).

Section Node.
Variable P : Platform.
Variable publish_outcome : Publisher -> string -> Message -> option Thrown.
Variable AI_RESULT_CHANNEL : string.

(** [text.length > 30 ? `${text.substring(0, 30)}...` : text]. *)
Definition textPreview (text : string) : string :=
  if Nat.ltb 30 (String.length text)
  then (JS.substring0 30 text ++ "...")%string
  else text.

(** The [switch (updateType)] statement; it yields the pushed element. *)
Definition dispatch (publisher : Publisher) (baseEvent : BaseEvent) (p : Parameters)
    : JsT World ReturnItem :=
  let outputChannel := AI_RESULT_CHANNEL in
  let updateType := param_updateType p in
  if String.eqb updateType MessageType.PROGRESS_UPDATE then
    let message := param_message p in
    let progressMessage := createProgressUpdate baseEvent message in
    publishEvent publish_outcome publisher outputChannel progressMessage ;;;
    timestamp <- nowISO P ;;
    ret (ProgressSent timestamp message)
  else if String.eqb updateType MessageType.MESSAGE_CHUNK then
    let text := param_text p in
    let chunkMessage := createMessageChunk baseEvent text in
    publishEvent publish_outcome publisher outputChannel chunkMessage ;;;
    timestamp <- nowISO P ;;
    ret (ChunkSent timestamp (textPreview text))
  else if String.eqb updateType MessageType.JSON_DATA then
    try_catch
      (let jsonDataStr := param_jsonData p in
       let jsonDataFieldName := param_jsonDataFieldName p in
       match JSON_parse P jsonDataStr with
       | None => throw (AnError (JSON_parse_error P jsonDataStr))
       | Some parsedData =>
           let formattedData := (jsonDataFieldName, dataArray parsedData) in
           let jsonMessage := createJsonData baseEvent formattedData in
           publishEvent publish_outcome publisher outputChannel jsonMessage ;;;
           timestamp <- nowISO P ;;
           ret (JsonSent timestamp jsonDataFieldName
                  (List.length (dataArray parsedData)))
       end)
      (fun _ => throwNodeOperationError P "Invalid JSON data")
  else if String.eqb updateType MessageType.METADATA then
    let key := param_metadataKey p in
    let value := param_metadataValue p in
    let metadataStr := JSON_stringify P (JObject [(key, JString value)]) in
    let metadataMessage := createMetadata baseEvent metadataStr in
    publishEvent publish_outcome publisher outputChannel metadataMessage ;;;
    timestamp <- nowISO P ;;
    ret (MetadataSent timestamp key value)
  else
    throwNodeOperationError P ("Unsupported update type: " ++ updateType)%string.

(** The inner [try] block, for one item. *)
Definition item_body (publisher : Publisher) (nodeProviderId : string) (p : Parameters)
    : JsT World ReturnItem :=
  let chatId := param_chatId p in
  let conversationId := param_conversationId p in
  let userId := param_userId p in
  let advancedOptions := param_advancedOptions p in
  let state := if advancedOptions then param_state p else ChatState.ACTIVE in
  baseEvent <- newBaseEvent P chatId conversationId userId nodeProviderId state ;;
  dispatch publisher baseEvent p.

(** The inner [catch] block; [error.message] is read without a guard. *)
Definition item_catch (this : Context) (error : Thrown) : JsT World ReturnItem :=
  if continueOnFail this then
    message <- lift_error (JS.message_of error) ;;
    ret (NotSent message)
  else
    match error with
    | AnError e =>
        if negb (String.eqb (err_name e) "NodeOperationError")
        then
          wrapped <- wrapNodeOperationError P e ;;
          throw (AnError wrapped)
        else throw error
    | NotAnError _ => throwNodeOperationError P "Unknown error occurred"
    end.

(** The outer [catch] block: [throw error]. *)
Definition execute_catch {A} (error : Thrown) : JsT World A := throw error.

Fixpoint loop (this : Context) (publisher : Publisher) (nodeProviderId : string)
    (items : list Parameters) (returnData : list ReturnItem)
    : JsT World (list ReturnItem) :=
  match items with
  | [] => ret returnData
  | p :: rest =>
      pushed <- try_catch (item_body publisher nodeProviderId p) (item_catch this) ;;
      loop this publisher nodeProviderId rest (returnData ++ [pushed])
  end.

(** The outer [try] block. *)
Definition execute_body (this : Context) : JsT World (list (list ReturnItem)) :=
  let nodeProviderId := nodeProviderId (workflowId this) (nodeId this) in
  credentials <- lift_sum (credentials this) ;;
  let publisher := {| serverUrl := cred_serverUrl credentials;
                      publisher_apiKey := cred_apiKey credentials;
                      publisher_providerId := nodeProviderId |} in
  returnData <- loop this publisher nodeProviderId (inputData this) [] ;;
  ret [returnData].

Definition execute (this : Context) : JsT World (list (list ReturnItem)) :=
  try_catch (execute_body this) execute_catch.

End Node.
End GravityUpdate.

(** ** GravityEmbed *)

Module GravityEmbed.

Record AwsCredentials : Type := {
  cred_accessKeyId : string;
  cred_secretAccessKey : string
}.

(** What [new BedrockRuntimeClient] is given. *)
Record ClientConfig : Type := {
  region : string;
  accessKeyId : string;
  secretAccessKey : string
}.

(** The input of [InvokeModelCommand]; [body] is the text the buffer holds. *)
Record InvokeModelInput : Type := {
  modelId : string;
  body : string;
  contentType : string;
  accept : string
}.

(** The node parameters as [getNodeParameter(name, itemIndex, fallback)]
    resolves them for one item. *)
Record Parameters : Type := {
  param_model : string;
  param_inputText : string
}.

Record InputItem : Type := {
  json : list (string * JSON);
  parameters : Parameters
}.

Record Context : Type := {
  inputData : list InputItem;
  credentials : Thrown + AwsCredentials;
  env_AWS_REGION : option string;
  continueOnFail : bool
}.

(** The [json] of an element of [returnData]; [inherited] is the spread
    [...items[itemIndex].json], [error] the value of [error.message],
    [None] when it is [undefined]. *)
Inductive ReturnItem : Type :=
| Embedded (inherited : list (string * JSON)) (embedding : list JSON)
           (_embeddingModel : string) (_embeddingDimension : nat)
           (_originalText : string)
| Failed (error : option JSON).

(** What the node can touch outside its local variables: the commands it
    has sent to Bedrock, in order. *)
Definition Sent : Type := list InvokeModelInput.

Section Node.
Variable P : Platform.
(** The Bedrock client: the command rejects, or resolves to a response
    whose body decodes to the given text. *)
Variable invoke_model : ClientConfig -> InvokeModelInput -> Thrown + string.

(** [await bedrockClient.send(command)]. *)
Definition send (client : ClientConfig) (command : InvokeModelInput) : JsT Sent string :=
  fun sent =>
    match invoke_model client command with
    | inl e => (Throw e, sent ++ [command])
    | inr text => (Normal text, sent ++ [command])
    end.

(** [!inputText || inputText.trim().length === 0]. *)
Definition is_blank (inputText : string) : bool :=
  negb (JS.truthy_string inputText) || Nat.eqb (String.length (JS.trim inputText)) 0.

(** The command built for [inputText]. *)
Definition command_for (model inputText : string) : InvokeModelInput :=
  {| modelId := model;
     body := JSON_stringify P (JObject [("inputText", JString (JS.trim inputText))]);
     contentType := "application/json";
     accept := "application/json" |}.

(** [JSON.parse(new TextDecoder().decode(response.body))]. *)
Definition parse_body (text : string) : JsT Sent JSON :=
  match JSON_parse P text with
  | Some responseBody => ret responseBody
  | None => throw (AnError (JSON_parse_error P text))
  end.

(** [responseBody.embedding] followed by the test
    [!embedding || !Array.isArray(embedding)]. *)
Definition extract_embedding (responseBody : JSON) : JsT Sent (list JSON) :=
  embedding <- lift_error (JS.get_member responseBody "embedding") ;;
  match embedding with
  | Some (JArray elements) => ret elements
  | _ => throw (AnError (NodeOperationError
                           ("Failed to extract embedding from response: "
                            ++ JSON_stringify P responseBody)%string))
  end.

(** The [try] block of the loop body, for one item. *)
Definition item_body (client : ClientConfig) (item : InputItem) : JsT Sent ReturnItem :=
  let model := param_model (parameters item) in
  let inputText := param_inputText (parameters item) in
  if is_blank inputText
  then throw (AnError (NodeOperationError "Input text is required"))
  else
    text <- send client (command_for model inputText) ;;
    responseBody <- parse_body text ;;
    embedding <- extract_embedding responseBody ;;
    ret (Embedded (json item) embedding model (List.length embedding) inputText).

(** The [catch] block of the loop body; [(error as Error).message] is read
    without a guard, the cast doing nothing at run time. *)
Definition item_catch (this : Context) (error : Thrown) : JsT Sent ReturnItem :=
  if continueOnFail this then
    message <- lift_error (JS.message_of error) ;;
    ret (Failed message)
  else throw error.

Fixpoint loop (this : Context) (client : ClientConfig) (items : list InputItem)
    (returnData : list ReturnItem) : JsT Sent (list ReturnItem) :=
  match items with
  | [] => ret returnData
  | item :: rest =>
      pushed <- try_catch (item_body client item) (item_catch this) ;;
      loop this client rest (returnData ++ [pushed])
  end.

Definition execute (this : Context) : JsT Sent (list (list ReturnItem)) :=
  awsCredentials <- lift_sum (credentials this) ;;
  let region := match env_AWS_REGION this with
                | Some r => JS.or_string r "us-east-1"
                | None => "us-east-1"
                end in
  let bedrockClient := {| region := region;
                          accessKeyId := cred_accessKeyId awsCredentials;
                          secretAccessKey := cred_secretAccessKey awsCredentials |} in
  returnData <- loop this bedrockClient (inputData this) [] ;;
  ret [returnData].

End Node.
End GravityEmbed.

(** ** Error handling utilities *)

Module ErrorUtils.

(** A caught value of type [unknown]: an [Error], or anything else. *)
Abbreviation Caught := Thrown.
Abbreviation AnError := AnError.
Abbreviation NotAnError := NotAnError.

(** The element [handleNodeError] returns. *)
Record NodeErrorItem : Type := {
  item_error : string;
  item_itemIndex : nat;
  pairedItem : nat
}.

(** What a handler does: it returns its elements or throws a value. The
    utilities are taken by what they return or throw alone: a store, and
    with it the reading of the clock by the constructor of an error they
    throw, is not part of it. *)
Inductive Handled (A : Type) : Type :=
| Returned (items : list A)
| Raised (thrown : Caught).
Arguments Returned {A} items.
Arguments Raised {A} thrown.

(** [handleNodeError]; [continueOnFail] is [None] when [executeFunctions]
    has no such function. *)
Definition handleNodeError (continueOnFail : option bool) (error : Caught)
    (itemIndex : nat) : Handled NodeErrorItem :=
  let shouldContinue := match continueOnFail with
                        | Some answer => answer
                        | None => false
                        end in
  if shouldContinue then
    let errorObject := match error with
                       | AnError e => e
                       | NotAnError _ => {| err_name := "Error";
                                            err_message := "Unknown error";
                                            err_stack := "" |}
                       end in
    Returned [ {| item_error := err_message errorObject;
                  item_itemIndex := itemIndex;
                  pairedItem := itemIndex |} ]
  else
    match error with
    | AnError e =>
        if negb (String.eqb (err_name e) "NodeOperationError")
        then Raised (AnError {| err_name := "NodeOperationError";
                                err_message := err_message e;
                                err_stack := err_stack e |})
        else Raised error
    | NotAnError _ => Raised error
    end.

(** The element [handleOutputError] returns; [inherited] is the spread
    [...item.json]. *)
Record OutputErrorItem : Type := {
  inherited : list (string * JSON);
  success : bool;
  output_error : string;
  outputType : string;
  timestamp : string;
  output_pairedItem : nat
}.

(** [handleOutputError]; [now] is the reading of the clock it prints. *)
Definition handleOutputError (P : Platform) (now : nat) (error : Caught) (itemIndex : nat)
    (errorHandling outputType : string) (item_json : list (string * JSON))
    : Handled OutputErrorItem :=
  let errorMessage := match error with
                      | AnError e => err_message e
                      | NotAnError _ => "An unknown error occurred"
                      end in
  if String.eqb errorHandling "throw"
  then Raised (AnError (NodeOperationError errorMessage))
  else Returned [ {| inherited := item_json;
                     success := false;
                     output_error := errorMessage;
                     outputType := outputType;
                     timestamp := toISOString P (Date_now P now);
                     output_pairedItem := itemIndex |} ].

End ErrorUtils.

(** ** Observations on streams and outputs *)

(** The fragments that are not dropped. *)
Definition nonempty_fragments (fragments : list string) : list string :=
  filter JS.truthy_string fragments.

(** Each text with its position, counted from [start]. *)
Definition indexed_from (start : nat) (texts : list string) : list (string * nat) :=
  combine texts (seq start (List.length texts)).

(** How the stream ends: [None] for exhaustion, the error for a rejection. *)
Fixpoint rejection {C} (s : AsyncStream C) : option JSError :=
  match s with
  | Done => None
  | Yield _ rest => rejection rest
  | Fails e => Some e
  end.

(** Text and index of a chunk record. *)
Definition chunk_view (item : NodeItem) : option (string * nat) :=
  match item with
  | ChunkItem c => Some (chunk_text c, chunkIndex c)
  | _ => None
  end.

Definition item_state (item : NodeItem) : option string :=
  match item with
  | ChunkItem c => Some (chunk_state c)
  | _ => None
  end.

(** The records the chunk callback of a node pushes for the texts [texts],
    the first with index [index] at clock reading [tick]. *)
Fixpoint chunk_items (P : Platform) (model state : string) (texts : list string)
    (index tick : nat) : list NodeItem :=
  match texts with
  | [] => []
  | t :: rest =>
      ChunkItem {| chunk_model := model;
                   chunk_text := t;
                   chunkIndex := index;
                   chunk_timestamp := toISOString P (Date_now P tick);
                   chunk_state := state;
                   chunk_progressMessage := None |}
      :: chunk_items P model state rest (S index) (S tick)
  end.

(** The completion record for [count] fragments. *)
Definition completion_item (P : Platform) (model state : string) (count tick : nat)
    : NodeItem :=
  ChunkItem {| chunk_model := model;
               chunk_text := " ";
               chunkIndex := count;
               chunk_timestamp := toISOString P (Date_now P tick);
               chunk_state := state;
               chunk_progressMessage := None |}.

(** The error record built from [error] at clock reading [tick]. *)
Definition error_item (P : Platform) (error : JSError) (tick : nat) : NodeItem :=
  ErrorItem {| error_flag := true;
               error_message := JS.or_string (err_message error) "Unknown error";
               error_stack := JS.or_string (err_stack error) "";
               error_timestamp := toISOString P (Date_now P tick) |}.

(** An output record with its timestamp blanked. *)
Definition erase_timestamp (item : NodeItem) : NodeItem :=
  match item with
  | ChunkItem c =>
      ChunkItem {| chunk_model := chunk_model c;
                   chunk_text := chunk_text c;
                   chunkIndex := chunkIndex c;
                   chunk_timestamp := "";
                   chunk_state := chunk_state c;
                   chunk_progressMessage := chunk_progressMessage c |}
  | FinalItem f =>
      FinalItem {| final_model := final_model f;
                   response := response f;
                   final_chunkCount := final_chunkCount f;
                   final_messages := final_messages f;
                   updatedMessages := updatedMessages f;
                   final_metadata :=
                     {| meta_timestamp := "";
                        meta_model := meta_model (final_metadata f);
                        meta_temperature := meta_temperature (final_metadata f);
                        meta_maxTokens := meta_maxTokens (final_metadata f);
                        totalCharacters := totalCharacters (final_metadata f) |} |}
  | McpItem m =>
      McpItem {| mcp_type := mcp_type m;
                 mcp_content := mcp_content m;
                 mcp_model := mcp_model m;
                 mcp_metadata :=
                   {| mcp_timestamp := "";
                      mcp_temperature := mcp_temperature (mcp_metadata m);
                      mcp_maxTokens := mcp_maxTokens (mcp_metadata m);
                      mcp_source := mcp_source (mcp_metadata m);
                      mcp_done := mcp_done (mcp_metadata m) |};
                 mcp_providerId := mcp_providerId m |}
  | ErrorItem e =>
      ErrorItem {| error_flag := error_flag e;
                   error_message := error_message e;
                   error_stack := error_stack e;
                   error_timestamp := "" |}
  end.

(** The outputs of [execute] up to timestamps; [None] when it throws. *)
Definition outputs_up_to_timestamps (result : Completion (list (list NodeItem)) * Store)
    : option (list (list NodeItem)) :=
  match fst result with
  | Normal outputs => Some (map (map erase_timestamp) outputs)
  | Throw _ => None
  end.

(** The first output of a node (its Stream output), when it returns. *)
Definition stream_output (result : Completion (list (list NodeItem)) * Store)
    : option (list NodeItem) :=
  match fst result with
  | Normal (first :: _) => Some first
  | _ => None
  end.

(** The claim that a failed run still returns its partial output: every
    record the chunk callback pushed is in the returned Stream output. *)
Definition returns_partial_output (result : Completion (list (list NodeItem)) * Store)
    : Prop :=
  exists returned,
    stream_output result = Some returned /\
    forall item, In item (streamOutput (snd result)) -> In item returned.

(** The fragments a provider stream delivers before it ends or rejects, one
    per element, [""] for an element without text. *)
Definition openai_fragments (s : AsyncStream OpenAIService.ChatCompletionChunk)
    : list string :=
  map OpenAIService.chunk_content (yielded s).

Definition bedrock_fragments (s : AsyncStream BedrockService.ConverseStreamOutput)
    : list string :=
  map BedrockService.chunk_text_of (yielded s).

(** What a loop over a stream resolves to, given the texts it kept. *)
Definition loop_outcome {C} (s : AsyncStream C) (fullResponse : string) (count : nat)
    (texts : list string) : Completion SendResult :=
  match rejection s with
  | None => Normal {| fullResponse := (fullResponse ++ String.concat "" texts)%string;
                      chunkCount := count + List.length texts |}
  | Some e => Throw e
  end.

(** The store after the chunk callback ran for [texts]. *)
Definition store_after (P : Platform) (model state : string) (texts : list string)
    (index : nat) (st : Store) : Store :=
  {| ticks := ticks st + List.length texts;
     streamOutput := streamOutput st
                     ++ chunk_items P model state texts index (ticks st) |}.

(** The final response object of GravityOpenAI for the kept texts [texts],
    built at clock reading [tick]. *)
Definition openai_final (P : Platform) (this : GravityOpenAI.Context)
    (texts : list string) (tick : nat) : FinalResponse :=
  let messages := OpenAIService.processUserMessage P (GravityOpenAI.param_message this) in
  let fullResponse := String.concat "" texts in
  {| final_model := GravityOpenAI.param_model this;
     response := fullResponse;
     final_chunkCount := List.length texts;
     final_messages := messages;
     updatedMessages := messages ++ [OpenAIService.message "assistant" fullResponse];
     final_metadata :=
       {| meta_timestamp := toISOString P (Date_now P tick);
          meta_model := GravityOpenAI.param_model this;
          meta_temperature := GravityOpenAI.param_temperature this;
          meta_maxTokens := GravityOpenAI.param_maxTokens this;
          totalCharacters := String.length fullResponse |} |}.

(** The final response object and the MCP record of GravityClaude. *)
Definition claude_final (P : Platform) (this : GravityClaude.Context)
    (texts : list string) (tick : nat) : FinalResponse :=
  let messages := BedrockService.processUserMessage P (GravityClaude.param_message this) in
  let fullResponse := String.concat "" texts in
  {| final_model := GravityClaude.param_model this;
     response := fullResponse;
     final_chunkCount := List.length texts;
     final_messages := messages;
     updatedMessages := messages ++ [BedrockService.text_message "assistant" fullResponse];
     final_metadata :=
       {| meta_timestamp := toISOString P (Date_now P tick);
          meta_model := GravityClaude.param_model this;
          meta_temperature := GravityClaude.param_temperature this;
          meta_maxTokens := GravityClaude.param_maxTokens this;
          totalCharacters := String.length fullResponse |} |}.

Definition claude_mcp (P : Platform) (this : GravityClaude.Context)
    (texts : list string) (tick : nat) : NodeItem :=
  McpItem {| mcp_type := "text";
             mcp_content := String.concat "" texts;
             mcp_model := JS.before_colon (GravityClaude.param_model this);
             mcp_metadata :=
               {| mcp_timestamp := toISOString P (Date_now P tick);
                  mcp_temperature := GravityClaude.param_temperature this;
                  mcp_maxTokens := GravityClaude.param_maxTokens this;
                  mcp_source := "claude";
                  mcp_done := true |};
             mcp_providerId := Some "mcp" |}.

(** ** Concrete runs

    A small runtime and small providers, enough to run every node on an
    explicit input. *)

Module Sample.

(** The double quote character, as a string. *)
Definition dq : string := String (Ascii.ascii_of_nat 34) EmptyString.

(** [JSON.stringify] for values whose strings need no escape and whose
    numbers are integers. *)
#[warnings="-register-all"]
Fixpoint stringify (v : JSON) : string :=
  match v with
  | JNull => "null"
  | JBool true => "true"
  | JBool false => "false"
  | JNumber q => JS.Number_toString (Qnum q)
  | JString s => (dq ++ s ++ dq)%string
  | JArray elements =>
      ("[" ++ (fix go (l : list JSON) : string :=
                 match l with
                 | [] => ""
                 | [x] => stringify x
                 | x :: rest => stringify x ++ "," ++ go rest
                 end) elements ++ "]")%string
  | JObject members =>
      ("{" ++ (fix go (l : list (string * JSON)) : string :=
                 match l with
                 | [] => ""
                 | [(k, x)] => dq ++ k ++ dq ++ ":" ++ stringify x
                 | (k, x) :: rest => dq ++ k ++ dq ++ ":" ++ stringify x ++ "," ++ go rest
                 end) members ++ "}")%string
  end.

Definition object_a (n : Z) : JSON := JObject [("a", JNumber (inject_Z n))].

(** The texts this runtime parses; [JSON.parse] throws on every other one
    used below. *)
Definition parse (s : string) : option JSON :=
  if String.eqb s (stringify (object_a 1)) then Some (object_a 1)
  else if String.eqb s (stringify (JArray [object_a 1; object_a 2]))
  then Some (JArray [object_a 1; object_a 2])
  else if String.eqb s "{}" then Some (JObject [])
  else if String.eqb s "[]" then Some (JArray [])
  else if String.eqb s "null" then Some JNull
  else None.

(** The clock starts at 1700000000000 ms and advances by one millisecond at
    each reading; a time is printed as its number of milliseconds. *)
Definition platform : Platform :=
  {| JSON_parse := parse;
     JSON_parse_error := fun _ => SyntaxError "Unexpected token";
     JSON_stringify := stringify;
     Date_now := fun k => (1700000000000 + Z.of_nat k)%Z;
     toISOString := JS.Number_toString;
     Math_random_token := fun _ => "4fzyo82mv" |}.

Definition store0 : Store := {| ticks := 0; streamOutput := [] |}.

Definition socket_error : JSError :=
  {| err_name := "Error"; err_message := "socket hang up"; err_stack := "" |}.

(** GravityOpenAI on the fragments of the spec, section 8, property 4. *)
Definition fragments : list string := ["Hel"; "lo"; ""; " world"].

Definition openai_chunks : list OpenAIService.ChatCompletionChunk :=
  map OpenAIService.chunk_of_fragment fragments.

Definition openai_create (config : OpenAIService.OpenAIConfig)
    (request : OpenAIService.ChatCompletionCreate)
    : JSError + AsyncStream OpenAIService.ChatCompletionChunk :=
  inr (stream_of_list openai_chunks).

(** A provider whose stream rejects after the fragment ["A"]. *)
Definition openai_create_failing (config : OpenAIService.OpenAIConfig)
    (request : OpenAIService.ChatCompletionCreate)
    : JSError + AsyncStream OpenAIService.ChatCompletionChunk :=
  inr (failing_after [OpenAIService.chunk_of_fragment "A"] socket_error).

Definition openai_credentials : GravityOpenAI.OpenAiApiCredentials :=
  {| GravityOpenAI.cred_apiKey := "sk-test";
     GravityOpenAI.cred_organizationId := None |}.

Definition openai_context : GravityOpenAI.Context :=
  {| GravityOpenAI.param_model := "gpt-4";
     GravityOpenAI.param_systemPrompt := "You are a helpful AI assistant.";
     GravityOpenAI.param_temperature := (7 # 10)%Q;
     GravityOpenAI.param_maxTokens := (1000 # 1)%Q;
     GravityOpenAI.param_message := JString "Hello";
     GravityOpenAI.param_baseURL := "";
     GravityOpenAI.credentials := inr openai_credentials |}.

(** GravityClaude with the state override "thinking". *)
Definition bedrock_chunks : list BedrockService.ConverseStreamOutput :=
  map BedrockService.chunk_of_fragment fragments.

Definition bedrock_send (config : BedrockService.BedrockConfig)
    (input : BedrockService.CommandInput)
    : JSError + BedrockService.ConverseStreamResponse :=
  inr {| BedrockService.stream := Some (stream_of_list bedrock_chunks) |}.

Definition bedrock_send_one (config : BedrockService.BedrockConfig)
    (input : BedrockService.CommandInput)
    : JSError + BedrockService.ConverseStreamResponse :=
  inr {| BedrockService.stream :=
           Some (stream_of_list [BedrockService.chunk_of_fragment "A"]) |}.

Definition bedrock_send_failing (config : BedrockService.BedrockConfig)
    (input : BedrockService.CommandInput)
    : JSError + BedrockService.ConverseStreamResponse :=
  inr {| BedrockService.stream :=
           Some (failing_after [BedrockService.chunk_of_fragment "A"] socket_error) |}.

Definition aws_credentials : GravityClaude.AwsCredentials :=
  {| GravityClaude.cred_accessKeyId := "AKIATEST";
     GravityClaude.cred_secretAccessKey := "secret" |}.

Definition claude_context : GravityClaude.Context :=
  {| GravityClaude.toolInputData := None;
     GravityClaude.param_model := "us.anthropic.claude-3-5-haiku-20241022-v1:0";
     GravityClaude.param_systemPrompt := "You are Claude, a helpful AI assistant.";
     GravityClaude.param_temperature := (7 # 10)%Q;
     GravityClaude.param_maxTokens := (1000 # 1)%Q;
     GravityClaude.param_message := JString "Hello";
     GravityClaude.param_enableAnyTool := false;
     GravityClaude.param_toolChoice := "";
     GravityClaude.param_advancedOptions :=
       {| GravityClaude.state := Some ChatState.THINKING;
          GravityClaude.progressMessage := None |};
     GravityClaude.credentials := inr aws_credentials;
     GravityClaude.env_AWS_REGION := None |}.

(** The event bus of the concrete runs: every publication resolves. *)
Definition publish_outcome (publisher : Envelope.Publisher) (channel : string)
    (message : Envelope.Message) : option Thrown := None.

Definition AI_RESULT_CHANNEL : string := "gravity:ai:result".

Definition world0 : Envelope.World :=
  {| Envelope.clock := 0; Envelope.draws := 0;
     Envelope.publishCalls := []; Envelope.uiMessages := [] |}.

Definition gravity_credentials : Envelope.GravityApiCredentials :=
  {| Envelope.cred_serverUrl := "redis://localhost:6379";
     Envelope.cred_apiKey := "key" |}.

(** Parameters of GravityOutput for one item, by output type, identity
    triple and JSON text. *)
Definition output_parameters (outputType chatId conversationId userId jsonData : string)
    : GravityOutput.Parameters :=
  {| GravityOutput.param_conversationId := conversationId;
     GravityOutput.param_chatId := chatId;
     GravityOutput.param_userId := userId;
     GravityOutput.param_outputType := outputType;
     GravityOutput.param_advancedOptions := false;
     GravityOutput.param_state := ChatState.ACTIVE;
     GravityOutput.param_textContent := "";
     GravityOutput.param_enableAudio := false;
     GravityOutput.param_jsonData := jsonData;
     GravityOutput.param_jsonDataFieldName := "data";
     GravityOutput.param_imageUrl := "";
     GravityOutput.param_imageAlt := "";
     GravityOutput.param_toolName := "search";
     GravityOutput.param_actionType := "";
     GravityOutput.param_errorHandling := "throw" |}.

Definition output_item (outputType chatId conversationId userId jsonData : string)
    : GravityOutput.InputItem :=
  {| GravityOutput.json := [];
     GravityOutput.parameters :=
       output_parameters outputType chatId conversationId userId jsonData |}.

Definition output_context (items : list GravityOutput.InputItem) : GravityOutput.Context :=
  {| GravityOutput.inputData := items;
     GravityOutput.credentials := inr gravity_credentials;
     GravityOutput.workflowId := Some "wf1";
     GravityOutput.nodeId := Some "node1" |}.

(** Parameters of GravityUpdate for one item. *)
Definition update_parameters (updateType chatId conversationId userId jsonData : string)
    : GravityUpdate.Parameters :=
  {| GravityUpdate.param_chatId := chatId;
     GravityUpdate.param_conversationId := conversationId;
     GravityUpdate.param_userId := userId;
     GravityUpdate.param_updateType := updateType;
     GravityUpdate.param_advancedOptions := false;
     GravityUpdate.param_state := ChatState.ACTIVE;
     GravityUpdate.param_message := "Working";
     GravityUpdate.param_text := "";
     GravityUpdate.param_jsonData := jsonData;
     GravityUpdate.param_jsonDataFieldName := "calls";
     GravityUpdate.param_metadataKey := "";
     GravityUpdate.param_metadataValue := "" |}.

Definition update_context (items : list GravityUpdate.Parameters) : GravityUpdate.Context :=
  {| GravityUpdate.inputData := items;
     GravityUpdate.credentials := inr gravity_credentials;
     GravityUpdate.workflowId := Some "wf1";
     GravityUpdate.nodeId := Some "node2";
     GravityUpdate.continueOnFail := false |}.

Definition update_publisher : Envelope.Publisher :=
  {| Envelope.serverUrl := "redis://localhost:6379";
     Envelope.publisher_apiKey := "key";
     Envelope.publisher_providerId := "n8n:wf1:node2" |}.

End Sample.

(** ** Further observations *)

(** The text of a chunk record, [""] for any other record. *)
Definition item_text (item : NodeItem) : string :=
  match item with
  | ChunkItem c => chunk_text c
  | _ => ""
  end.

(** A callback that only notes the arguments it is called with. *)
Definition record_call (text : string) (index : nat) : Js (list (string * nat)) unit :=
  fun calls => (Normal tt, calls ++ [(text, index)]).

(** The same invocation of GravityClaude with other tool options. *)
Definition claude_with_tool_options (this : GravityClaude.Context)
    (enableAnyTool : bool) (toolChoice : string) : GravityClaude.Context :=
  {| GravityClaude.toolInputData := GravityClaude.toolInputData this;
     GravityClaude.param_model := GravityClaude.param_model this;
     GravityClaude.param_systemPrompt := GravityClaude.param_systemPrompt this;
     GravityClaude.param_temperature := GravityClaude.param_temperature this;
     GravityClaude.param_maxTokens := GravityClaude.param_maxTokens this;
     GravityClaude.param_message := GravityClaude.param_message this;
     GravityClaude.param_enableAnyTool := enableAnyTool;
     GravityClaude.param_toolChoice := toolChoice;
     GravityClaude.param_advancedOptions := GravityClaude.param_advancedOptions this;
     GravityClaude.credentials := GravityClaude.credentials this;
     GravityClaude.env_AWS_REGION := GravityClaude.env_AWS_REGION this |}.

(** The same item of GravityOutput with other values for the two
    parameters shown only under Advanced Options. *)
Definition output_with_advanced_values (item : GravityOutput.InputItem)
    (state errorHandling : string) : GravityOutput.InputItem :=
  let p := GravityOutput.parameters item in
  {| GravityOutput.json := GravityOutput.json item;
     GravityOutput.parameters :=
       {| GravityOutput.param_conversationId := GravityOutput.param_conversationId p;
          GravityOutput.param_chatId := GravityOutput.param_chatId p;
          GravityOutput.param_userId := GravityOutput.param_userId p;
          GravityOutput.param_outputType := GravityOutput.param_outputType p;
          GravityOutput.param_advancedOptions := GravityOutput.param_advancedOptions p;
          GravityOutput.param_state := state;
          GravityOutput.param_textContent := GravityOutput.param_textContent p;
          GravityOutput.param_enableAudio := GravityOutput.param_enableAudio p;
          GravityOutput.param_jsonData := GravityOutput.param_jsonData p;
          GravityOutput.param_jsonDataFieldName := GravityOutput.param_jsonDataFieldName p;
          GravityOutput.param_imageUrl := GravityOutput.param_imageUrl p;
          GravityOutput.param_imageAlt := GravityOutput.param_imageAlt p;
          GravityOutput.param_toolName := GravityOutput.param_toolName p;
          GravityOutput.param_actionType := GravityOutput.param_actionType p;
          GravityOutput.param_errorHandling := errorHandling |} |}.

(** The output types the [switch] of GravityOutput has a case for, and the
    update types the [switch] of GravityUpdate has a case for. *)
Definition output_types : list string :=
  [MessageType.TEXT; MessageType.JSON_DATA; MessageType.IMAGE_RESPONSE;
   MessageType.TOOL_OUTPUT; MessageType.ACTION_SUGGESTION].

Definition update_types : list string :=
  [MessageType.PROGRESS_UPDATE; MessageType.MESSAGE_CHUNK; MessageType.JSON_DATA;
   MessageType.METADATA].

(** An item of GravityOutput asks to continue after an error. *)
Definition output_continues (item : GravityOutput.InputItem) : bool :=
  GravityOutput.param_advancedOptions (GravityOutput.parameters item)
  && String.eqb (GravityOutput.param_errorHandling (GravityOutput.parameters item))
                "continue".

(** A message handed to the bus on [channel] for the base event
    [baseEvent], with the discriminant [discriminant]. *)
Definition call_for (channel : string) (baseEvent : Envelope.BaseEvent)
    (discriminant : string) (call : string * Envelope.Message) : Prop :=
  fst call = channel
  /\ Envelope.base (snd call) = baseEvent
  /\ Envelope.type (snd call) = discriminant.

(** A run of a streaming node is complete, or failed on every output. *)
Definition complete_run (outputs : list (list NodeItem)) : Prop :=
  exists records completion final others,
    outputs = (records ++ [ChunkItem completion]) :: [FinalItem final] :: others
    /\ chunk_text completion = " "
    /\ chunkIndex completion = List.length records
    /\ final_chunkCount final = List.length records.

Definition failed_run (outputs : list (list NodeItem)) : Prop :=
  exists e,
    error_flag e = true
    /\ Forall (fun output => output = [ErrorItem e]) outputs.

(** An element GravityUpdate pushes for a processed item agrees with the
    message [message]: same progress text, same data type and number of
    items, same metadata entry; for a chunk, the preview is that of the
    text sent. *)
Definition update_report_matches (P : Platform) (r : GravityUpdate.ReturnItem)
    (message : Envelope.Message) : Prop :=
  match r with
  | GravityUpdate.ProgressSent _ text =>
      Envelope.payload message = Envelope.ProgressUpdatePayload text
  | GravityUpdate.ChunkSent _ preview =>
      exists text,
        Envelope.payload message = Envelope.MessageChunkPayload text
        /\ preview = GravityUpdate.textPreview text
  | GravityUpdate.JsonSent _ dataType itemCount =>
      exists items,
        Envelope.payload message = Envelope.JsonDataPayload dataType items
        /\ List.length items = itemCount
  | GravityUpdate.MetadataSent _ key value =>
      Envelope.payload message
      = Envelope.MetadataPayload (JSON_stringify P (JObject [(key, JString value)]))
  | GravityUpdate.NotSent _ => False
  end.

(** The world after one reading of the clock. *)
Definition clock_read (w : Envelope.World) : Envelope.World :=
  {| Envelope.clock := S (Envelope.clock w);
     Envelope.draws := Envelope.draws w;
     Envelope.publishCalls := Envelope.publishCalls w;
     Envelope.uiMessages := Envelope.uiMessages w |}.

(** A thrown value from which [error.message] cannot be read: [null] or
    [undefined]. *)
Definition nullish (error : Thrown) : Prop :=
  match error with
  | NotAnError None => True
  | NotAnError (Some JNull) => True
  | _ => False
  end.

(** What the six calls of [getNodeParameter] in GravityOpenAI come to: the
    first error of a resolution, or the resolved values. *)
Definition resolve (this : GravityOpenAI.Invocation) : JSError + GravityOpenAI.Context :=
  let items := GravityOpenAI.inputData this in
  match GravityOpenAI.node_model this items 0 with
  | inl e => inl e
  | inr model =>
  match GravityOpenAI.node_systemPrompt this items 0 with
  | inl e => inl e
  | inr systemPrompt =>
  match GravityOpenAI.node_temperature this items 0 with
  | inl e => inl e
  | inr temperature =>
  match GravityOpenAI.node_maxTokens this items 0 with
  | inl e => inl e
  | inr maxTokens =>
  match GravityOpenAI.node_message this items 0 with
  | inl e => inl e
  | inr userMessage =>
  match GravityOpenAI.node_baseURL this items 0 with
  | inl e => inl e
  | inr baseURL =>
      inr {| GravityOpenAI.param_model := model;
             GravityOpenAI.param_systemPrompt := systemPrompt;
             GravityOpenAI.param_temperature := temperature;
             GravityOpenAI.param_maxTokens := maxTokens;
             GravityOpenAI.param_message := userMessage;
             GravityOpenAI.param_baseURL := baseURL;
             GravityOpenAI.credentials := GravityOpenAI.node_credentials this |}
  end end end end end end.

(** The six parameters of an invocation of GravityOpenAI resolve alike, for
    the item index 0, against two lists of input items. *)
Definition resolves_alike (this : GravityOpenAI.Invocation) (items1 items2 : list JSON)
    : Prop :=
  GravityOpenAI.node_model this items1 0 = GravityOpenAI.node_model this items2 0
  /\ GravityOpenAI.node_systemPrompt this items1 0
     = GravityOpenAI.node_systemPrompt this items2 0
  /\ GravityOpenAI.node_temperature this items1 0
     = GravityOpenAI.node_temperature this items2 0
  /\ GravityOpenAI.node_maxTokens this items1 0 = GravityOpenAI.node_maxTokens this items2 0
  /\ GravityOpenAI.node_message this items1 0 = GravityOpenAI.node_message this items2 0
  /\ GravityOpenAI.node_baseURL this items1 0 = GravityOpenAI.node_baseURL this items2 0.

(** Further concrete inputs. *)
Module Sample2.

(** The expression [={{ $json.message }}] as the Message parameter of
    GravityOpenAI: the member [message] of the item, the empty text when
    the item has none. *)
Definition message_of_item : GravityOpenAI.NodeParameter JSON :=
  GravityOpenAI.of_item
    (fun item =>
       match item with
       | Some (JObject members) =>
           match JS.lookup "message" members with
           | Some v => inr v
           | None => inr (JString "")
           end
       | _ => inr (JString "")
       end).

Definition item_with_message (text : string) : JSON :=
  JObject [("message", JString text)].

(** GravityOpenAI with that Message parameter, every other parameter being
    a fixed value. *)
Definition openai_invocation (items : list JSON) : GravityOpenAI.Invocation :=
  {| GravityOpenAI.inputData := items;
     GravityOpenAI.node_model := GravityOpenAI.fixed "gpt-4";
     GravityOpenAI.node_systemPrompt :=
       GravityOpenAI.fixed "You are a helpful AI assistant.";
     GravityOpenAI.node_temperature := GravityOpenAI.fixed (7 # 10)%Q;
     GravityOpenAI.node_maxTokens := GravityOpenAI.fixed (1000 # 1)%Q;
     GravityOpenAI.node_message := message_of_item;
     GravityOpenAI.node_baseURL := GravityOpenAI.fixed "";
     GravityOpenAI.node_credentials := inr Sample.openai_credentials |}.

(** GravityOutput when the credentials store rejects with [undefined]. *)
Definition output_context_without_credentials (items : list GravityOutput.InputItem)
    : GravityOutput.Context :=
  {| GravityOutput.inputData := items;
     GravityOutput.credentials := inl (NotAnError None);
     GravityOutput.workflowId := Some "wf1";
     GravityOutput.nodeId := Some "node1" |}.

(** A bus that rejects every publication with [undefined]. *)
Definition bus_rejects_undefined (publisher : Envelope.Publisher) (channel : string)
    (message : Envelope.Message) : option Thrown :=
  Some (NotAnError None).

(** A bus that rejects every publication. *)
Definition bus_down (publisher : Envelope.Publisher) (channel : string)
    (message : Envelope.Message) : option Thrown :=
  Some (AnError Sample.socket_error).

(** Bedrock resolving without a stream. *)
Definition bedrock_send_no_stream (config : BedrockService.BedrockConfig)
    (input : BedrockService.CommandInput)
    : JSError + BedrockService.ConverseStreamResponse :=
  inr {| BedrockService.stream := None |}.

(** A Titan embedding response and the client that returns it. *)
Definition embedding_response : JSON :=
  JObject [("embedding", JArray [JNumber (1 # 1); JNumber (2 # 1); JNumber (3 # 1)])].

Definition embedding_body : string := Sample.stringify embedding_response.

Definition embed_parse (s : string) : option JSON :=
  if String.eqb s embedding_body then Some embedding_response
  else if String.eqb s "{}" then Some (JObject [])
  else if String.eqb s "null" then Some JNull
  else None.

Definition embed_platform : Platform :=
  {| JSON_parse := embed_parse;
     JSON_parse_error := fun _ => SyntaxError "Unexpected token";
     JSON_stringify := Sample.stringify;
     Date_now := fun k => (1700000000000 + Z.of_nat k)%Z;
     toISOString := JS.Number_toString;
     Math_random_token := fun _ => "4fzyo82mv" |}.

Definition invoke_model (client : GravityEmbed.ClientConfig)
    (command : GravityEmbed.InvokeModelInput) : Thrown + string :=
  inr embedding_body.

(** A Bedrock client that rejects every command with [undefined]. *)
Definition invoke_model_rejects_undefined (client : GravityEmbed.ClientConfig)
    (command : GravityEmbed.InvokeModelInput) : Thrown + string :=
  inl (NotAnError None).

Definition invoke_model_empty_object (client : GravityEmbed.ClientConfig)
    (command : GravityEmbed.InvokeModelInput) : Thrown + string :=
  inr "{}".

Definition embed_client : GravityEmbed.ClientConfig :=
  {| GravityEmbed.region := "us-east-1";
     GravityEmbed.accessKeyId := "AKIATEST";
     GravityEmbed.secretAccessKey := "secret" |}.

Definition embed_item (inputText : string) : GravityEmbed.InputItem :=
  {| GravityEmbed.json := [("id", JNumber (7 # 1))];
     GravityEmbed.parameters :=
       {| GravityEmbed.param_model := "amazon.titan-embed-text-v2:0";
          GravityEmbed.param_inputText := inputText |} |}.

Definition embed_context (items : list GravityEmbed.InputItem) (continue : bool)
    : GravityEmbed.Context :=
  {| GravityEmbed.inputData := items;
     GravityEmbed.credentials :=
       inr {| GravityEmbed.cred_accessKeyId := "AKIATEST";
              GravityEmbed.cred_secretAccessKey := "secret" |};
     GravityEmbed.env_AWS_REGION := None;
     GravityEmbed.continueOnFail := continue |}.

(** An item of GravityOutput with Advanced Options on. *)
Definition advanced_item (outputType chatId errorHandling : string)
    : GravityOutput.InputItem :=
  {| GravityOutput.json := [];
     GravityOutput.parameters :=
       {| GravityOutput.param_conversationId := "conv1";
          GravityOutput.param_chatId := chatId;
          GravityOutput.param_userId := "user1";
          GravityOutput.param_outputType := outputType;
          GravityOutput.param_advancedOptions := true;
          GravityOutput.param_state := ChatState.THINKING;
          GravityOutput.param_textContent := "Hello";
          GravityOutput.param_enableAudio := false;
          GravityOutput.param_jsonData := "{}";
          GravityOutput.param_jsonDataFieldName := "data";
          GravityOutput.param_imageUrl := "";
          GravityOutput.param_imageAlt := "";
          GravityOutput.param_toolName := "search";
          GravityOutput.param_actionType := "";
          GravityOutput.param_errorHandling := errorHandling |} |}.

Definition update_context_continue (items : list GravityUpdate.Parameters)
    : GravityUpdate.Context :=
  {| GravityUpdate.inputData := items;
     GravityUpdate.credentials := inr Sample.gravity_credentials;
     GravityUpdate.workflowId := Some "wf1";
     GravityUpdate.nodeId := Some "node2";
     GravityUpdate.continueOnFail := true |}.

End Sample2.

(** ** Auxiliary facts *)

Lemma truthy_string_nonempty (s : string) :
  JS.truthy_string s = true <-> s <> "".
Proof.
  destruct s; simpl; split; intro H; congruence.
Qed.

Lemma or_string_truthy (a b : string) :
  JS.truthy_string a = true -> JS.or_string a b = a.
Proof. unfold JS.or_string. now intros ->. Qed.

Lemma or_string_empty_r (a : string) : JS.or_string a "" = a.
Proof. now destruct a. Qed.

Lemma append_empty_r (s : string) : (s ++ "")%string = s.
Proof. induction s as [|c s IH]; simpl; [reflexivity | now rewrite IH]. Qed.

Lemma append_assoc (a b c : string) :
  ((a ++ b) ++ c)%string = (a ++ (b ++ c))%string.
Proof. induction a as [|x a IH]; simpl; [reflexivity | now rewrite IH]. Qed.

(** [String.concat ""] is plain juxtaposition. *)
Lemma concat_cons (t : string) (texts : list string) :
  String.concat "" (t :: texts) = (t ++ String.concat "" texts)%string.
Proof.
  destruct texts as [|u texts]; simpl; [now rewrite append_empty_r | reflexivity].
Qed.

Lemma chunk_items_length P model state texts index tick :
  List.length (chunk_items P model state texts index tick) = List.length texts.
Proof.
  revert index tick; induction texts as [|t texts IH]; intros; simpl; auto.
Qed.

Lemma chunk_items_view P model state texts index tick :
  map chunk_view (chunk_items P model state texts index tick)
  = map Some (indexed_from index texts).
Proof.
  revert index tick; induction texts as [|t texts IH]; intros; simpl; [reflexivity|].
  unfold indexed_from in *. simpl. now rewrite IH.
Qed.

Lemma chunk_items_state P model state texts index tick :
  Forall (fun item => item_state item = Some state)
         (chunk_items P model state texts index tick).
Proof.
  revert index tick; induction texts as [|t texts IH]; intros; simpl; constructor; auto.
Qed.

Lemma chunk_items_erase P model state texts index tick tick' :
  map erase_timestamp (chunk_items P model state texts index tick)
  = map erase_timestamp (chunk_items P model state texts index tick').
Proof.
  revert index tick tick'; induction texts as [|t texts IH]; intros; simpl; [reflexivity|].
  f_equal. apply IH.
Qed.

Lemma yielded_of_list {C} (l : list C) : yielded (stream_of_list l) = l.
Proof. induction l as [|c l IH]; simpl; [reflexivity | now rewrite IH]. Qed.

Lemma rejection_of_list {C} (l : list C) : rejection (stream_of_list l) = None.
Proof. induction l as [|c l IH]; simpl; auto. Qed.

Lemma yielded_failing_after {C} (l : list C) (e : JSError) :
  yielded (failing_after l e) = l.
Proof. induction l as [|c l IH]; simpl; [reflexivity | now rewrite IH]. Qed.

Lemma rejection_failing_after {C} (l : list C) (e : JSError) :
  rejection (failing_after l e) = Some e.
Proof. induction l as [|c l IH]; simpl; auto. Qed.

(** ** The streaming loops *)

Section Loops.
Variable P : Platform.
Variable model : string.

Lemma store_after_nil state index st :
  store_after P model state [] index st = st.
Proof.
  unfold store_after; destruct st as [t out]; simpl.
  now rewrite Nat.add_0_r, app_nil_r.
Qed.

Lemma store_after_cons state t texts index st :
  store_after P model state texts (S index)
    {| ticks := S (ticks st);
       streamOutput := streamOutput st
         ++ [ChunkItem {| chunk_model := model; chunk_text := t; chunkIndex := index;
                          chunk_timestamp := toISOString P (Date_now P (ticks st));
                          chunk_state := state; chunk_progressMessage := None |}] |}
  = store_after P model state (t :: texts) index st.
Proof.
  unfold store_after; simpl. rewrite <- app_assoc. simpl.
  f_equal. lia.
Qed.

Lemma loop_outcome_yield_keep {C} (c : C) (rest : AsyncStream C) full n t texts :
  loop_outcome rest (full ++ t)%string (S n) texts
  = loop_outcome (Yield c rest) full n (t :: texts).
Proof.
  unfold loop_outcome. cbn [rejection]. destruct (rejection rest); [reflexivity|].
  rewrite concat_cons, append_assoc. do 2 f_equal. cbn [List.length]. lia.
Qed.

(** The loop of [sendOpenAIRequest] under the callback of GravityOpenAI. *)
Lemma openai_for_await_spec (s : AsyncStream OpenAIService.ChatCompletionChunk)
    (full : string) (n : nat) (st : Store) :
  OpenAIService.for_await (Some (GravityOpenAI.onChunk P model)) s full n st
  = (loop_outcome s full n (nonempty_fragments (openai_fragments s)),
     store_after P model ChatState.RESPONDING
       (nonempty_fragments (openai_fragments s)) n st).
Proof.
  revert full n st.
  induction s as [|c rest IH|e]; intros full n st.
  - simpl. unfold ret, loop_outcome. simpl.
    now rewrite store_after_nil, append_empty_r, Nat.add_0_r.
  - unfold openai_fragments, nonempty_fragments in *. simpl.
    destruct (JS.truthy_string (OpenAIService.chunk_content c)) eqn:E.
    + unfold bind at 1. unfold GravityOpenAI.onChunk, OpenAIService.formatStreamChunk.
      unfold bind, now_iso, ret, push_streamOutput. simpl.
      rewrite Nat.sub_0_r, IH.
      now rewrite store_after_cons, (loop_outcome_yield_keep c).
    + rewrite IH. reflexivity.
  - simpl. unfold throw, loop_outcome. simpl. now rewrite store_after_nil.
Qed.

(** The loop of [sendClaudeRequest] under the callback of GravityClaude. *)
Lemma bedrock_for_await_spec (advancedOptions : GravityClaude.AdvancedOptions)
    (s : AsyncStream BedrockService.ConverseStreamOutput)
    (full : string) (n : nat) (st : Store) :
  BedrockService.for_await (Some (GravityClaude.onChunk P model advancedOptions)) s full n st
  = (loop_outcome s full n (nonempty_fragments (bedrock_fragments s)),
     store_after P model ChatState.RESPONDING
       (nonempty_fragments (bedrock_fragments s)) n st).
Proof.
  revert full n st.
  induction s as [|c rest IH|e]; intros full n st.
  - simpl. unfold ret, loop_outcome. simpl.
    now rewrite store_after_nil, append_empty_r, Nat.add_0_r.
  - unfold bedrock_fragments, nonempty_fragments in *. simpl.
    destruct (JS.truthy_string (BedrockService.chunk_text_of c)) eqn:E.
    + unfold bind at 1. unfold GravityClaude.onChunk, BedrockService.call_with_surplus,
        BedrockService.formatStreamChunk.
      unfold bind, now_iso, ret, push_streamOutput. simpl.
      rewrite Nat.sub_0_r, IH.
      now rewrite store_after_cons, (loop_outcome_yield_keep c).
    + rewrite IH. reflexivity.
  - simpl. unfold throw, loop_outcome. simpl. now rewrite store_after_nil.
Qed.

End Loops.

(** ** The two streaming nodes, run to the end *)

Section OpenAIRuns.
Variable P : Platform.
Variable create : OpenAIService.OpenAIConfig -> OpenAIService.ChatCompletionCreate ->
                  JSError + AsyncStream OpenAIService.ChatCompletionChunk.
Variable this : GravityOpenAI.Context.
Variable cred : GravityOpenAI.OpenAiApiCredentials.
Variable s : AsyncStream OpenAIService.ChatCompletionChunk.
Hypothesis Hcred : GravityOpenAI.credentials this = inr cred.
Hypothesis Hcreate :
  create (GravityOpenAI.openAIConfig this cred)
         (OpenAIService.create_request (GravityOpenAI.requestOptions P this)) = inr s.


Lemma openai_send_run (st : Store) :
  OpenAIService.sendOpenAIRequest create (GravityOpenAI.openAIConfig this cred)
    (GravityOpenAI.requestOptions P this) (Some (GravityOpenAI.onChunk P (GravityOpenAI.param_model this))) st
  = (loop_outcome s "" 0 (nonempty_fragments (openai_fragments s)), store_after P (GravityOpenAI.param_model this) ChatState.RESPONDING (nonempty_fragments (openai_fragments s)) 0 st).
Proof.
  unfold OpenAIService.sendOpenAIRequest, bind at 1.
  rewrite Hcreate. simpl. apply openai_for_await_spec.
Qed.

Lemma openai_execute_exhausted (st : Store) :
  rejection s = None ->
  GravityOpenAI.execute P create this st
  = (Normal [ chunk_items P (GravityOpenAI.param_model this) ChatState.RESPONDING (nonempty_fragments (openai_fragments s)) 0 (ticks st)
              ++ [completion_item P (GravityOpenAI.param_model this) ChatState.COMPLETE (List.length (nonempty_fragments (openai_fragments s)))
                    (ticks st + List.length (nonempty_fragments (openai_fragments s)))];
              [FinalItem (openai_final P this (nonempty_fragments (openai_fragments s)) (S (ticks st + List.length (nonempty_fragments (openai_fragments s)))))] ],
     {| ticks := S (S (ticks st + List.length (nonempty_fragments (openai_fragments s))));
        streamOutput :=
          chunk_items P (GravityOpenAI.param_model this) ChatState.RESPONDING (nonempty_fragments (openai_fragments s)) 0 (ticks st)
          ++ [completion_item P (GravityOpenAI.param_model this) ChatState.COMPLETE (List.length (nonempty_fragments (openai_fragments s)))
                (ticks st + List.length (nonempty_fragments (openai_fragments s)))] |}).
Proof.
  intros Hend.
  unfold GravityOpenAI.execute, try_catch, GravityOpenAI.execute_body.
  unfold bind at 1. rewrite Hcred. simpl.
  unfold bind at 1. unfold new_streamOutput at 1.
  unfold bind at 1. rewrite openai_send_run.
  unfold loop_outcome. rewrite Hend.
  reflexivity.
Qed.

Lemma openai_execute_rejected (st : Store) (e : JSError) :
  rejection s = Some e ->
  GravityOpenAI.execute P create this st
  = (Normal [ [error_item P e (ticks st + List.length (nonempty_fragments (openai_fragments s)))];
              [error_item P e (ticks st + List.length (nonempty_fragments (openai_fragments s)))] ],
     {| ticks := S (ticks st + List.length (nonempty_fragments (openai_fragments s)));
        streamOutput := chunk_items P (GravityOpenAI.param_model this) ChatState.RESPONDING (nonempty_fragments (openai_fragments s)) 0 (ticks st) |}).
Proof.
  intros Hend.
  unfold GravityOpenAI.execute, try_catch, GravityOpenAI.execute_body.
  unfold bind at 1. rewrite Hcred. simpl.
  unfold bind at 1. unfold new_streamOutput at 1.
  unfold bind at 1. rewrite openai_send_run.
  unfold loop_outcome. rewrite Hend.
  reflexivity.
Qed.

End OpenAIRuns.

Section OpenAIRefusals.
Variable P : Platform.
Variable create : OpenAIService.OpenAIConfig -> OpenAIService.ChatCompletionCreate ->
                  JSError + AsyncStream OpenAIService.ChatCompletionChunk.
Variable this : GravityOpenAI.Context.

Lemma openai_execute_no_credentials (st : Store) (e : JSError) :
  GravityOpenAI.credentials this = inl e ->
  GravityOpenAI.execute P create this st
  = (Normal [[error_item P e (ticks st)]; [error_item P e (ticks st)]],
     {| ticks := S (ticks st); streamOutput := streamOutput st |}).
Proof.
  intros Hcred.
  unfold GravityOpenAI.execute, try_catch, GravityOpenAI.execute_body.
  unfold bind at 1. rewrite Hcred. reflexivity.
Qed.

Lemma openai_execute_request_rejected (st : Store)
    (cred : GravityOpenAI.OpenAiApiCredentials) (e : JSError) :
  GravityOpenAI.credentials this = inr cred ->
  create (GravityOpenAI.openAIConfig this cred)
         (OpenAIService.create_request (GravityOpenAI.requestOptions P this)) = inl e ->
  GravityOpenAI.execute P create this st
  = (Normal [[error_item P e (ticks st)]; [error_item P e (ticks st)]],
     {| ticks := S (ticks st); streamOutput := [] |}).
Proof.
  intros Hcred Hcreate.
  unfold GravityOpenAI.execute, try_catch, GravityOpenAI.execute_body.
  unfold bind at 1. rewrite Hcred. simpl.
  unfold bind at 1. unfold new_streamOutput at 1.
  unfold bind at 1. unfold OpenAIService.sendOpenAIRequest. unfold bind at 1.
  rewrite Hcreate. reflexivity.
Qed.

End OpenAIRefusals.

Section ClaudeRuns.
Variable P : Platform.
Variable send : BedrockService.BedrockConfig -> BedrockService.CommandInput ->
                JSError + BedrockService.ConverseStreamResponse.
Variable this : GravityClaude.Context.
Variable cred : GravityClaude.AwsCredentials.
Variable s : AsyncStream BedrockService.ConverseStreamOutput.
Hypothesis Hcred : GravityClaude.credentials this = inr cred.
Hypothesis Hsend :
  send (GravityClaude.bedrockConfig this cred)
       (BedrockService.commandInput (GravityClaude.requestOptions P this))
  = inr {| BedrockService.stream := Some s |}.


Lemma claude_send_run (st : Store) :
  BedrockService.sendClaudeRequest send (GravityClaude.bedrockConfig this cred)
    (GravityClaude.requestOptions P this)
    (Some (GravityClaude.onChunk P (GravityClaude.param_model this) (GravityClaude.param_advancedOptions this))) st
  = (loop_outcome s "" 0 (nonempty_fragments (bedrock_fragments s)), store_after P (GravityClaude.param_model this) ChatState.RESPONDING (nonempty_fragments (bedrock_fragments s)) 0 st).
Proof.
  unfold BedrockService.sendClaudeRequest, bind at 1.
  rewrite Hsend. simpl. apply bedrock_for_await_spec.
Qed.

Lemma claude_execute_exhausted (st : Store) :
  rejection s = None ->
  GravityClaude.execute P send this st
  = (Normal [ chunk_items P (GravityClaude.param_model this) ChatState.RESPONDING (nonempty_fragments (bedrock_fragments s)) 0 (ticks st)
              ++ [completion_item P (GravityClaude.param_model this) ChatState.COMPLETE (List.length (nonempty_fragments (bedrock_fragments s)))
                    (ticks st + List.length (nonempty_fragments (bedrock_fragments s)))];
              [FinalItem (claude_final P this (nonempty_fragments (bedrock_fragments s)) (S (ticks st + List.length (nonempty_fragments (bedrock_fragments s)))))];
              [claude_mcp P this (nonempty_fragments (bedrock_fragments s)) (S (S (ticks st + List.length (nonempty_fragments (bedrock_fragments s)))))] ],
     {| ticks := S (S (S (ticks st + List.length (nonempty_fragments (bedrock_fragments s)))));
        streamOutput :=
          chunk_items P (GravityClaude.param_model this) ChatState.RESPONDING (nonempty_fragments (bedrock_fragments s)) 0 (ticks st)
          ++ [completion_item P (GravityClaude.param_model this) ChatState.COMPLETE (List.length (nonempty_fragments (bedrock_fragments s)))
                (ticks st + List.length (nonempty_fragments (bedrock_fragments s)))] |}).
Proof.
  intros Hend.
  unfold GravityClaude.execute, try_catch, GravityClaude.execute_body.
  unfold bind at 1. rewrite Hcred. simpl.
  unfold bind at 1. unfold new_streamOutput at 1.
  unfold bind at 1. rewrite claude_send_run.
  unfold loop_outcome. rewrite Hend.
  reflexivity.
Qed.

Lemma claude_execute_rejected (st : Store) (e : JSError) :
  rejection s = Some e ->
  GravityClaude.execute P send this st
  = (Normal [ [error_item P e (ticks st + List.length (nonempty_fragments (bedrock_fragments s)))];
              [error_item P e (ticks st + List.length (nonempty_fragments (bedrock_fragments s)))];
              [error_item P e (ticks st + List.length (nonempty_fragments (bedrock_fragments s)))] ],
     {| ticks := S (ticks st + List.length (nonempty_fragments (bedrock_fragments s)));
        streamOutput := chunk_items P (GravityClaude.param_model this) ChatState.RESPONDING (nonempty_fragments (bedrock_fragments s)) 0 (ticks st) |}).
Proof.
  intros Hend.
  unfold GravityClaude.execute, try_catch, GravityClaude.execute_body.
  unfold bind at 1. rewrite Hcred. simpl.
  unfold bind at 1. unfold new_streamOutput at 1.
  unfold bind at 1. rewrite claude_send_run.
  unfold loop_outcome. rewrite Hend.
  reflexivity.
Qed.

End ClaudeRuns.

Example sample_openai_run :
  option_map (map chunk_view)
    (stream_output (GravityOpenAI.execute Sample.platform Sample.openai_create
                      Sample.openai_context Sample.store0))
  = Some [Some ("Hel", 0); Some ("lo", 1); Some (" world", 2); Some (" ", 3)].
Proof. reflexivity. Qed.


(** ** Claims on the streaming aggregation *)

(** C4. For every sequence of provider chunks consumed by
    [sendOpenAIRequest] or [sendClaudeRequest] under the chunk callback of
    its node, the request resolves with a count equal to the number of
    non-empty fragments, and the records pushed are, in arrival order,
    exactly one per non-empty fragment, carrying that fragment as text and
    the number of non-empty fragments before it as chunkIndex (0-based);
    an empty fragment adds no record and does not advance the count. *)
Theorem C4_one_indexed_chunk_per_nonempty_fragment
    (P : Platform)
    (create : OpenAIService.OpenAIConfig -> OpenAIService.ChatCompletionCreate ->
              JSError + AsyncStream OpenAIService.ChatCompletionChunk)
    (send : BedrockService.BedrockConfig -> BedrockService.CommandInput ->
            JSError + BedrockService.ConverseStreamResponse)
    (oconfig : OpenAIService.OpenAIConfig) (ooptions : OpenAIService.OpenAIRequestOptions)
    (bconfig : BedrockService.BedrockConfig) (boptions : BedrockService.ClaudeRequestOptions)
    (model : string) (advancedOptions : GravityClaude.AdvancedOptions)
    (ochunks : list OpenAIService.ChatCompletionChunk)
    (bchunks : list BedrockService.ConverseStreamOutput)
    (st : Store)
    (Hcreate : create oconfig (OpenAIService.create_request ooptions)
               = inr (stream_of_list ochunks))
    (Hsend : send bconfig (BedrockService.commandInput boptions)
             = inr {| BedrockService.stream := Some (stream_of_list bchunks) |}) :
  (exists sent st',
      OpenAIService.sendOpenAIRequest create oconfig ooptions
        (Some (GravityOpenAI.onChunk P model)) st = (Normal sent, st')
      /\ chunkCount sent
         = List.length (nonempty_fragments (map OpenAIService.chunk_content ochunks))
      /\ map chunk_view (streamOutput st')
         = map chunk_view (streamOutput st)
           ++ map Some (indexed_from 0
                (nonempty_fragments (map OpenAIService.chunk_content ochunks))))
  /\
  (exists sent st',
      BedrockService.sendClaudeRequest send bconfig boptions
        (Some (GravityClaude.onChunk P model advancedOptions)) st = (Normal sent, st')
      /\ chunkCount sent
         = List.length (nonempty_fragments (map BedrockService.chunk_text_of bchunks))
      /\ map chunk_view (streamOutput st')
         = map chunk_view (streamOutput st)
           ++ map Some (indexed_from 0
                (nonempty_fragments (map BedrockService.chunk_text_of bchunks)))).
Proof.
  split.
  - unfold OpenAIService.sendOpenAIRequest, bind at 1. rewrite Hcreate. cbn [lift_sum ret].
    rewrite openai_for_await_spec.
    unfold openai_fragments, loop_outcome.
    rewrite yielded_of_list, rejection_of_list.
    eexists _, _. split; [reflexivity|]. split; [reflexivity|].
    unfold store_after. cbn [streamOutput]. rewrite map_app.
    now rewrite chunk_items_view.
  - unfold BedrockService.sendClaudeRequest, bind at 1. rewrite Hsend.
    cbn [lift_sum ret BedrockService.stream].
    rewrite bedrock_for_await_spec.
    unfold bedrock_fragments, loop_outcome.
    rewrite yielded_of_list, rejection_of_list.
    eexists _, _. split; [reflexivity|]. split; [reflexivity|].
    unfold store_after. cbn [streamOutput]. rewrite map_app.
    now rewrite chunk_items_view.
Qed.

Lemma C4_witness :
  (exists sent st',
    OpenAIService.sendOpenAIRequest Sample.openai_create
      (GravityOpenAI.openAIConfig Sample.openai_context Sample.openai_credentials)
      (GravityOpenAI.requestOptions Sample.platform Sample.openai_context)
      (Some (GravityOpenAI.onChunk Sample.platform "gpt-4")) Sample.store0
    = (Normal sent, st')
    /\ chunkCount sent = 3
    /\ map chunk_view (streamOutput st')
       = [Some ("Hel", 0); Some ("lo", 1); Some (" world", 2)])
  /\
  (exists sent st',
    BedrockService.sendClaudeRequest Sample.bedrock_send
      (GravityClaude.bedrockConfig Sample.claude_context Sample.aws_credentials)
      (GravityClaude.requestOptions Sample.platform Sample.claude_context)
      (Some (GravityClaude.onChunk Sample.platform "gpt-4"
               (GravityClaude.param_advancedOptions Sample.claude_context)))
      Sample.store0
    = (Normal sent, st')
    /\ chunkCount sent = 3
    /\ map chunk_view (streamOutput st')
       = [Some ("Hel", 0); Some ("lo", 1); Some (" world", 2)]).
Proof.
  exact (C4_one_indexed_chunk_per_nonempty_fragment
           Sample.platform Sample.openai_create Sample.bedrock_send
           (GravityOpenAI.openAIConfig Sample.openai_context Sample.openai_credentials)
           (GravityOpenAI.requestOptions Sample.platform Sample.openai_context)
           (GravityClaude.bedrockConfig Sample.claude_context Sample.aws_credentials)
           (GravityClaude.requestOptions Sample.platform Sample.claude_context)
           "gpt-4" (GravityClaude.param_advancedOptions Sample.claude_context)
           Sample.openai_chunks Sample.bedrock_chunks Sample.store0
           eq_refl eq_refl).
Defined.

(** C5. For every provider stream that ends without rejecting, the Stream
    output of GravityOpenAI and of GravityClaude is the fragment records
    (one per non-empty fragment, all in state "responding") followed by
    exactly one completion record, whose text is the single space, whose
    chunkIndex is the final fragment count and whose state is "complete";
    and [createCompletionChunk] called without a state override (omitted,
    or the empty string of the "Default (Auto)" option) builds a record
    with that text, that index and the state "complete". *)
Theorem C5_one_completion_record_appended
    (P : Platform)
    (create : OpenAIService.OpenAIConfig -> OpenAIService.ChatCompletionCreate ->
              JSError + AsyncStream OpenAIService.ChatCompletionChunk)
    (send : BedrockService.BedrockConfig -> BedrockService.CommandInput ->
            JSError + BedrockService.ConverseStreamResponse)
    (othis : GravityOpenAI.Context) (ocred : GravityOpenAI.OpenAiApiCredentials)
    (os : AsyncStream OpenAIService.ChatCompletionChunk)
    (cthis : GravityClaude.Context) (ccred : GravityClaude.AwsCredentials)
    (cs : AsyncStream BedrockService.ConverseStreamOutput)
    (st : Store)
    (Hocred : GravityOpenAI.credentials othis = inr ocred)
    (Hcreate : create (GravityOpenAI.openAIConfig othis ocred)
                 (OpenAIService.create_request (GravityOpenAI.requestOptions P othis))
               = inr os)
    (Hoend : rejection os = None)
    (Hccred : GravityClaude.credentials cthis = inr ccred)
    (Hsend : send (GravityClaude.bedrockConfig cthis ccred)
               (BedrockService.commandInput (GravityClaude.requestOptions P cthis))
             = inr {| BedrockService.stream := Some cs |})
    (Hcend : rejection cs = None) :
  (exists records,
      stream_output (GravityOpenAI.execute P create othis st)
      = Some (records
              ++ [completion_item P (GravityOpenAI.param_model othis) ChatState.COMPLETE
                    (List.length (nonempty_fragments (openai_fragments os)))
                    (ticks st + List.length (nonempty_fragments (openai_fragments os)))])
      /\ map chunk_view records
         = map Some (indexed_from 0 (nonempty_fragments (openai_fragments os)))
      /\ Forall (fun item => item_state item = Some ChatState.RESPONDING) records)
  /\
  (exists records,
      stream_output (GravityClaude.execute P send cthis st)
      = Some (records
              ++ [completion_item P (GravityClaude.param_model cthis) ChatState.COMPLETE
                    (List.length (nonempty_fragments (bedrock_fragments cs)))
                    (ticks st + List.length (nonempty_fragments (bedrock_fragments cs)))])
      /\ map chunk_view records
         = map Some (indexed_from 0 (nonempty_fragments (bedrock_fragments cs)))
      /\ Forall (fun item => item_state item = Some ChatState.RESPONDING) records)
  /\
  (forall model count stateOverride progressMessage,
      stateOverride = None \/ stateOverride = Some "" ->
      fst (OpenAIService.createCompletionChunk P model count stateOverride
             progressMessage st)
      = Normal (ChunkItem {| chunk_model := model;
                             chunk_text := " ";
                             chunkIndex := count;
                             chunk_timestamp := toISOString P (Date_now P (ticks st));
                             chunk_state := ChatState.COMPLETE;
                             chunk_progressMessage :=
                               OpenAIService.progress_field progressMessage |}))
  /\
  (forall model count,
      fst (BedrockService.createCompletionChunk P model count st)
      = Normal (completion_item P model ChatState.COMPLETE count (ticks st))).
Proof.
  split; [|split; [|split]].
  - rewrite (openai_execute_exhausted P create othis ocred os Hocred Hcreate st Hoend).
    eexists. split; [reflexivity|]. split.
    + apply chunk_items_view.
    + apply chunk_items_state.
  - rewrite (claude_execute_exhausted P send cthis ccred cs Hccred Hsend st Hcend).
    eexists. split; [reflexivity|]. split.
    + apply chunk_items_view.
    + apply chunk_items_state.
  - intros model count stateOverride progressMessage [-> | ->]; reflexivity.
  - reflexivity.
Qed.

Lemma C5_witness :
  exists records,
    stream_output (GravityOpenAI.execute Sample.platform Sample.openai_create
                     Sample.openai_context Sample.store0)
    = Some (records ++ [completion_item Sample.platform "gpt-4" "complete" 3 3])
    /\ map chunk_view records = [Some ("Hel", 0); Some ("lo", 1); Some (" world", 2)]
    /\ Forall (fun item => item_state item = Some "responding") records.
Proof.
  exact (proj1 (C5_one_completion_record_appended
           Sample.platform Sample.openai_create Sample.bedrock_send
           Sample.openai_context Sample.openai_credentials
           (stream_of_list Sample.openai_chunks)
           Sample.claude_context Sample.aws_credentials
           (stream_of_list Sample.bedrock_chunks)
           Sample.store0 eq_refl eq_refl eq_refl eq_refl eq_refl eq_refl)).
Defined.

(** The fragments of a stream built from the texts [fragments], one
    element per text, are those texts. *)
Lemma openai_fragments_of_list (fragments : list string) :
  openai_fragments (stream_of_list (map OpenAIService.chunk_of_fragment fragments))
  = fragments.
Proof.
  unfold openai_fragments. rewrite yielded_of_list, map_map.
  induction fragments as [|t rest IH]; [reflexivity|].
  cbn [map]. rewrite IH. f_equal.
  unfold OpenAIService.chunk_content, OpenAIService.chunk_of_fragment.
  cbn. apply or_string_empty_r.
Qed.

Lemma bedrock_fragments_of_list (fragments : list string) :
  bedrock_fragments (stream_of_list (map BedrockService.chunk_of_fragment fragments))
  = fragments.
Proof.
  unfold bedrock_fragments. rewrite yielded_of_list, map_map.
  induction fragments as [|t rest IH]; [reflexivity|].
  cbn [map]. now rewrite IH.
Qed.

(** Dropping the empty fragments does not change the concatenation. *)
Lemma concat_nonempty_fragments (fragments : list string) :
  String.concat "" (nonempty_fragments fragments) = String.concat "" fragments.
Proof.
  unfold nonempty_fragments.
  induction fragments as [|t rest IH]; [reflexivity|].
  cbn [filter]. destruct t as [|c t].
  - cbn [JS.truthy_string]. rewrite IH. now rewrite concat_cons.
  - cbn [JS.truthy_string]. now rewrite !concat_cons, IH.
Qed.

(** C6. For every provider stream that ends without rejecting, the
    [fullResponse] that [sendOpenAIRequest] and [sendClaudeRequest] resolve
    with is the concatenation, in arrival order, of the non-empty fragments
    and nothing else: the single space of the completion record is not part
    of it, nor of the [response] member of the Result output. In
    particular, when the provider delivers the texts [fragments], one per
    element of the stream, the full text is the concatenation of those
    that are not empty, which is also the concatenation of them all. *)
Theorem C6_full_text_is_concatenation
    (P : Platform)
    (create : OpenAIService.OpenAIConfig -> OpenAIService.ChatCompletionCreate ->
              JSError + AsyncStream OpenAIService.ChatCompletionChunk)
    (send : BedrockService.BedrockConfig -> BedrockService.CommandInput ->
            JSError + BedrockService.ConverseStreamResponse)
    (othis : GravityOpenAI.Context) (ocred : GravityOpenAI.OpenAiApiCredentials)
    (os : AsyncStream OpenAIService.ChatCompletionChunk)
    (cthis : GravityClaude.Context) (ccred : GravityClaude.AwsCredentials)
    (cs : AsyncStream BedrockService.ConverseStreamOutput)
    (st : Store)
    (Hocred : GravityOpenAI.credentials othis = inr ocred)
    (Hcreate : create (GravityOpenAI.openAIConfig othis ocred)
                 (OpenAIService.create_request (GravityOpenAI.requestOptions P othis))
               = inr os)
    (Hoend : rejection os = None)
    (Hccred : GravityClaude.credentials cthis = inr ccred)
    (Hsend : send (GravityClaude.bedrockConfig cthis ccred)
               (BedrockService.commandInput (GravityClaude.requestOptions P cthis))
             = inr {| BedrockService.stream := Some cs |})
    (Hcend : rejection cs = None) :
  (exists sent,
      fst (OpenAIService.sendOpenAIRequest create (GravityOpenAI.openAIConfig othis ocred)
             (GravityOpenAI.requestOptions P othis)
             (Some (GravityOpenAI.onChunk P (GravityOpenAI.param_model othis))) st)
      = Normal sent
      /\ fullResponse sent
         = String.concat "" (nonempty_fragments (openai_fragments os))
      /\ forall fragments,
           os = stream_of_list (map OpenAIService.chunk_of_fragment fragments) ->
           fullResponse sent = String.concat "" (nonempty_fragments fragments)
           /\ fullResponse sent = String.concat "" fragments)
  /\
  (exists sent,
      fst (BedrockService.sendClaudeRequest send (GravityClaude.bedrockConfig cthis ccred)
             (GravityClaude.requestOptions P cthis)
             (Some (GravityClaude.onChunk P (GravityClaude.param_model cthis)
                      (GravityClaude.param_advancedOptions cthis))) st)
      = Normal sent
      /\ fullResponse sent
         = String.concat "" (nonempty_fragments (bedrock_fragments cs))
      /\ forall fragments,
           cs = stream_of_list (map BedrockService.chunk_of_fragment fragments) ->
           fullResponse sent = String.concat "" (nonempty_fragments fragments)
           /\ fullResponse sent = String.concat "" fragments)
  /\
  (exists streamed final,
      fst (GravityOpenAI.execute P create othis st) = Normal [streamed; [FinalItem final]]
      /\ response final = String.concat "" (nonempty_fragments (openai_fragments os))
      /\ forall fragments,
           os = stream_of_list (map OpenAIService.chunk_of_fragment fragments) ->
           response final = String.concat "" (nonempty_fragments fragments))
  /\
  (exists streamed final mcp,
      fst (GravityClaude.execute P send cthis st)
      = Normal [streamed; [FinalItem final]; [McpItem mcp]]
      /\ response final = String.concat "" (nonempty_fragments (bedrock_fragments cs))
      /\ mcp_content mcp = String.concat "" (nonempty_fragments (bedrock_fragments cs))
      /\ forall fragments,
           cs = stream_of_list (map BedrockService.chunk_of_fragment fragments) ->
           response final = String.concat "" (nonempty_fragments fragments)
           /\ mcp_content mcp = String.concat "" (nonempty_fragments fragments)).
Proof.
  split; [|split; [|split]].
  - rewrite (openai_send_run P create othis ocred os Hcreate st).
    unfold loop_outcome. rewrite Hoend. eexists. split; [reflexivity|].
    split; [reflexivity|]. intros fragments ->. cbn [fullResponse].
    rewrite openai_fragments_of_list.
    split; [reflexivity | apply concat_nonempty_fragments].
  - rewrite (claude_send_run P send cthis ccred cs Hsend st).
    unfold loop_outcome. rewrite Hcend. eexists. split; [reflexivity|].
    split; [reflexivity|]. intros fragments ->. cbn [fullResponse].
    rewrite bedrock_fragments_of_list.
    split; [reflexivity | apply concat_nonempty_fragments].
  - rewrite (openai_execute_exhausted P create othis ocred os Hocred Hcreate st Hoend).
    eexists _, _. split; [reflexivity|]. split; [reflexivity|].
    intros fragments ->. cbn [response openai_final].
    now rewrite openai_fragments_of_list.
  - rewrite (claude_execute_exhausted P send cthis ccred cs Hccred Hsend st Hcend).
    eexists _, _, _. split; [reflexivity|]. split; [reflexivity|].
    split; [reflexivity|].
    intros fragments ->. cbn [response mcp_content claude_final].
    now rewrite bedrock_fragments_of_list.
Qed.

Lemma C6_witness :
  (exists sent,
      fst (OpenAIService.sendOpenAIRequest Sample.openai_create
             (GravityOpenAI.openAIConfig Sample.openai_context Sample.openai_credentials)
             (GravityOpenAI.requestOptions Sample.platform Sample.openai_context)
             (Some (GravityOpenAI.onChunk Sample.platform "gpt-4")) Sample.store0)
      = Normal sent
      /\ fullResponse sent = "Hello world")
  /\
  (exists sent,
      fst (BedrockService.sendClaudeRequest Sample.bedrock_send
             (GravityClaude.bedrockConfig Sample.claude_context Sample.aws_credentials)
             (GravityClaude.requestOptions Sample.platform Sample.claude_context)
             (Some (GravityClaude.onChunk Sample.platform
                      (GravityClaude.param_model Sample.claude_context)
                      (GravityClaude.param_advancedOptions Sample.claude_context)))
             Sample.store0)
      = Normal sent
      /\ fullResponse sent = "Hello world")
  /\
  (exists streamed final,
      fst (GravityOpenAI.execute Sample.platform Sample.openai_create
             Sample.openai_context Sample.store0)
      = Normal [streamed; [FinalItem final]]
      /\ response final = "Hello world")
  /\
  (exists streamed final mcp,
      fst (GravityClaude.execute Sample.platform Sample.bedrock_send
             Sample.claude_context Sample.store0)
      = Normal [streamed; [FinalItem final]; [McpItem mcp]]
      /\ response final = "Hello world"
      /\ mcp_content mcp = "Hello world").
Proof.
  destruct (C6_full_text_is_concatenation
              Sample.platform Sample.openai_create Sample.bedrock_send
              Sample.openai_context Sample.openai_credentials
              (stream_of_list Sample.openai_chunks)
              Sample.claude_context Sample.aws_credentials
              (stream_of_list Sample.bedrock_chunks)
              Sample.store0 eq_refl eq_refl eq_refl eq_refl eq_refl eq_refl)
    as [[so [Hso [_ Ho]]] [[sc [Hsc [_ Hc]]] [[ostr [ofin [Hoe [_ Hof]]]]
        [cstr [cfin [cmcp [Hce [_ [_ Hcf]]]]]]]]].
  split; [|split; [|split]].
  - exists so. split; [exact Hso|]. exact (proj1 (Ho Sample.fragments eq_refl)).
  - exists sc. split; [exact Hsc|]. exact (proj1 (Hc Sample.fragments eq_refl)).
  - exists ostr, ofin. split; [exact Hoe|]. exact (Hof Sample.fragments eq_refl).
  - exists cstr, cfin, cmcp. split; [exact Hce|]. exact (Hcf Sample.fragments eq_refl).
Defined.

(** C3, as the spec states it, fails: when the provider stream rejects
    after the fragment "A", neither node returns the record it had pushed
    for that fragment. *)
Lemma C3_partial_output_is_dropped :
  ~ returns_partial_output
      (GravityOpenAI.execute Sample.platform Sample.openai_create_failing
         Sample.openai_context Sample.store0)
  /\
  ~ returns_partial_output
      (GravityClaude.execute Sample.platform Sample.bedrock_send_failing
         Sample.claude_context Sample.store0).
Proof.
  split; intros [returned [Hout Hin]]; vm_compute in Hout;
    injection Hout as <-; vm_compute in Hin;
    destruct (Hin _ (or_introl eq_refl)) as [H|[]]; discriminate H.
Qed.

(** C3, amended. For every provider stream that rejects, after any number
    of fragments, GravityOpenAI and GravityClaude do not throw: they return
    on every output one and the same error record, which carries the
    message and the stack of the rejection; the records pushed before the
    rejection stay in the local array and are not part of what is
    returned. *)
Theorem C3_rejection_returns_error_record_only
    (P : Platform)
    (create : OpenAIService.OpenAIConfig -> OpenAIService.ChatCompletionCreate ->
              JSError + AsyncStream OpenAIService.ChatCompletionChunk)
    (send : BedrockService.BedrockConfig -> BedrockService.CommandInput ->
            JSError + BedrockService.ConverseStreamResponse)
    (othis : GravityOpenAI.Context) (ocred : GravityOpenAI.OpenAiApiCredentials)
    (os : AsyncStream OpenAIService.ChatCompletionChunk)
    (cthis : GravityClaude.Context) (ccred : GravityClaude.AwsCredentials)
    (cs : AsyncStream BedrockService.ConverseStreamOutput)
    (st : Store) (oe ce : JSError)
    (Hocred : GravityOpenAI.credentials othis = inr ocred)
    (Hcreate : create (GravityOpenAI.openAIConfig othis ocred)
                 (OpenAIService.create_request (GravityOpenAI.requestOptions P othis))
               = inr os)
    (Hoend : rejection os = Some oe)
    (Hccred : GravityClaude.credentials cthis = inr ccred)
    (Hsend : send (GravityClaude.bedrockConfig cthis ccred)
               (BedrockService.commandInput (GravityClaude.requestOptions P cthis))
             = inr {| BedrockService.stream := Some cs |})
    (Hcend : rejection cs = Some ce) :
  (let texts := nonempty_fragments (openai_fragments os) in
   let record := error_item P oe (ticks st + List.length texts) in
   GravityOpenAI.execute P create othis st
   = (Normal [[record]; [record]],
      {| ticks := S (ticks st + List.length texts);
         streamOutput := chunk_items P (GravityOpenAI.param_model othis)
                           ChatState.RESPONDING texts 0 (ticks st) |}))
  /\
  (let texts := nonempty_fragments (bedrock_fragments cs) in
   let record := error_item P ce (ticks st + List.length texts) in
   GravityClaude.execute P send cthis st
   = (Normal [[record]; [record]; [record]],
      {| ticks := S (ticks st + List.length texts);
         streamOutput := chunk_items P (GravityClaude.param_model cthis)
                           ChatState.RESPONDING texts 0 (ticks st) |})).
Proof.
  split; cbv zeta.
  - exact (openai_execute_rejected P create othis ocred os Hocred Hcreate st oe Hoend).
  - exact (claude_execute_rejected P send cthis ccred cs Hccred Hsend st ce Hcend).
Qed.

Lemma C3_witness :
  fst (GravityOpenAI.execute Sample.platform Sample.openai_create_failing
         Sample.openai_context Sample.store0)
  = Normal [[error_item Sample.platform Sample.socket_error 1];
            [error_item Sample.platform Sample.socket_error 1]]
  /\
  fst (GravityClaude.execute Sample.platform Sample.bedrock_send_failing
         Sample.claude_context Sample.store0)
  = Normal [[error_item Sample.platform Sample.socket_error 1];
            [error_item Sample.platform Sample.socket_error 1];
            [error_item Sample.platform Sample.socket_error 1]].
Proof.
  pose proof (C3_rejection_returns_error_record_only
           Sample.platform Sample.openai_create_failing Sample.bedrock_send_failing
           Sample.openai_context Sample.openai_credentials
           (failing_after [OpenAIService.chunk_of_fragment "A"] Sample.socket_error)
           Sample.claude_context Sample.aws_credentials
           (failing_after [BedrockService.chunk_of_fragment "A"] Sample.socket_error)
           Sample.store0 Sample.socket_error Sample.socket_error
           eq_refl eq_refl eq_refl eq_refl eq_refl eq_refl) as [Ho Hc].
  split.
  - exact (f_equal fst Ho).
  - exact (f_equal fst Hc).
Defined.

(** The functions of OpenAIService put a non-empty state override in the
    record they build, in place of "responding" and "complete". *)
Lemma openai_service_honours_override (P : Platform) (model text stateOverride : string)
    (index : nat) (progressMessage : option string) (st : Store) :
  stateOverride <> "" ->
  option_map item_state
    (match fst (OpenAIService.formatStreamChunk P model text index
                  (Some stateOverride) progressMessage st) with
     | Normal item => Some item
     | Throw _ => None
     end) = Some (Some stateOverride)
  /\
  option_map item_state
    (match fst (OpenAIService.createCompletionChunk P model index
                  (Some stateOverride) progressMessage st) with
     | Normal item => Some item
     | Throw _ => None
     end) = Some (Some stateOverride).
Proof.
  intros H. apply truthy_string_nonempty in H.
  split; simpl; now rewrite (or_string_truthy _ _ H).
Qed.

(** GravityClaude hands [advancedOptions] to two functions that declare no
    such parameters: what it returns does not depend on them. *)
Lemma claude_execute_ignores_advancedOptions (P : Platform)
    (send : BedrockService.BedrockConfig -> BedrockService.CommandInput ->
            JSError + BedrockService.ConverseStreamResponse)
    (this : GravityClaude.Context) (a1 a2 : GravityClaude.AdvancedOptions) (st : Store) :
  GravityClaude.execute P send (GravityClaude.with_advancedOptions this a1) st
  = GravityClaude.execute P send (GravityClaude.with_advancedOptions this a2) st.
Proof. reflexivity. Qed.

(** C1 fails on GravityClaude. With the state override "thinking" and the
    single fragment "A", the Stream output is one fragment record in state
    "responding" and the completion record in state "complete": no record
    carries "thinking". *)
Theorem C1_claude_drops_state_override :
  GravityClaude.state (GravityClaude.param_advancedOptions Sample.claude_context)
  = Some "thinking"
  /\
  option_map (map (fun item => (chunk_view item, item_state item)))
    (stream_output (GravityClaude.execute Sample.platform Sample.bedrock_send_one
                      Sample.claude_context Sample.store0))
  = Some [ (Some ("A", 0), Some "responding"); (Some (" ", 1), Some "complete") ].
Proof. split; reflexivity. Qed.

(** With the parameters resolved, what GravityOpenAI returns does not
    depend on the reading of the clock it starts at, up to timestamps; and
    it always returns. *)
Lemma openai_execute_up_to_timestamps
    (P : Platform)
    (create : OpenAIService.OpenAIConfig -> OpenAIService.ChatCompletionCreate ->
              JSError + AsyncStream OpenAIService.ChatCompletionChunk)
    (this : GravityOpenAI.Context) (st1 st2 : Store) :
  outputs_up_to_timestamps (GravityOpenAI.execute P create this st1)
  = outputs_up_to_timestamps (GravityOpenAI.execute P create this st2)
  /\
  outputs_up_to_timestamps (GravityOpenAI.execute P create this st1) <> None.
Proof.
  destruct (GravityOpenAI.credentials this) as [e|cred] eqn:Hcred.
  - rewrite (openai_execute_no_credentials P create this st1 e Hcred).
    rewrite (openai_execute_no_credentials P create this st2 e Hcred).
    split; [reflexivity | discriminate].
  - destruct (create (GravityOpenAI.openAIConfig this cred)
                (OpenAIService.create_request (GravityOpenAI.requestOptions P this)))
      as [e|s] eqn:Hcreate.
    + rewrite (openai_execute_request_rejected P create this st1 cred e Hcred Hcreate).
      rewrite (openai_execute_request_rejected P create this st2 cred e Hcred Hcreate).
      split; [reflexivity | discriminate].
    + destruct (rejection s) as [e|] eqn:Hend.
      * rewrite (openai_execute_rejected P create this cred s Hcred Hcreate st1 e Hend).
        rewrite (openai_execute_rejected P create this cred s Hcred Hcreate st2 e Hend).
        split; [reflexivity | discriminate].
      * rewrite (openai_execute_exhausted P create this cred s Hcred Hcreate st1 Hend).
        rewrite (openai_execute_exhausted P create this cred s Hcred Hcreate st2 Hend).
        split; [|discriminate].
        unfold outputs_up_to_timestamps. cbn [fst map].
        rewrite !map_app.
        rewrite (chunk_items_erase P _ _ _ 0 (ticks st1) (ticks st2)).
        reflexivity.
Qed.

(** Reading the parameters leaves the store alone and gives the first
    error of a resolution, or the resolved values. *)
Lemma getNodeParameters_run (this : GravityOpenAI.Invocation) (st : Store) :
  GravityOpenAI.getNodeParameters this st
  = (match resolve this with
     | inl e => Throw e
     | inr resolved => Normal resolved
     end, st).
Proof.
  unfold GravityOpenAI.getNodeParameters, GravityOpenAI.getNodeParameter, resolve, bind.
  destruct (GravityOpenAI.node_model this _ 0); [reflexivity|].
  destruct (GravityOpenAI.node_systemPrompt this _ 0); [reflexivity|].
  destruct (GravityOpenAI.node_temperature this _ 0); [reflexivity|].
  destruct (GravityOpenAI.node_maxTokens this _ 0); [reflexivity|].
  destruct (GravityOpenAI.node_message this _ 0); [reflexivity|].
  destruct (GravityOpenAI.node_baseURL this _ 0); reflexivity.
Qed.

(** [execute] from the stored parameters is [execute] on the resolved
    ones, or the error record of the resolution that threw. *)
Lemma openai_execute_invocation_run
    (P : Platform)
    (create : OpenAIService.OpenAIConfig -> OpenAIService.ChatCompletionCreate ->
              JSError + AsyncStream OpenAIService.ChatCompletionChunk)
    (this : GravityOpenAI.Invocation) (st : Store) :
  GravityOpenAI.execute_invocation P create this st
  = match resolve this with
    | inl e =>
        (Normal [[error_item P e (ticks st)]; [error_item P e (ticks st)]],
         {| ticks := S (ticks st); streamOutput := streamOutput st |})
    | inr resolved => GravityOpenAI.execute P create resolved st
    end.
Proof.
  unfold GravityOpenAI.execute_invocation, GravityOpenAI.execute, try_catch, bind.
  rewrite getNodeParameters_run.
  destruct (resolve this); reflexivity.
Qed.

Lemma resolve_alike (this : GravityOpenAI.Invocation) (items1 items2 : list JSON) :
  resolves_alike this items1 items2 ->
  resolve (GravityOpenAI.with_inputData this items1)
  = resolve (GravityOpenAI.with_inputData this items2).
Proof.
  intros [H1 [H2 [H3 [H4 [H5 H6]]]]]. unfold resolve.
  cbn [GravityOpenAI.with_inputData GravityOpenAI.inputData GravityOpenAI.node_model
       GravityOpenAI.node_systemPrompt GravityOpenAI.node_temperature
       GravityOpenAI.node_maxTokens GravityOpenAI.node_message
       GravityOpenAI.node_baseURL GravityOpenAI.node_credentials].
  now rewrite H1, H2, H3, H4, H5, H6.
Qed.

(** C10, as the claim states it, fails: a parameter can be an expression,
    which [getNodeParameter] resolves against the first input item. With
    the Message parameter [={{ $json.message }}], the same parameters, the
    same credentials and the same provider, the input items
    [{message: "A"}] and [{message: "B"}] give different Result outputs:
    the messages sent, which the Result output repeats, differ. *)
Lemma C10_output_follows_the_first_item :
  outputs_up_to_timestamps
    (GravityOpenAI.execute_invocation Sample.platform Sample.openai_create
       (GravityOpenAI.with_inputData (Sample2.openai_invocation [])
          [Sample2.item_with_message "A"])
       Sample.store0)
  <> outputs_up_to_timestamps
       (GravityOpenAI.execute_invocation Sample.platform Sample.openai_create
          (GravityOpenAI.with_inputData (Sample2.openai_invocation [])
             [Sample2.item_with_message "B"])
          Sample.store0).
Proof. intros H. vm_compute in H. discriminate H. Qed.

(** C10, amended. [GravityOpenAI.execute] never calls [getInputData]: the
    input items reach it only through the six calls of
    [getNodeParameter(name, 0, fallback)]. For any two invocations with the
    same stored parameters and credentials whose parameters resolve alike
    for the item index 0 (fixed values always do; expressions over the
    current item do when the two lists start with the same item), started
    at any two readings of the clock, both return, and return the same
    Stream and Result outputs up to timestamps. *)
Theorem C10_outputs_agree_when_parameters_resolve_alike
    (P : Platform)
    (create : OpenAIService.OpenAIConfig -> OpenAIService.ChatCompletionCreate ->
              JSError + AsyncStream OpenAIService.ChatCompletionChunk)
    (this : GravityOpenAI.Invocation) (items1 items2 : list JSON) (st1 st2 : Store)
    (Hsame : resolves_alike this items1 items2) :
  outputs_up_to_timestamps
    (GravityOpenAI.execute_invocation P create
       (GravityOpenAI.with_inputData this items1) st1)
  = outputs_up_to_timestamps
      (GravityOpenAI.execute_invocation P create
         (GravityOpenAI.with_inputData this items2) st2)
  /\
  outputs_up_to_timestamps
    (GravityOpenAI.execute_invocation P create
       (GravityOpenAI.with_inputData this items1) st1)
  <> None.
Proof.
  rewrite !openai_execute_invocation_run.
  rewrite (resolve_alike this items1 items2 Hsame).
  destruct (resolve (GravityOpenAI.with_inputData this items2)) as [e|resolved].
  - split; [reflexivity | discriminate].
  - apply openai_execute_up_to_timestamps.
Qed.

(** Two lists of input items that start with the same item and differ
    after it, under the Message parameter [={{ $json.message }}]. *)
Lemma C10_witness :
  outputs_up_to_timestamps
    (GravityOpenAI.execute_invocation Sample.platform Sample.openai_create
       (GravityOpenAI.with_inputData (Sample2.openai_invocation [])
          [Sample2.item_with_message "A"; Sample2.item_with_message "B"])
       Sample.store0)
  = outputs_up_to_timestamps
      (GravityOpenAI.execute_invocation Sample.platform Sample.openai_create
         (GravityOpenAI.with_inputData (Sample2.openai_invocation [])
            [Sample2.item_with_message "A"])
         {| ticks := 5; streamOutput := [] |}).
Proof.
  refine (proj1 (C10_outputs_agree_when_parameters_resolve_alike
            Sample.platform Sample.openai_create (Sample2.openai_invocation [])
            [Sample2.item_with_message "A"; Sample2.item_with_message "B"]
            [Sample2.item_with_message "A"]
            Sample.store0 {| ticks := 5; streamOutput := [] |} _)).
  repeat split.
Defined.

(** ** Claims on the publishing nodes *)

Lemma eqb_neq_false (a b : string) : a <> b -> String.eqb a b = false.
Proof. intros H. now apply String.eqb_neq. Qed.

(** [error.message || fallback] when the message is a text. *)
Lemma or_value_text (message fallback : string) :
  JS.or_value (Some (JString message)) fallback = JString (JS.or_string message fallback).
Proof. destruct message; reflexivity. Qed.

(** The [catch] block of GravityOutput does not touch the world. It throws
    the caught value again unless the item asks to continue; then it
    records the message read from the caught value, or throws the
    TypeError of that reading. *)
Lemma output_item_catch_run (item : GravityOutput.InputItem) (error : Thrown)
    (w : Envelope.World) :
  GravityOutput.item_catch item error w
  = (if output_continues item
     then match JS.message_of error with
          | inl unreadable => Throw (AnError unreadable)
          | inr message =>
              Normal (GravityOutput.NotSent (GravityOutput.json item)
                        (JS.or_value message "Unknown error in Gravity Output"))
          end
     else Throw error, w).
Proof.
  unfold GravityOutput.item_catch, output_continues.
  destruct (GravityOutput.param_advancedOptions (GravityOutput.parameters item));
    cbn [andb]; [|reflexivity].
  destruct (String.eqb _ "continue"); [|reflexivity].
  unfold bind. destruct (JS.message_of error); reflexivity.
Qed.

(** What [throw new NodeOperationError(...)] does: one reading of the
    clock, then the throw. *)
Lemma throwNodeOperationError_run {A : Type} (P : Platform) (message : string)
    (w : Envelope.World) :
  @Envelope.throwNodeOperationError P A message w
  = (Throw (AnError (NodeOperationError message)), clock_read w).
Proof. reflexivity. Qed.

(** The world once [newBaseEvent] has run: two readings of the clock and one
    draw. *)
Lemma newBaseEvent_run (P : Platform) (chatId conversationId userId providerId state : string)
    (w : Envelope.World) :
  Envelope.newBaseEvent P chatId conversationId userId providerId state w
  = (Normal {| Envelope.id :=
                 (JS.Number_toString (Date_now P (Envelope.clock w)) ++ "-"
                  ++ Math_random_token P (Envelope.draws w))%string;
               Envelope.chatId := chatId;
               Envelope.conversationId := conversationId;
               Envelope.userId := userId;
               Envelope.providerId := providerId;
               Envelope.timestamp := Date_now P (S (Envelope.clock w));
               Envelope.state := state |},
     {| Envelope.clock := S (S (Envelope.clock w));
        Envelope.draws := S (Envelope.draws w);
        Envelope.publishCalls := Envelope.publishCalls w;
        Envelope.uiMessages := Envelope.uiMessages w |}).
Proof. reflexivity. Qed.

(** Past the validation of GravityOutput, the [try] block is the base
    event, the dispatch and the returned element. *)
Lemma output_item_body_valid (P : Platform)
    (publish_outcome : Envelope.Publisher -> string -> Envelope.Message -> option Thrown)
    (channel : string)
    (this : GravityOutput.Context) (item : GravityOutput.InputItem)
    (cred : Envelope.GravityApiCredentials) (w : Envelope.World) :
  GravityOutput.credentials this = inr cred ->
  GravityOutput.param_chatId (GravityOutput.parameters item) <> "" ->
  GravityOutput.param_conversationId (GravityOutput.parameters item) <> "" ->
  GravityOutput.param_userId (GravityOutput.parameters item) <> "" ->
  let p := GravityOutput.parameters item in
  let providerId := Envelope.nodeProviderId (GravityOutput.workflowId this)
                      (GravityOutput.nodeId this) in
  let publisher := {| Envelope.serverUrl := Envelope.cred_serverUrl cred;
                      Envelope.publisher_apiKey := Envelope.cred_apiKey cred;
                      Envelope.publisher_providerId := providerId |} in
  let messageState := if GravityOutput.param_advancedOptions p
                      then GravityOutput.param_state p else ChatState.ACTIVE in
  GravityOutput.item_body P publish_outcome channel this item w
  = bind (Envelope.newBaseEvent P (GravityOutput.param_chatId p)
            (GravityOutput.param_conversationId p) (GravityOutput.param_userId p)
            providerId messageState)
      (fun baseEvent =>
         bind (GravityOutput.dispatch P publish_outcome channel publisher baseEvent p)
           (fun _ =>
              bind (Envelope.nowISO P)
                (fun timestamp =>
                   ret (GravityOutput.Sent (GravityOutput.json item)
                          (GravityOutput.param_outputType p) messageState timestamp
                          (GravityOutput.param_conversationId p)
                          (GravityOutput.param_chatId p)
                          (GravityOutput.param_userId p))))) w.
Proof.
  intros Hcred Hchat Hconv Huser. cbv zeta.
  apply truthy_string_nonempty in Hchat, Hconv, Huser.
  unfold GravityOutput.item_body, bind at 1. rewrite Hcred. cbn [lift_sum ret].
  rewrite Hchat, Hconv, Huser. reflexivity.
Qed.

(** The toolOutput case on a text that does not parse. *)
Lemma output_dispatch_tool_malformed (P : Platform)
    (publish_outcome : Envelope.Publisher -> string -> Envelope.Message -> option Thrown)
    (channel : string) (publisher : Envelope.Publisher) (baseEvent : Envelope.BaseEvent)
    (p : GravityOutput.Parameters) (w : Envelope.World) :
  GravityOutput.param_outputType p = MessageType.TOOL_OUTPUT ->
  JSON_parse P (GravityOutput.param_jsonData p) = None ->
  GravityOutput.dispatch P publish_outcome channel publisher baseEvent p w
  = (Throw (AnError (NodeOperationError "Invalid JSON data for tool output")),
     clock_read w).
Proof.
  intros Htype Hparse. unfold GravityOutput.dispatch. rewrite Htype.
  cbn [String.eqb Ascii.eqb Bool.eqb MessageType.TOOL_OUTPUT MessageType.TEXT
       MessageType.JSON_DATA MessageType.IMAGE_RESPONSE].
  unfold try_catch. rewrite Hparse. reflexivity.
Qed.

(** C8. For every item of GravityOutput that reaches the toolOutput case
    (credentials available, the three identifiers non-empty) with a result
    text that [JSON.parse] rejects, the [try] block throws the error
    "Invalid JSON data for tool output" and nothing is handed to the bus;
    the item then fails with that error, rethrown or, when the item asks
    to continue, recorded as the item's error, still with nothing handed
    to the bus. *)
Theorem C8_malformed_tool_output_publishes_nothing
    (P : Platform)
    (publish_outcome : Envelope.Publisher -> string -> Envelope.Message -> option Thrown)
    (channel : string)
    (this : GravityOutput.Context) (item : GravityOutput.InputItem)
    (cred : Envelope.GravityApiCredentials) (w : Envelope.World)
    (Hcred : GravityOutput.credentials this = inr cred)
    (Hchat : GravityOutput.param_chatId (GravityOutput.parameters item) <> "")
    (Hconv : GravityOutput.param_conversationId (GravityOutput.parameters item) <> "")
    (Huser : GravityOutput.param_userId (GravityOutput.parameters item) <> "")
    (Htype : GravityOutput.param_outputType (GravityOutput.parameters item)
             = MessageType.TOOL_OUTPUT)
    (Hparse : JSON_parse P (GravityOutput.param_jsonData (GravityOutput.parameters item))
              = None) :
  (exists w',
      GravityOutput.item_body P publish_outcome channel this item w
      = (Throw (AnError (NodeOperationError "Invalid JSON data for tool output")), w')
      /\ Envelope.publishCalls w' = Envelope.publishCalls w)
  /\
  (exists w',
      GravityOutput.process_item P publish_outcome channel this item w
      = ((if GravityOutput.param_advancedOptions (GravityOutput.parameters item)
             && String.eqb (GravityOutput.param_errorHandling (GravityOutput.parameters item))
                           "continue"
          then Normal (GravityOutput.NotSent (GravityOutput.json item)
                         (JString "Invalid JSON data for tool output"))
          else Throw (AnError (NodeOperationError "Invalid JSON data for tool output"))),
         w')
      /\ Envelope.publishCalls w' = Envelope.publishCalls w).
Proof.
  pose proof (output_item_body_valid P publish_outcome channel this item cred w
                Hcred Hchat Hconv Huser) as Hbody.
  cbv zeta in Hbody.
  unfold bind at 1 in Hbody. rewrite newBaseEvent_run in Hbody.
  unfold bind at 1 in Hbody.
  rewrite (output_dispatch_tool_malformed P publish_outcome channel _ _ _ _ Htype Hparse)
    in Hbody.
  split.
  - eexists. split; [exact Hbody | reflexivity].
  - unfold GravityOutput.process_item, try_catch. rewrite Hbody.
    rewrite output_item_catch_run. unfold output_continues.
    destruct (GravityOutput.param_advancedOptions (GravityOutput.parameters item));
      cbn [andb].
    + destruct (String.eqb _ "continue"); eexists; split; reflexivity.
    + eexists; split; reflexivity.
Qed.

Lemma C8_witness :
  exists w',
    GravityOutput.item_body Sample.platform Sample.publish_outcome Sample.AI_RESULT_CHANNEL
      (Sample.output_context
         [Sample.output_item "toolOutput" "chat1" "conv1" "user1" "not json"])
      (Sample.output_item "toolOutput" "chat1" "conv1" "user1" "not json")
      Sample.world0
    = (Throw (AnError (NodeOperationError "Invalid JSON data for tool output")), w')
    /\ Envelope.publishCalls w' = [].
Proof.
  refine (proj1 (C8_malformed_tool_output_publishes_nothing
           Sample.platform Sample.publish_outcome Sample.AI_RESULT_CHANNEL
           (Sample.output_context
              [Sample.output_item "toolOutput" "chat1" "conv1" "user1" "not json"])
           (Sample.output_item "toolOutput" "chat1" "conv1" "user1" "not json")
           Sample.gravity_credentials Sample.world0 eq_refl _ _ _ eq_refl eq_refl));
    simpl; discriminate.
Defined.

(** The jsonData case of GravityOutput on a text that parses. *)
Lemma output_dispatch_json (P : Platform)
    (publish_outcome : Envelope.Publisher -> string -> Envelope.Message -> option Thrown)
    (channel : string) (publisher : Envelope.Publisher) (baseEvent : Envelope.BaseEvent)
    (p : GravityOutput.Parameters) (w : Envelope.World) (v : JSON) :
  GravityOutput.param_outputType p = MessageType.JSON_DATA ->
  JSON_parse P (GravityOutput.param_jsonData p) = Some v ->
  Envelope.publishCalls
    (snd (GravityOutput.dispatch P publish_outcome channel publisher baseEvent p w))
  = Envelope.publishCalls w
    ++ [(channel,
         Envelope.createJsonData baseEvent
           (GravityOutput.param_jsonDataFieldName p, Envelope.dataArray v))].
Proof.
  intros Htype Hparse. unfold GravityOutput.dispatch. rewrite Htype.
  cbn [String.eqb Ascii.eqb Bool.eqb MessageType.TEXT MessageType.JSON_DATA].
  unfold try_catch. rewrite Hparse.
  unfold bind, Envelope.sendMessageToUI, Envelope.publishEvent.
  cbn [Envelope.publishCalls Envelope.clock Envelope.draws Envelope.uiMessages].
  destruct (publish_outcome _ _ _); reflexivity.
Qed.

(** The jsonData case of GravityUpdate on a text that parses. *)
Lemma update_dispatch_json (P : Platform)
    (publish_outcome : Envelope.Publisher -> string -> Envelope.Message -> option Thrown)
    (channel : string) (publisher : Envelope.Publisher) (baseEvent : Envelope.BaseEvent)
    (p : GravityUpdate.Parameters) (w : Envelope.World) (v : JSON) :
  GravityUpdate.param_updateType p = MessageType.JSON_DATA ->
  JSON_parse P (GravityUpdate.param_jsonData p) = Some v ->
  Envelope.publishCalls
    (snd (GravityUpdate.dispatch P publish_outcome channel publisher baseEvent p w))
  = Envelope.publishCalls w
    ++ [(channel,
         Envelope.createJsonData baseEvent
           (GravityUpdate.param_jsonDataFieldName p, Envelope.dataArray v))].
Proof.
  intros Htype Hparse. unfold GravityUpdate.dispatch. rewrite Htype.
  cbn [String.eqb Ascii.eqb Bool.eqb MessageType.PROGRESS_UPDATE MessageType.MESSAGE_CHUNK
       MessageType.JSON_DATA].
  unfold try_catch. rewrite Hparse.
  unfold bind at 1. unfold Envelope.publishEvent.
  destruct (publish_outcome _ _ _); reflexivity.
Qed.

(** What [dataArray] is, by the case of the parsed value. *)
Lemma dataArray_spec (v : JSON) :
  (JS.isArray v = true -> JArray (Envelope.dataArray v) = v)
  /\ (JS.isArray v = false -> Envelope.dataArray v = [v]).
Proof. destruct v; simpl; split; intros H; try reflexivity; discriminate H. Qed.

(** C7. For every JSON text that [JSON.parse] accepts as the value [v], the
    jsonData case of GravityOutput (for an item past validation) and of
    GravityUpdate hands exactly one message to the bus, and the [items]
    member of that message is [v] itself when [v] is an array and the
    one-element array [[v]] when it is not. *)
Theorem C7_json_items_wrapped_at_most_once
    (P : Platform)
    (publish_outcome : Envelope.Publisher -> string -> Envelope.Message -> option Thrown)
    (channel : string)
    (this : GravityOutput.Context) (item : GravityOutput.InputItem)
    (cred : Envelope.GravityApiCredentials)
    (publisher : Envelope.Publisher) (providerId : string)
    (up : GravityUpdate.Parameters)
    (w : Envelope.World) (v uv : JSON)
    (Hcred : GravityOutput.credentials this = inr cred)
    (Hchat : GravityOutput.param_chatId (GravityOutput.parameters item) <> "")
    (Hconv : GravityOutput.param_conversationId (GravityOutput.parameters item) <> "")
    (Huser : GravityOutput.param_userId (GravityOutput.parameters item) <> "")
    (Hotype : GravityOutput.param_outputType (GravityOutput.parameters item)
              = MessageType.JSON_DATA)
    (Hoparse : JSON_parse P (GravityOutput.param_jsonData (GravityOutput.parameters item))
               = Some v)
    (Hutype : GravityUpdate.param_updateType up = MessageType.JSON_DATA)
    (Huparse : JSON_parse P (GravityUpdate.param_jsonData up) = Some uv) :
  (exists message items,
      Envelope.publishCalls
        (snd (GravityOutput.item_body P publish_outcome channel this item w))
      = Envelope.publishCalls w ++ [(channel, message)]
      /\ Envelope.items_of message = Some items
      /\ (JS.isArray v = true -> JArray items = v)
      /\ (JS.isArray v = false -> items = [v]))
  /\
  (exists message items,
      Envelope.publishCalls
        (snd (GravityUpdate.item_body P publish_outcome channel publisher providerId up w))
      = Envelope.publishCalls w ++ [(channel, message)]
      /\ Envelope.items_of message = Some items
      /\ (JS.isArray uv = true -> JArray items = uv)
      /\ (JS.isArray uv = false -> items = [uv])).
Proof.
  split.
  - rewrite (output_item_body_valid P publish_outcome channel this item cred w
               Hcred Hchat Hconv Huser).
    cbv zeta. unfold bind at 1. rewrite newBaseEvent_run. cbv beta iota.
    unfold bind at 1.
    match goal with
    | |- context [GravityOutput.dispatch P publish_outcome channel ?pub ?be ?p ?w1] =>
        pose proof (output_dispatch_json P publish_outcome channel pub be p w1 v
                      Hotype Hoparse) as Hcalls;
        destruct (GravityOutput.dispatch P publish_outcome channel pub be p w1)
          as [[u|e] w2]
    end; cbn [snd Envelope.publishCalls] in *;
      eexists _, (Envelope.dataArray v);
      (split; [exact Hcalls |]); (split; [reflexivity | apply dataArray_spec]).
  - unfold GravityUpdate.item_body, bind at 1. rewrite newBaseEvent_run. cbv beta iota.
    match goal with
    | |- context [GravityUpdate.dispatch P publish_outcome channel ?pub ?be ?p ?w1] =>
        pose proof (update_dispatch_json P publish_outcome channel pub be p w1 uv
                      Hutype Huparse) as Hcalls
    end.
    cbn [snd Envelope.publishCalls] in *.
    eexists _, (Envelope.dataArray uv).
    split; [exact Hcalls |]. split; [reflexivity | apply dataArray_spec].
Qed.

Lemma C7_witness :
  (exists message items,
      Envelope.publishCalls
        (snd (GravityOutput.item_body Sample.platform Sample.publish_outcome
                Sample.AI_RESULT_CHANNEL
                (Sample.output_context
                   [Sample.output_item "jsonData" "chat1" "conv1" "user1"
                      (Sample.stringify (Sample.object_a 1))])
                (Sample.output_item "jsonData" "chat1" "conv1" "user1"
                   (Sample.stringify (Sample.object_a 1)))
                Sample.world0))
      = [] ++ [(Sample.AI_RESULT_CHANNEL, message)]
      /\ Envelope.items_of message = Some items
      /\ (false = true -> JArray items = Sample.object_a 1)
      /\ (false = false -> items = [Sample.object_a 1]))
  /\
  (exists message items,
      Envelope.publishCalls
        (snd (GravityUpdate.item_body Sample.platform Sample.publish_outcome
                Sample.AI_RESULT_CHANNEL Sample.update_publisher "n8n:wf1:node2"
                (Sample.update_parameters "jsonData" "chat1" "conv1" "user1"
                   (Sample.stringify (JArray [Sample.object_a 1; Sample.object_a 2])))
                Sample.world0))
      = [] ++ [(Sample.AI_RESULT_CHANNEL, message)]
      /\ Envelope.items_of message = Some items
      /\ (true = true -> JArray items = JArray [Sample.object_a 1; Sample.object_a 2])
      /\ (true = false -> items = [JArray [Sample.object_a 1; Sample.object_a 2]])).
Proof.
  refine (C7_json_items_wrapped_at_most_once
           Sample.platform Sample.publish_outcome Sample.AI_RESULT_CHANNEL
           (Sample.output_context
              [Sample.output_item "jsonData" "chat1" "conv1" "user1"
                 (Sample.stringify (Sample.object_a 1))])
           (Sample.output_item "jsonData" "chat1" "conv1" "user1"
              (Sample.stringify (Sample.object_a 1)))
           Sample.gravity_credentials Sample.update_publisher "n8n:wf1:node2"
           (Sample.update_parameters "jsonData" "chat1" "conv1" "user1"
              (Sample.stringify (JArray [Sample.object_a 1; Sample.object_a 2])))
           Sample.world0 (Sample.object_a 1) (JArray [Sample.object_a 1; Sample.object_a 2])
           eq_refl _ _ _ eq_refl eq_refl eq_refl eq_refl);
    simpl; discriminate.
Defined.

(** The identifier built by [newBaseEvent] is never empty: it contains the
    dash. *)
Lemma id_nonempty (a b : string) : (a ++ "-" ++ b)%string <> "".
Proof. destruct a; discriminate. Qed.

(** Whatever GravityOutput hands to the bus for an item is built on the
    base event of that item. *)
Lemma output_dispatch_calls (P : Platform)
    (publish_outcome : Envelope.Publisher -> string -> Envelope.Message -> option Thrown)
    (channel : string) (publisher : Envelope.Publisher) (baseEvent : Envelope.BaseEvent)
    (p : GravityOutput.Parameters) (w : Envelope.World) :
  exists calls,
    Envelope.publishCalls
      (snd (GravityOutput.dispatch P publish_outcome channel publisher baseEvent p w))
    = Envelope.publishCalls w ++ calls
    /\ Forall (fun call => Envelope.base (snd call) = baseEvent) calls.
Proof.
  unfold GravityOutput.dispatch.
  repeat match goal with
         | |- context [if String.eqb ?a ?b then _ else _] => destruct (String.eqb a b)
         end;
    unfold try_catch, bind, Envelope.sendMessageToUI, Envelope.publishEvent, throw;
    repeat match goal with
           | |- context [JSON_parse P ?t] => destruct (JSON_parse P t)
           | |- context [publish_outcome ?a ?b ?c] => destruct (publish_outcome a b c)
           | |- context [if GravityOutput.param_enableAudio ?q then _ else _] =>
               destruct (GravityOutput.param_enableAudio q)
           end;
    cbn [snd Envelope.publishCalls];
    first [ exists []; split; [now rewrite app_nil_r | constructor]
          | eexists [_]; split; [reflexivity | repeat constructor] ].
Qed.

(** The part of C2 that holds: every message GravityOutput hands to the bus
    for an item carries a non-empty id, chatId, conversationId and
    userId. *)
Lemma output_envelopes_carry_identifiers (P : Platform)
    (publish_outcome : Envelope.Publisher -> string -> Envelope.Message -> option Thrown)
    (channel : string)
    (this : GravityOutput.Context) (item : GravityOutput.InputItem) (w : Envelope.World) :
  exists calls,
    Envelope.publishCalls
      (snd (GravityOutput.process_item P publish_outcome channel this item w))
    = Envelope.publishCalls w ++ calls
    /\ Forall (fun call =>
                 let b := Envelope.base (snd call) in
                 Envelope.id b <> "" /\ Envelope.chatId b <> ""
                 /\ Envelope.conversationId b <> "" /\ Envelope.userId b <> "")
              calls.
Proof.
  assert (Hcatch : forall r w1,
             Envelope.publishCalls
               (snd (match r with
                     | Normal a => (Normal a, w1)
                     | Throw e => GravityOutput.item_catch item e w1
                     end)) = Envelope.publishCalls w1).
  { intros [a|e] w1; [reflexivity|]. now rewrite output_item_catch_run. }
  unfold GravityOutput.process_item, try_catch.
  destruct (GravityOutput.item_body P publish_outcome channel this item w)
    as [r w1] eqn:Hbody.
  rewrite Hcatch.
  assert (Hw1 : Envelope.publishCalls w1
                = Envelope.publishCalls (snd (GravityOutput.item_body P publish_outcome
                                                channel this item w)))
    by now rewrite Hbody.
  rewrite Hw1. clear Hbody Hw1 Hcatch r w1.
  destruct (GravityOutput.credentials this) as [e|cred] eqn:Hcred.
  { exists []. unfold GravityOutput.item_body, bind at 1. rewrite Hcred.
    split; [now rewrite app_nil_r | constructor]. }
  destruct (JS.truthy_string (GravityOutput.param_chatId (GravityOutput.parameters item)))
    eqn:Hchat;
  destruct (JS.truthy_string
              (GravityOutput.param_conversationId (GravityOutput.parameters item)))
    eqn:Hconv;
  destruct (JS.truthy_string (GravityOutput.param_userId (GravityOutput.parameters item)))
    eqn:Huser;
  try (exists []; unfold GravityOutput.item_body, bind at 1; rewrite Hcred;
       cbn [lift_sum ret]; rewrite Hchat, Hconv, Huser; cbn [negb orb throw snd];
       split; [now rewrite app_nil_r | constructor]).
  apply truthy_string_nonempty in Hchat, Hconv, Huser.
  rewrite (output_item_body_valid P publish_outcome channel this item cred w
             Hcred Hchat Hconv Huser).
  cbv zeta. unfold bind at 1. rewrite newBaseEvent_run. cbv beta iota.
  unfold bind at 1.
  match goal with
  | |- context [GravityOutput.dispatch P publish_outcome channel ?pub ?be ?p ?w1] =>
      destruct (output_dispatch_calls P publish_outcome channel pub be p w1)
        as [calls [Hcalls Hbase]];
      destruct (GravityOutput.dispatch P publish_outcome channel pub be p w1)
        as [[u|e] w2]
  end; cbn [snd Envelope.publishCalls] in *;
    exists calls; (split; [exact Hcalls|]);
    (eapply Forall_impl; [|exact Hbase]);
    intros call ->; cbv zeta;
    (split; [apply id_nonempty | split; [exact Hchat | split; [exact Hconv | exact Huser]]]).
Qed.

(** C2 fails on GravityUpdate, which builds the base event without
    checking the identifiers. For one progress-update item whose
    conversationId resolves to the empty string, [execute] returns normally
    and the one message it has handed to the bus carries the empty
    conversationId. *)
Theorem C2_update_publishes_empty_conversationId :
  let run := GravityUpdate.execute Sample.platform Sample.publish_outcome
               Sample.AI_RESULT_CHANNEL
               (Sample.update_context
                  [Sample.update_parameters "progressUpdate" "chat1" "" "user1" "{}"])
               Sample.world0 in
  fst run = Normal [[GravityUpdate.ProgressSent "1700000000002" "Working"]]
  /\ map (fun call => (Envelope.type (snd call),
                        Envelope.chatId (Envelope.base (snd call)),
                        Envelope.conversationId (Envelope.base (snd call)),
                        Envelope.userId (Envelope.base (snd call))))
         (Envelope.publishCalls (snd run))
     = [("progressUpdate", "chat1", "", "user1")].
Proof. cbv zeta. split; reflexivity. Qed.

(** ** Further properties of the streaming services *)

Section ServiceTraces.
Context {St : Type}.

(** The loops without a callback: the store is not touched. *)
Lemma openai_for_await_silent (s : AsyncStream OpenAIService.ChatCompletionChunk)
    (full : string) (n : nat) (st : St) :
  OpenAIService.for_await None s full n st
  = (loop_outcome s full n (nonempty_fragments (openai_fragments s)), st).
Proof.
  revert full n.
  induction s as [|c rest IH|e]; intros full n.
  - cbn. unfold ret, loop_outcome. cbn. now rewrite append_empty_r, Nat.add_0_r.
  - unfold openai_fragments, nonempty_fragments in *. cbn [OpenAIService.for_await].
    cbn [yielded map filter].
    destruct (JS.truthy_string (OpenAIService.chunk_content c)) eqn:E.
    + rewrite IH. now rewrite (loop_outcome_yield_keep c).
    + rewrite IH. reflexivity.
  - reflexivity.
Qed.

Lemma bedrock_for_await_silent (s : AsyncStream BedrockService.ConverseStreamOutput)
    (full : string) (n : nat) (st : St) :
  BedrockService.for_await None s full n st
  = (loop_outcome s full n (nonempty_fragments (bedrock_fragments s)), st).
Proof.
  revert full n.
  induction s as [|c rest IH|e]; intros full n.
  - cbn. unfold ret, loop_outcome. cbn. now rewrite append_empty_r, Nat.add_0_r.
  - unfold bedrock_fragments, nonempty_fragments in *. cbn [BedrockService.for_await].
    cbn [yielded map filter].
    destruct (JS.truthy_string (BedrockService.chunk_text_of c)) eqn:E.
    + rewrite IH. now rewrite (loop_outcome_yield_keep c).
    + rewrite IH. reflexivity.
  - reflexivity.
Qed.

(** The loops under a callback that never throws: what they resolve to is
    what they resolve to without a callback. *)
Lemma openai_for_await_value (callback : string -> nat -> Js St unit)
    (Hquiet : forall text index st, fst (callback text index st) = Normal tt)
    (s : AsyncStream OpenAIService.ChatCompletionChunk) (full : string) (n : nat) (st : St) :
  fst (OpenAIService.for_await (Some callback) s full n st)
  = loop_outcome s full n (nonempty_fragments (openai_fragments s)).
Proof.
  revert full n st.
  induction s as [|c rest IH|e]; intros full n st.
  - cbn. unfold loop_outcome. cbn. now rewrite append_empty_r, Nat.add_0_r.
  - unfold openai_fragments, nonempty_fragments in *. cbn [OpenAIService.for_await].
    cbn [yielded map filter].
    destruct (JS.truthy_string (OpenAIService.chunk_content c)) eqn:E.
    + unfold bind.
      pose proof (Hquiet (OpenAIService.chunk_content c) (S n - 1) st) as Hq.
      destruct (callback (OpenAIService.chunk_content c) (S n - 1) st) as [r st1].
      cbn [fst] in Hq. subst r.
      rewrite IH. now rewrite (loop_outcome_yield_keep c).
    + rewrite IH. reflexivity.
  - reflexivity.
Qed.

Lemma bedrock_for_await_value (callback : string -> nat -> Js St unit)
    (Hquiet : forall text index st, fst (callback text index st) = Normal tt)
    (s : AsyncStream BedrockService.ConverseStreamOutput) (full : string) (n : nat) (st : St) :
  fst (BedrockService.for_await (Some callback) s full n st)
  = loop_outcome s full n (nonempty_fragments (bedrock_fragments s)).
Proof.
  revert full n st.
  induction s as [|c rest IH|e]; intros full n st.
  - cbn. unfold loop_outcome. cbn. now rewrite append_empty_r, Nat.add_0_r.
  - unfold bedrock_fragments, nonempty_fragments in *. cbn [BedrockService.for_await].
    cbn [yielded map filter].
    destruct (JS.truthy_string (BedrockService.chunk_text_of c)) eqn:E.
    + unfold bind.
      pose proof (Hquiet (BedrockService.chunk_text_of c) (S n - 1) st) as Hq.
      destruct (callback (BedrockService.chunk_text_of c) (S n - 1) st) as [r st1].
      cbn [fst] in Hq. subst r.
      rewrite IH. now rewrite (loop_outcome_yield_keep c).
    + rewrite IH. reflexivity.
  - reflexivity.
Qed.

End ServiceTraces.

(** The loops under the recording callback. *)
Lemma indexed_from_cons (n : nat) (t : string) (texts : list string) :
  indexed_from n (t :: texts) = (t, n) :: indexed_from (S n) texts.
Proof. reflexivity. Qed.

Lemma openai_for_await_recorded (s : AsyncStream OpenAIService.ChatCompletionChunk)
    (full : string) (n : nat) (calls : list (string * nat)) :
  OpenAIService.for_await (Some record_call) s full n calls
  = (loop_outcome s full n (nonempty_fragments (openai_fragments s)),
     calls ++ indexed_from n (nonempty_fragments (openai_fragments s))).
Proof.
  revert full n calls.
  induction s as [|c rest IH|e]; intros full n calls.
  - cbn. unfold ret, loop_outcome. cbn. now rewrite append_empty_r, Nat.add_0_r, app_nil_r.
  - unfold openai_fragments, nonempty_fragments in *. cbn [OpenAIService.for_await].
    cbn [yielded map filter].
    destruct (JS.truthy_string (OpenAIService.chunk_content c)) eqn:E.
    + unfold bind at 1. unfold record_call at 1. cbn [Nat.sub]. rewrite Nat.sub_0_r.
      rewrite IH, (loop_outcome_yield_keep c), indexed_from_cons, <- app_assoc.
      reflexivity.
    + rewrite IH. reflexivity.
  - cbn. unfold throw, loop_outcome. cbn. now rewrite app_nil_r.
Qed.

Lemma bedrock_for_await_recorded (s : AsyncStream BedrockService.ConverseStreamOutput)
    (full : string) (n : nat) (calls : list (string * nat)) :
  BedrockService.for_await (Some record_call) s full n calls
  = (loop_outcome s full n (nonempty_fragments (bedrock_fragments s)),
     calls ++ indexed_from n (nonempty_fragments (bedrock_fragments s))).
Proof.
  revert full n calls.
  induction s as [|c rest IH|e]; intros full n calls.
  - cbn. unfold ret, loop_outcome. cbn. now rewrite append_empty_r, Nat.add_0_r, app_nil_r.
  - unfold bedrock_fragments, nonempty_fragments in *. cbn [BedrockService.for_await].
    cbn [yielded map filter].
    destruct (JS.truthy_string (BedrockService.chunk_text_of c)) eqn:E.
    + unfold bind at 1. unfold record_call at 1. cbn [Nat.sub]. rewrite Nat.sub_0_r.
      rewrite IH, (loop_outcome_yield_keep c), indexed_from_cons, <- app_assoc.
      reflexivity.
    + rewrite IH. reflexivity.
  - cbn. unfold throw, loop_outcome. cbn. now rewrite app_nil_r.
Qed.

(** What [sendOpenAIRequest] and [sendClaudeRequest] resolve to does not
    depend on the callback, as long as the callback does not throw; and
    without a callback they leave the store as it was. *)
Theorem send_value_independent_of_callback
    {St : Type}
    (create : OpenAIService.OpenAIConfig -> OpenAIService.ChatCompletionCreate ->
              JSError + AsyncStream OpenAIService.ChatCompletionChunk)
    (send : BedrockService.BedrockConfig -> BedrockService.CommandInput ->
            JSError + BedrockService.ConverseStreamResponse)
    (oconfig : OpenAIService.OpenAIConfig) (ooptions : OpenAIService.OpenAIRequestOptions)
    (bconfig : BedrockService.BedrockConfig) (boptions : BedrockService.ClaudeRequestOptions)
    (callback : string -> nat -> Js St unit) (st : St)
    (Hquiet : forall text index st, fst (callback text index st) = Normal tt) :
  (fst (OpenAIService.sendOpenAIRequest create oconfig ooptions (Some callback) st)
   = fst (OpenAIService.sendOpenAIRequest create oconfig ooptions None st)
   /\ snd (OpenAIService.sendOpenAIRequest create oconfig ooptions None st) = st)
  /\
  (fst (BedrockService.sendClaudeRequest send bconfig boptions (Some callback) st)
   = fst (BedrockService.sendClaudeRequest send bconfig boptions None st)
   /\ snd (BedrockService.sendClaudeRequest send bconfig boptions None st) = st).
Proof.
  split.
  - unfold OpenAIService.sendOpenAIRequest, bind.
    destruct (create oconfig (OpenAIService.create_request ooptions)) as [e|s];
      cbn [lift_sum throw ret]; [split; reflexivity|].
    rewrite openai_for_await_silent, (openai_for_await_value callback Hquiet).
    split; reflexivity.
  - unfold BedrockService.sendClaudeRequest, bind.
    destruct (send bconfig (BedrockService.commandInput boptions)) as [e|[[s|]]];
      cbn [lift_sum throw ret BedrockService.stream]; try (split; reflexivity).
    rewrite bedrock_for_await_silent, (bedrock_for_await_value callback Hquiet).
    split; reflexivity.
Qed.

Lemma send_value_independent_of_callback_witness :
  fst (OpenAIService.sendOpenAIRequest Sample.openai_create
         (GravityOpenAI.openAIConfig Sample.openai_context Sample.openai_credentials)
         (GravityOpenAI.requestOptions Sample.platform Sample.openai_context)
         (Some record_call) [])
  = Normal {| fullResponse := "Hello world"; chunkCount := 3 |}.
Proof.
  exact (proj1 (proj1 (send_value_independent_of_callback
           Sample.openai_create Sample.bedrock_send
           (GravityOpenAI.openAIConfig Sample.openai_context Sample.openai_credentials)
           (GravityOpenAI.requestOptions Sample.platform Sample.openai_context)
           (GravityClaude.bedrockConfig Sample.claude_context Sample.aws_credentials)
           (GravityClaude.requestOptions Sample.platform Sample.claude_context)
           record_call [] (fun _ _ _ => eq_refl)))).
Defined.

(** [sendOpenAIRequest] and [sendClaudeRequest], whatever the provider
    does. If the request itself rejects, the callback is never called and
    the rejection is thrown. Otherwise the callback is called once for each
    non-empty fragment delivered, in order, with the running index, also
    when the stream rejects later on: then the rejection is thrown after
    those calls, and the text gathered so far is lost. A Bedrock response
    without a stream counts as an empty one. *)
Theorem send_calls_callback_for_every_delivered_fragment
    (create : OpenAIService.OpenAIConfig -> OpenAIService.ChatCompletionCreate ->
              JSError + AsyncStream OpenAIService.ChatCompletionChunk)
    (send : BedrockService.BedrockConfig -> BedrockService.CommandInput ->
            JSError + BedrockService.ConverseStreamResponse)
    (oconfig : OpenAIService.OpenAIConfig) (ooptions : OpenAIService.OpenAIRequestOptions)
    (bconfig : BedrockService.BedrockConfig) (boptions : BedrockService.ClaudeRequestOptions)
    (calls : list (string * nat)) :
  OpenAIService.sendOpenAIRequest create oconfig ooptions (Some record_call) calls
  = match create oconfig (OpenAIService.create_request ooptions) with
    | inl e => (Throw e, calls)
    | inr s =>
        let texts := nonempty_fragments (openai_fragments s) in
        (match rejection s with
         | Some e => Throw e
         | None => Normal {| fullResponse := String.concat "" texts;
                             chunkCount := List.length texts |}
         end,
         calls ++ indexed_from 0 texts)
    end
  /\
  BedrockService.sendClaudeRequest send bconfig boptions (Some record_call) calls
  = match send bconfig (BedrockService.commandInput boptions) with
    | inl e => (Throw e, calls)
    | inr {| BedrockService.stream := None |} =>
        (Normal {| fullResponse := ""; chunkCount := 0 |}, calls)
    | inr {| BedrockService.stream := Some s |} =>
        let texts := nonempty_fragments (bedrock_fragments s) in
        (match rejection s with
         | Some e => Throw e
         | None => Normal {| fullResponse := String.concat "" texts;
                             chunkCount := List.length texts |}
         end,
         calls ++ indexed_from 0 texts)
    end.
Proof.
  split.
  - unfold OpenAIService.sendOpenAIRequest, bind.
    destruct (create oconfig (OpenAIService.create_request ooptions)) as [e|s];
      cbn [lift_sum throw ret]; [reflexivity|].
    rewrite openai_for_await_recorded. reflexivity.
  - unfold BedrockService.sendClaudeRequest, bind.
    destruct (send bconfig (BedrockService.commandInput boptions)) as [e|[[s|]]];
      cbn [lift_sum throw ret BedrockService.stream]; try reflexivity.
    rewrite bedrock_for_await_recorded. reflexivity.
Qed.

(** ** Further properties of the streaming nodes *)

Section ClaudeRefusals.
Variable P : Platform.
Variable send : BedrockService.BedrockConfig -> BedrockService.CommandInput ->
                JSError + BedrockService.ConverseStreamResponse.
Variable this : GravityClaude.Context.

Lemma claude_execute_no_credentials (st : Store) (e : JSError) :
  GravityClaude.credentials this = inl e ->
  GravityClaude.execute P send this st
  = (Normal [[error_item P e (ticks st)]; [error_item P e (ticks st)];
             [error_item P e (ticks st)]],
     {| ticks := S (ticks st); streamOutput := streamOutput st |}).
Proof.
  intros Hcred.
  unfold GravityClaude.execute, try_catch, GravityClaude.execute_body.
  unfold bind at 1. rewrite Hcred. reflexivity.
Qed.

Lemma claude_execute_request_rejected (st : Store)
    (cred : GravityClaude.AwsCredentials) (e : JSError) :
  GravityClaude.credentials this = inr cred ->
  send (GravityClaude.bedrockConfig this cred)
       (BedrockService.commandInput (GravityClaude.requestOptions P this)) = inl e ->
  GravityClaude.execute P send this st
  = (Normal [[error_item P e (ticks st)]; [error_item P e (ticks st)];
             [error_item P e (ticks st)]],
     {| ticks := S (ticks st); streamOutput := [] |}).
Proof.
  intros Hcred Hsend.
  unfold GravityClaude.execute, try_catch, GravityClaude.execute_body.
  unfold bind at 1. rewrite Hcred. simpl.
  unfold bind at 1. unfold new_streamOutput at 1.
  unfold bind at 1. unfold BedrockService.sendClaudeRequest. unfold bind at 1.
  rewrite Hsend. reflexivity.
Qed.

Lemma claude_execute_no_stream (st : Store) (cred : GravityClaude.AwsCredentials) :
  GravityClaude.credentials this = inr cred ->
  send (GravityClaude.bedrockConfig this cred)
       (BedrockService.commandInput (GravityClaude.requestOptions P this))
  = inr {| BedrockService.stream := None |} ->
  GravityClaude.execute P send this st
  = (Normal [ [completion_item P (GravityClaude.param_model this) ChatState.COMPLETE
                 0 (ticks st)];
              [FinalItem (claude_final P this [] (S (ticks st)))];
              [claude_mcp P this [] (S (S (ticks st)))] ],
     {| ticks := S (S (S (ticks st)));
        streamOutput := [completion_item P (GravityClaude.param_model this)
                           ChatState.COMPLETE 0 (ticks st)] |}).
Proof.
  intros Hcred Hsend.
  unfold GravityClaude.execute, try_catch, GravityClaude.execute_body.
  unfold bind at 1. rewrite Hcred. simpl.
  unfold bind at 1. unfold new_streamOutput at 1.
  unfold bind at 1. unfold BedrockService.sendClaudeRequest. unfold bind at 1.
  rewrite Hsend. reflexivity.
Qed.

End ClaudeRefusals.

(** [GravityOpenAI.execute] never throws, whatever the credentials store
    and the provider do. It returns two outputs, which are either those of
    a complete run (fragment records, one completion record whose index is
    their number, and a final response with that count) or one and the
    same error record on both. *)
Theorem openai_execute_never_throws
    (P : Platform)
    (create : OpenAIService.OpenAIConfig -> OpenAIService.ChatCompletionCreate ->
              JSError + AsyncStream OpenAIService.ChatCompletionChunk)
    (this : GravityOpenAI.Context) (st : Store) :
  exists outputs st',
    GravityOpenAI.execute P create this st = (Normal outputs, st')
    /\ List.length outputs = 2
    /\ (complete_run outputs \/ failed_run outputs).
Proof.
  destruct (GravityOpenAI.credentials this) as [e|cred] eqn:Hcred.
  { rewrite (openai_execute_no_credentials P create this st e Hcred).
    eexists _, _. split; [reflexivity|]. split; [reflexivity|]. right.
    eexists. split; [|repeat constructor]. reflexivity. }
  destruct (create (GravityOpenAI.openAIConfig this cred)
              (OpenAIService.create_request (GravityOpenAI.requestOptions P this)))
    as [e|s] eqn:Hcreate.
  { rewrite (openai_execute_request_rejected P create this st cred e Hcred Hcreate).
    eexists _, _. split; [reflexivity|]. split; [reflexivity|]. right.
    eexists. split; [|repeat constructor]. reflexivity. }
  destruct (rejection s) as [e|] eqn:Hend.
  - rewrite (openai_execute_rejected P create this cred s Hcred Hcreate st e Hend).
    eexists _, _. split; [reflexivity|]. split; [reflexivity|]. right.
    eexists. split; [|repeat constructor]. reflexivity.
  - rewrite (openai_execute_exhausted P create this cred s Hcred Hcreate st Hend).
    eexists _, _. split; [reflexivity|]. split; [reflexivity|]. left.
    eexists _, _, _, _. split; [reflexivity|].
    cbn. rewrite chunk_items_length. repeat split.
Qed.

(** [GravityClaude.execute] never throws either. It returns three outputs:
    those of a complete run followed by the MCP record, or one and the same
    error record on all three. *)
Theorem claude_execute_never_throws
    (P : Platform)
    (send : BedrockService.BedrockConfig -> BedrockService.CommandInput ->
            JSError + BedrockService.ConverseStreamResponse)
    (this : GravityClaude.Context) (st : Store) :
  exists outputs st',
    GravityClaude.execute P send this st = (Normal outputs, st')
    /\ List.length outputs = 3
    /\ (complete_run outputs \/ failed_run outputs).
Proof.
  destruct (GravityClaude.credentials this) as [e|cred] eqn:Hcred.
  { rewrite (claude_execute_no_credentials P send this st e Hcred).
    eexists _, _. split; [reflexivity|]. split; [reflexivity|]. right.
    eexists. split; [|repeat constructor]. reflexivity. }
  destruct (send (GravityClaude.bedrockConfig this cred)
              (BedrockService.commandInput (GravityClaude.requestOptions P this)))
    as [e|[[s|]]] eqn:Hsend.
  { rewrite (claude_execute_request_rejected P send this st cred e Hcred Hsend).
    eexists _, _. split; [reflexivity|]. split; [reflexivity|]. right.
    eexists. split; [|repeat constructor]. reflexivity. }
  - destruct (rejection s) as [e|] eqn:Hend.
    + rewrite (claude_execute_rejected P send this cred s Hcred Hsend st e Hend).
      eexists _, _. split; [reflexivity|]. split; [reflexivity|]. right.
      eexists. split; [|repeat constructor]. reflexivity.
    + rewrite (claude_execute_exhausted P send this cred s Hcred Hsend st Hend).
      eexists _, _. split; [reflexivity|]. split; [reflexivity|]. left.
      eexists _, _, _, _. split; [reflexivity|].
      cbn. rewrite chunk_items_length. repeat split.
  - rewrite (claude_execute_no_stream P send this st cred Hcred Hsend).
    eexists _, _. split; [reflexivity|]. split; [reflexivity|]. left.
    eexists [], _, _, _. split; [reflexivity|]. repeat split.
Qed.

Lemma chunk_items_text P model state texts index tick :
  map item_text (chunk_items P model state texts index tick) = texts.
Proof.
  revert index tick; induction texts as [|t texts IH]; intros; cbn; [reflexivity|].
  now rewrite IH.
Qed.

(** Whenever GravityOpenAI returns a final response, its two outputs
    agree: the response is the concatenation of the texts of the Stream
    records before the completion record, the Stream output has one record
    more than the chunk count, [totalCharacters] is the length of the
    response and [updatedMessages] is the conversation sent plus one
    assistant message holding the response. *)
Theorem openai_stream_and_result_agree
    (P : Platform)
    (create : OpenAIService.OpenAIConfig -> OpenAIService.ChatCompletionCreate ->
              JSError + AsyncStream OpenAIService.ChatCompletionChunk)
    (this : GravityOpenAI.Context) (st st' : Store)
    (streamed : list NodeItem) (final : FinalResponse)
    (Hrun : GravityOpenAI.execute P create this st
            = (Normal [streamed; [FinalItem final]], st')) :
  response final = String.concat "" (map item_text (removelast streamed))
  /\ List.length streamed = S (final_chunkCount final)
  /\ totalCharacters (final_metadata final) = String.length (response final)
  /\ updatedMessages final
     = final_messages final ++ [OpenAIService.message "assistant" (response final)].
Proof.
  revert Hrun.
  destruct (GravityOpenAI.credentials this) as [e|cred] eqn:Hcred.
  { rewrite (openai_execute_no_credentials P create this st e Hcred).
    intros H; discriminate H. }
  destruct (create (GravityOpenAI.openAIConfig this cred)
              (OpenAIService.create_request (GravityOpenAI.requestOptions P this)))
    as [e|s] eqn:Hcreate.
  { rewrite (openai_execute_request_rejected P create this st cred e Hcred Hcreate).
    intros H; discriminate H. }
  destruct (rejection s) as [e|] eqn:Hend.
  { rewrite (openai_execute_rejected P create this cred s Hcred Hcreate st e Hend).
    intros H; discriminate H. }
  rewrite (openai_execute_exhausted P create this cred s Hcred Hcreate st Hend).
  intros H. injection H as <- <- _.
  rewrite removelast_last, chunk_items_text, length_app, chunk_items_length.
  cbn. repeat split. lia.
Qed.

Lemma openai_stream_and_result_agree_witness :
  exists streamed final,
    fst (GravityOpenAI.execute Sample.platform Sample.openai_create
           Sample.openai_context Sample.store0)
    = Normal [streamed; [FinalItem final]]
    /\ response final = "Hello world"
    /\ List.length streamed = 4
    /\ totalCharacters (final_metadata final) = 11.
Proof.
  eexists _, _. split; [reflexivity|].
  pose proof (openai_stream_and_result_agree
                Sample.platform Sample.openai_create Sample.openai_context
                Sample.store0 _ _ _ eq_refl) as [H1 [H2 [H3 _]]].
  split; [exact H1|]. split; [exact H2 | exact H3].
Defined.

(** The same for GravityClaude, whose MCP record moreover carries the same
    response; a Bedrock response without a stream included. *)
Theorem claude_stream_and_result_agree
    (P : Platform)
    (send : BedrockService.BedrockConfig -> BedrockService.CommandInput ->
            JSError + BedrockService.ConverseStreamResponse)
    (this : GravityClaude.Context) (st st' : Store)
    (streamed : list NodeItem) (final : FinalResponse) (mcp : McpOutput)
    (Hrun : GravityClaude.execute P send this st
            = (Normal [streamed; [FinalItem final]; [McpItem mcp]], st')) :
  response final = String.concat "" (map item_text (removelast streamed))
  /\ List.length streamed = S (final_chunkCount final)
  /\ totalCharacters (final_metadata final) = String.length (response final)
  /\ updatedMessages final
     = final_messages final ++ [BedrockService.text_message "assistant" (response final)]
  /\ mcp_content mcp = response final.
Proof.
  revert Hrun.
  destruct (GravityClaude.credentials this) as [e|cred] eqn:Hcred.
  { rewrite (claude_execute_no_credentials P send this st e Hcred).
    intros H; discriminate H. }
  destruct (send (GravityClaude.bedrockConfig this cred)
              (BedrockService.commandInput (GravityClaude.requestOptions P this)))
    as [e|[[s|]]] eqn:Hsend.
  { rewrite (claude_execute_request_rejected P send this st cred e Hcred Hsend).
    intros H; discriminate H. }
  - destruct (rejection s) as [e|] eqn:Hend.
    { rewrite (claude_execute_rejected P send this cred s Hcred Hsend st e Hend).
      intros H; discriminate H. }
    rewrite (claude_execute_exhausted P send this cred s Hcred Hsend st Hend).
    intros H. injection H as <- <- <- _.
    rewrite removelast_last, chunk_items_text, length_app, chunk_items_length.
    cbn. repeat split. lia.
  - rewrite (claude_execute_no_stream P send this st cred Hcred Hsend).
    intros H. injection H as <- <- <- _.
    cbn. repeat split.
Qed.

Lemma claude_stream_and_result_agree_witness :
  exists streamed final mcp,
    fst (GravityClaude.execute Sample.platform Sample.bedrock_send
           Sample.claude_context Sample.store0)
    = Normal [streamed; [FinalItem final]; [McpItem mcp]]
    /\ response final = "Hello world"
    /\ List.length streamed = 4
    /\ mcp_content mcp = "Hello world".
Proof.
  eexists _, _, _. split; [reflexivity|].
  pose proof (claude_stream_and_result_agree
                Sample.platform Sample.bedrock_send Sample.claude_context
                Sample.store0 _ _ _ _ eq_refl) as [H1 [H2 [_ [_ H5]]]].
  split; [exact H1|]. split; [exact H2 | exact H5].
Defined.

(** When Bedrock resolves without a stream, GravityClaude reports an empty
    answer as a complete run: the Stream output is the completion record
    alone, with index 0, and the response is the empty text. *)
Theorem claude_without_stream_completes_empty
    (P : Platform)
    (send : BedrockService.BedrockConfig -> BedrockService.CommandInput ->
            JSError + BedrockService.ConverseStreamResponse)
    (this : GravityClaude.Context) (cred : GravityClaude.AwsCredentials) (st : Store)
    (Hcred : GravityClaude.credentials this = inr cred)
    (Hsend : send (GravityClaude.bedrockConfig this cred)
               (BedrockService.commandInput (GravityClaude.requestOptions P this))
             = inr {| BedrockService.stream := None |}) :
  exists final mcp,
    fst (GravityClaude.execute P send this st)
    = Normal [ [completion_item P (GravityClaude.param_model this) ChatState.COMPLETE
                  0 (ticks st)];
               [FinalItem final]; [McpItem mcp] ]
    /\ response final = ""
    /\ final_chunkCount final = 0
    /\ mcp_content mcp = "".
Proof.
  rewrite (claude_execute_no_stream P send this st cred Hcred Hsend).
  eexists _, _. split; [reflexivity|]. repeat split.
Qed.

Lemma claude_without_stream_completes_empty_witness :
  option_map (map chunk_view)
    (stream_output (GravityClaude.execute Sample.platform Sample2.bedrock_send_no_stream
                      Sample.claude_context Sample.store0))
  = Some [Some (" ", 0)].
Proof.
  destruct (claude_without_stream_completes_empty
              Sample.platform Sample2.bedrock_send_no_stream Sample.claude_context
              Sample.aws_credentials Sample.store0 eq_refl eq_refl)
    as [final [mcp [H _]]].
  unfold stream_output. rewrite H. reflexivity.
Defined.

(** [processUserMessage] on a string, in both services. The parsed value is
    sent as it is only when the text parses to an object whose [role] and
    [content] are both truthy. In every other case (the text does not
    parse; it parses to null, whose member access throws inside the [try];
    to a scalar or an array; to an object without a truthy [role] or
    [content]) the text is sent as one plain user message. *)
Theorem processUserMessage_on_string (P : Platform) (text : string) :
  let verbatim :=
    match JSON_parse P text with
    | Some (JObject members) =>
        if JS.truthy_opt (JS.lookup "role" members)
           && JS.truthy_opt (JS.lookup "content" members)
        then Some (JObject members) else None
    | _ => None
    end in
  OpenAIService.processUserMessage P (JString text)
  = [match verbatim with
     | Some parsed => parsed
     | None => JObject [("role", JString "user"); ("content", JString text)]
     end]
  /\
  BedrockService.processUserMessage P (JString text)
  = [match verbatim with
     | Some parsed => parsed
     | None => JObject [("role", JString "user");
                        ("content", JArray [JObject [("text", JString text)]])]
     end].
Proof.
  cbv zeta. unfold OpenAIService.processUserMessage, BedrockService.processUserMessage.
  destruct (JSON_parse P text) as [[| b | q | s | l | members]|]; try (split; reflexivity).
  unfold OpenAIService.has_role_and_content, BedrockService.has_role_and_content.
  cbn [JS.get_member].
  destruct (JS.truthy_opt (JS.lookup "role" members));
    destruct (JS.truthy_opt (JS.lookup "content" members)); split; reflexivity.
Qed.

Lemma tool_of_input_spec (input : JSON) (tool : BedrockService.McpTool) :
  BedrockService.tool_of_input input = Some tool
  <-> exists members toolMembers,
        input = JObject members
        /\ JS.lookup "tool" members = Some (JObject toolMembers)
        /\ JS.lookup "name" toolMembers = Some (BedrockService.name tool)
        /\ JS.lookup "description" toolMembers = Some (BedrockService.description tool)
        /\ JS.lookup "inputSchema" toolMembers = Some (BedrockService.inputSchema tool).
Proof.
  split.
  - unfold BedrockService.tool_of_input.
    destruct input as [| | | | |members]; try discriminate.
    destruct (JS.lookup "tool" members) as [[| | | | |toolMembers]|] eqn:Htool;
      try discriminate.
    unfold JS.has_member.
    destruct (JS.lookup "name" toolMembers) as [n|] eqn:Hn; [|discriminate].
    destruct (JS.lookup "description" toolMembers) as [d|] eqn:Hd; [|discriminate].
    destruct (JS.lookup "inputSchema" toolMembers) as [i|] eqn:Hi; [|discriminate].
    cbn. intros H; injection H as <-. exists members, toolMembers. cbn.
    repeat split; assumption.
  - intros [members [toolMembers [-> [Htool [Hn [Hd Hi]]]]]].
    unfold BedrockService.tool_of_input, JS.has_member.
    rewrite Htool, Hn, Hd, Hi. cbn. now destruct tool.
Qed.

(** [extractMcpTools] keeps exactly the tools of the well-formed inputs: a
    tool is extracted if and only if some input is an object whose [tool]
    member is an object with the members [name], [description] and
    [inputSchema], which the tool then holds. Any other input is skipped
    without an error, so the result is never longer than the input. *)
Theorem extractMcpTools_keeps_well_formed_tools
    (toolInputs : list JSON) (tool : BedrockService.McpTool) :
  (In tool (BedrockService.extractMcpTools toolInputs)
   <-> exists members toolMembers,
         In (JObject members) toolInputs
         /\ JS.lookup "tool" members = Some (JObject toolMembers)
         /\ JS.lookup "name" toolMembers = Some (BedrockService.name tool)
         /\ JS.lookup "description" toolMembers = Some (BedrockService.description tool)
         /\ JS.lookup "inputSchema" toolMembers = Some (BedrockService.inputSchema tool))
  /\ List.length (BedrockService.extractMcpTools toolInputs) <= List.length toolInputs.
Proof.
  split.
  - induction toolInputs as [|input rest IH]; cbn [BedrockService.extractMcpTools].
    + split; [intros [] | intros [m [t [[] _]]]].
    + split.
      * destruct (BedrockService.tool_of_input input) as [found|] eqn:Hfound.
        -- intros [<- | Hin].
           ++ apply tool_of_input_spec in Hfound.
              destruct Hfound as [m [t [-> H]]]. exists m, t. split; [now left | exact H].
           ++ apply IH in Hin. destruct Hin as [m [t [Hin H]]].
              exists m, t. split; [now right | exact H].
        -- intros Hin. apply IH in Hin. destruct Hin as [m [t [Hin H]]].
           exists m, t. split; [now right | exact H].
      * intros [m [t [[-> | Hin] H]]].
        -- assert (Hfound : BedrockService.tool_of_input (JObject m) = Some tool)
             by (apply tool_of_input_spec; exists m, t; split; [reflexivity | exact H]).
           rewrite Hfound. now left.
        -- assert (Hrest : In tool (BedrockService.extractMcpTools rest))
             by (apply IH; exists m, t; split; assumption).
           destruct (BedrockService.tool_of_input input); [now right | exact Hrest].
  - induction toolInputs as [|input rest IH]; cbn [BedrockService.extractMcpTools List.length].
    + lia.
    + destruct (BedrockService.tool_of_input input); cbn [List.length]; lia.
Qed.

(** Without a well-formed tool input, GravityClaude sends no tool
    configuration: the command sent to Bedrock, and so the whole run, do
    not depend on Enable Any Tool and Tool Choice. *)
Theorem claude_tool_options_need_a_tool
    (P : Platform)
    (send : BedrockService.BedrockConfig -> BedrockService.CommandInput ->
            JSError + BedrockService.ConverseStreamResponse)
    (this : GravityClaude.Context)
    (any1 any2 : bool) (choice1 choice2 : string) (st : Store)
    (Hnone : BedrockService.extractMcpTools (GravityClaude.toolInputs this) = []) :
  BedrockService.toolConfig
    (BedrockService.commandInput
       (GravityClaude.requestOptions P (claude_with_tool_options this any1 choice1)))
  = None
  /\
  GravityClaude.execute P send (claude_with_tool_options this any1 choice1) st
  = GravityClaude.execute P send (claude_with_tool_options this any2 choice2) st.
Proof.
  assert (Hinput : forall any choice,
             BedrockService.commandInput
               (GravityClaude.requestOptions P (claude_with_tool_options this any choice))
             = BedrockService.commandInput
                 (GravityClaude.requestOptions P (claude_with_tool_options this false ""))).
  { intros any choice.
    unfold BedrockService.commandInput, BedrockService.build_toolConfig,
      GravityClaude.requestOptions.
    change (GravityClaude.toolInputs (claude_with_tool_options this any choice))
      with (GravityClaude.toolInputs this).
    change (GravityClaude.toolInputs (claude_with_tool_options this false ""))
      with (GravityClaude.toolInputs this).
    rewrite Hnone. reflexivity. }
  split.
  - unfold BedrockService.commandInput, BedrockService.build_toolConfig,
      GravityClaude.requestOptions.
    change (GravityClaude.toolInputs (claude_with_tool_options this any1 choice1))
      with (GravityClaude.toolInputs this).
    rewrite Hnone. reflexivity.
  - unfold GravityClaude.execute, GravityClaude.execute_body,
      BedrockService.sendClaudeRequest.
    rewrite (Hinput any1 choice1), (Hinput any2 choice2). reflexivity.
Qed.

Lemma claude_tool_options_need_a_tool_witness :
  GravityClaude.execute Sample.platform Sample.bedrock_send
    (claude_with_tool_options Sample.claude_context true "search") Sample.store0
  = GravityClaude.execute Sample.platform Sample.bedrock_send
      (claude_with_tool_options Sample.claude_context false "") Sample.store0.
Proof.
  exact (proj2 (claude_tool_options_need_a_tool
                  Sample.platform Sample.bedrock_send Sample.claude_context
                  true false "search" "" Sample.store0 eq_refl)).
Defined.

(** ** Further properties of GravityOutput *)

Ltac settle_dispatch E :=
  cbn [fst snd Envelope.publishCalls];
  first
    [ exists []; split; [now rewrite app_nil_r|];
      split; [cbn; lia|]; split; [constructor|];
      intros Hnormal; discriminate Hnormal
    | eexists [_]; split; [reflexivity|];
      split; [cbn; lia|];
      split; [constructor; [|constructor]; unfold call_for; rewrite E;
              repeat split|];
      first [ intros Hnormal; discriminate Hnormal
            | intros _; eexists; split; [reflexivity | eassumption] ] ].

(** What the [switch] of GravityOutput hands to the bus: at most one
    message, on the result channel, built on the base event and of the
    requested type; exactly one, accepted by the bus, when the [switch]
    completes. *)
Lemma output_dispatch_shape (P : Platform)
    (publish_outcome : Envelope.Publisher -> string -> Envelope.Message -> option Thrown)
    (channel : string) (publisher : Envelope.Publisher) (baseEvent : Envelope.BaseEvent)
    (p : GravityOutput.Parameters) (w : Envelope.World) :
  exists calls,
    Envelope.publishCalls
      (snd (GravityOutput.dispatch P publish_outcome channel publisher baseEvent p w))
    = Envelope.publishCalls w ++ calls
    /\ List.length calls <= 1
    /\ Forall (call_for channel baseEvent (GravityOutput.param_outputType p)) calls
    /\ (fst (GravityOutput.dispatch P publish_outcome channel publisher baseEvent p w)
        = Normal tt ->
        exists message,
          calls = [(channel, message)]
          /\ publish_outcome publisher channel message = None).
Proof.
  unfold GravityOutput.dispatch.
  destruct (String.eqb_spec (GravityOutput.param_outputType p) MessageType.TEXT) as [E|_].
  { unfold bind, Envelope.sendMessageToUI, Envelope.publishEvent.
    destruct (GravityOutput.param_enableAudio p);
      match goal with
      | |- context [publish_outcome ?a ?b ?c] =>
          destruct (publish_outcome a b c) eqn:Hpo
      end; settle_dispatch E. }
  destruct (String.eqb_spec (GravityOutput.param_outputType p) MessageType.JSON_DATA)
    as [E|_].
  { unfold try_catch, bind, Envelope.sendMessageToUI, Envelope.publishEvent, throw.
    destruct (JSON_parse P _); [|settle_dispatch E].
    match goal with
    | |- context [publish_outcome ?a ?b ?c] => destruct (publish_outcome a b c) eqn:Hpo
    end; settle_dispatch E. }
  destruct (String.eqb_spec (GravityOutput.param_outputType p) MessageType.IMAGE_RESPONSE)
    as [E|_].
  { unfold bind, Envelope.sendMessageToUI, Envelope.publishEvent.
    match goal with
    | |- context [publish_outcome ?a ?b ?c] => destruct (publish_outcome a b c) eqn:Hpo
    end; settle_dispatch E. }
  destruct (String.eqb_spec (GravityOutput.param_outputType p) MessageType.TOOL_OUTPUT)
    as [E|_].
  { unfold try_catch, bind, Envelope.sendMessageToUI, Envelope.publishEvent, throw.
    destruct (JSON_parse P _); [|settle_dispatch E].
    match goal with
    | |- context [publish_outcome ?a ?b ?c] => destruct (publish_outcome a b c) eqn:Hpo
    end; settle_dispatch E. }
  destruct (String.eqb_spec (GravityOutput.param_outputType p)
              MessageType.ACTION_SUGGESTION) as [E|_].
  { unfold try_catch, bind, Envelope.sendMessageToUI, Envelope.publishEvent, throw.
    destruct (JSON_parse P _); [|settle_dispatch E].
    match goal with
    | |- context [publish_outcome ?a ?b ?c] => destruct (publish_outcome a b c) eqn:Hpo
    end; settle_dispatch E. }
  unfold throw. settle_dispatch (@eq_refl nat 0).
Qed.

(** What the [try] block of GravityOutput does for one item. *)
Lemma output_item_body_shape (P : Platform)
    (publish_outcome : Envelope.Publisher -> string -> Envelope.Message -> option Thrown)
    (channel : string)
    (this : GravityOutput.Context) (item : GravityOutput.InputItem) (w : Envelope.World) :
  exists calls,
    Envelope.publishCalls
      (snd (GravityOutput.item_body P publish_outcome channel this item w))
    = Envelope.publishCalls w ++ calls
    /\ List.length calls <= 1
    /\ Forall (fun call =>
                 fst call = channel
                 /\ Envelope.type (snd call)
                    = GravityOutput.param_outputType (GravityOutput.parameters item))
              calls
    /\ (forall r,
           fst (GravityOutput.item_body P publish_outcome channel this item w) = Normal r ->
           exists publisher message timestamp,
             calls = [(channel, message)]
             /\ publish_outcome publisher channel message = None
             /\ r = GravityOutput.Sent (GravityOutput.json item)
                      (GravityOutput.param_outputType (GravityOutput.parameters item))
                      (Envelope.state (Envelope.base message)) timestamp
                      (Envelope.conversationId (Envelope.base message))
                      (Envelope.chatId (Envelope.base message))
                      (Envelope.userId (Envelope.base message))).
Proof.
  destruct (GravityOutput.credentials this) as [e|cred] eqn:Hcred.
  { exists []. unfold GravityOutput.item_body, bind at 1. rewrite Hcred.
    cbn [lift_sum throw fst snd].
    split; [now rewrite app_nil_r|]. split; [cbn; lia|]. split; [constructor|].
    intros r H; discriminate H. }
  destruct (JS.truthy_string (GravityOutput.param_chatId (GravityOutput.parameters item)))
    eqn:Hchat;
  destruct (JS.truthy_string
              (GravityOutput.param_conversationId (GravityOutput.parameters item)))
    eqn:Hconv;
  destruct (JS.truthy_string (GravityOutput.param_userId (GravityOutput.parameters item)))
    eqn:Huser;
  try (exists []; unfold GravityOutput.item_body, bind at 1; rewrite Hcred;
       cbn [lift_sum ret]; rewrite Hchat, Hconv, Huser; cbn [negb orb throw fst snd];
       split; [now rewrite app_nil_r|]; split; [cbn; lia|]; split; [constructor|];
       intros r H; discriminate H).
  apply truthy_string_nonempty in Hchat, Hconv, Huser.
  rewrite (output_item_body_valid P publish_outcome channel this item cred w
             Hcred Hchat Hconv Huser).
  cbv zeta. unfold bind. rewrite !newBaseEvent_run. cbv beta iota.
  match goal with
  | |- context [GravityOutput.dispatch P publish_outcome channel ?pub ?be ?p ?w1] =>
      destruct (output_dispatch_shape P publish_outcome channel pub be p w1)
        as [calls [Hcalls [Hlen [Hall Hone]]]];
      destruct (GravityOutput.dispatch P publish_outcome channel pub be p w1)
        as [[[]|e] w2]
  end; cbn [fst snd Envelope.publishCalls] in *; exists calls;
    (split; [exact Hcalls|]); (split; [exact Hlen|]);
    (split; [eapply Forall_impl; [|exact Hall]; intros call [H1 [_ H3]]; now split|]).
  - intros r Hr. destruct (Hone eq_refl) as [message [-> Hpo]].
    inversion Hall as [|call rest [_ [Hbase _]] _]; subst.
    cbn [snd] in Hbase.
    eexists _, message, _. split; [reflexivity|]. split; [exact Hpo|].
    unfold Envelope.nowISO, bind, Envelope.DateNow, ret in Hr. cbn [fst] in Hr.
    injection Hr as <-. rewrite Hbase. reflexivity.
  - intros r Hr; discriminate Hr.
Qed.

(** The same for the whole loop body, [catch] block included. *)
Lemma output_process_item_shape (P : Platform)
    (publish_outcome : Envelope.Publisher -> string -> Envelope.Message -> option Thrown)
    (channel : string)
    (this : GravityOutput.Context) (item : GravityOutput.InputItem) (w : Envelope.World) :
  exists calls,
    Envelope.publishCalls
      (snd (GravityOutput.process_item P publish_outcome channel this item w))
    = Envelope.publishCalls w ++ calls
    /\ List.length calls <= 1
    /\ Forall (fun call =>
                 fst call = channel
                 /\ Envelope.type (snd call)
                    = GravityOutput.param_outputType (GravityOutput.parameters item))
              calls
    /\ (forall inherited outputType state timestamp conversationId chatId userId,
           fst (GravityOutput.process_item P publish_outcome channel this item w)
           = Normal (GravityOutput.Sent inherited outputType state timestamp
                       conversationId chatId userId) ->
           exists publisher message,
             calls = [(channel, message)]
             /\ publish_outcome publisher channel message = None
             /\ Envelope.state (Envelope.base message) = state
             /\ Envelope.conversationId (Envelope.base message) = conversationId
             /\ Envelope.chatId (Envelope.base message) = chatId
             /\ Envelope.userId (Envelope.base message) = userId).
Proof.
  destruct (output_item_body_shape P publish_outcome channel this item w)
    as [calls [Hcalls [Hlen [Hall Hsent]]]].
  exists calls. unfold GravityOutput.process_item, try_catch.
  destruct (GravityOutput.item_body P publish_outcome channel this item w)
    as [[r|e] w1]; cbn [fst snd] in *.
  - split; [exact Hcalls|]. split; [exact Hlen|]. split; [exact Hall|].
    intros inherited outputType state timestamp conversationId chatId userId Hr.
    injection Hr as ->.
    destruct (Hsent _ eq_refl) as [publisher [message [ts [-> [Hpo Heq]]]]].
    injection Heq as _ _ -> _ -> -> ->.
    exists publisher, message. repeat split; assumption || reflexivity.
  - rewrite output_item_catch_run. cbn [fst snd].
    split; [exact Hcalls|]. split; [exact Hlen|]. split; [exact Hall|].
    intros inherited outputType state timestamp conversationId chatId userId H.
    destruct (output_continues item); [|discriminate H].
    destruct (JS.message_of e); discriminate H.
Qed.

(** What the [switch] of GravityOutput can throw: an [Error], or the very
    reason for which the bus rejected the message. *)
Lemma output_dispatch_throws (P : Platform)
    (publish_outcome : Envelope.Publisher -> string -> Envelope.Message -> option Thrown)
    (channel : string) (publisher : Envelope.Publisher) (baseEvent : Envelope.BaseEvent)
    (p : GravityOutput.Parameters) (w : Envelope.World) (thrown : Thrown) :
  fst (GravityOutput.dispatch P publish_outcome channel publisher baseEvent p w)
  = Throw thrown ->
  (exists e, thrown = AnError e)
  \/ (exists message, publish_outcome publisher channel message = Some thrown).
Proof.
  unfold GravityOutput.dispatch.
  repeat match goal with
         | |- context [if String.eqb ?a ?b then _ else _] => destruct (String.eqb a b)
         end;
    unfold try_catch, bind, Envelope.sendMessageToUI, Envelope.publishEvent,
      Envelope.throwNodeOperationError, Envelope.newNodeOperationError,
      Envelope.DateNow, bind, ret, throw;
    repeat match goal with
           | |- context [JSON_parse P ?t] => destruct (JSON_parse P t)
           | |- context [publish_outcome ?a ?b ?c] =>
               destruct (publish_outcome a b c) eqn:Hpo
           | |- context [if GravityOutput.param_enableAudio ?q then _ else _] =>
               destruct (GravityOutput.param_enableAudio q)
           end;
    cbn [fst]; intros H; try discriminate H; injection H as <-;
    first [ left; eexists; reflexivity | right; eexists; exact Hpo ].
Qed.

(** What the [try] block of GravityOutput can throw: the reason for which
    the credentials could not be read, an [Error], or the reason for which
    the bus rejected the message. *)
Lemma output_item_body_throws (P : Platform)
    (publish_outcome : Envelope.Publisher -> string -> Envelope.Message -> option Thrown)
    (channel : string)
    (this : GravityOutput.Context) (item : GravityOutput.InputItem) (w : Envelope.World)
    (thrown : Thrown) :
  fst (GravityOutput.item_body P publish_outcome channel this item w) = Throw thrown ->
  GravityOutput.credentials this = inl thrown
  \/ (exists e, thrown = AnError e)
  \/ (exists publisher message, publish_outcome publisher channel message = Some thrown).
Proof.
  unfold GravityOutput.item_body, bind at 1.
  destruct (GravityOutput.credentials this) as [reason|cred]; cbn [lift_sum throw ret].
  { intros H. injection H as <-. now left. }
  destruct (negb _ || negb _ || negb _).
  { rewrite throwNodeOperationError_run. intros H. injection H as <-.
    right. left. eexists. reflexivity. }
  unfold bind at 1. rewrite newBaseEvent_run. cbv beta iota. unfold bind at 1.
  match goal with
  | |- context [GravityOutput.dispatch P publish_outcome channel ?pub ?be ?q ?w1] =>
      pose proof (output_dispatch_throws P publish_outcome channel pub be q w1) as Hthrows;
      destruct (GravityOutput.dispatch P publish_outcome channel pub be q w1)
        as [[[]|t] w2]
  end; cbn [fst] in *.
  - unfold Envelope.nowISO, bind, Envelope.DateNow, ret. intros H; discriminate H.
  - intros H. injection H as <-. right.
    destruct (Hthrows t eq_refl) as [He|[message Hpo]]; [now left|].
    right. eexists _, message. exact Hpo.
Qed.

Section OutputLoop.
Variable P : Platform.
Variable publish_outcome : Envelope.Publisher -> string -> Envelope.Message -> option Thrown.
Variable channel : string.
Variable this : GravityOutput.Context.

Lemma output_loop_app (xs ys : list GravityOutput.InputItem)
    (returnData : list GravityOutput.ReturnItem) (w : Envelope.World) :
  GravityOutput.loop P publish_outcome channel this (xs ++ ys) returnData w
  = match GravityOutput.loop P publish_outcome channel this xs returnData w with
    | (Normal returnData1, w1) =>
        GravityOutput.loop P publish_outcome channel this ys returnData1 w1
    | (Throw e, w1) => (Throw e, w1)
    end.
Proof.
  revert returnData w. induction xs as [|x xs IH]; intros returnData w.
  - reflexivity.
  - cbn [app GravityOutput.loop]. unfold bind.
    destruct (GravityOutput.process_item P publish_outcome channel this x w) as [[r|e] w1].
    + apply IH.
    + reflexivity.
Qed.

Lemma output_loop_shape (items : list GravityOutput.InputItem)
    (returnData : list GravityOutput.ReturnItem) (w : Envelope.World) :
  exists calls,
    Envelope.publishCalls
      (snd (GravityOutput.loop P publish_outcome channel this items returnData w))
    = Envelope.publishCalls w ++ calls
    /\ List.length calls <= List.length items
    /\ Forall (fun call => fst call = channel) calls
    /\ (forall returnData',
           fst (GravityOutput.loop P publish_outcome channel this items returnData w)
           = Normal returnData' ->
           List.length returnData' = List.length returnData + List.length items).
Proof.
  revert returnData w. induction items as [|item rest IH]; intros returnData w.
  - exists []. cbn. split; [now rewrite app_nil_r|]. split; [lia|]. split; [constructor|].
    intros rd H. injection H as <-. lia.
  - cbn [GravityOutput.loop]. unfold bind.
    destruct (output_process_item_shape P publish_outcome channel this item w)
      as [calls [Hcalls [Hlen [Hall _]]]].
    destruct (GravityOutput.process_item P publish_outcome channel this item w)
      as [[r|e] w1]; cbn [fst snd] in *.
    + destruct (IH (returnData ++ [r]) w1) as [calls' [Hcalls' [Hlen' [Hall' Hrd]]]].
      exists (calls ++ calls').
      split; [now rewrite Hcalls', Hcalls, app_assoc|].
      split; [rewrite length_app; cbn [List.length]; lia|].
      split.
      * apply Forall_app. split; [|exact Hall'].
        eapply Forall_impl; [|exact Hall]. now intros call [H _].
      * intros rd H. rewrite (Hrd rd H), length_app. cbn [List.length]. lia.
    + exists calls. split; [exact Hcalls|]. split; [cbn [List.length]; lia|].
      split.
      * eapply Forall_impl; [|exact Hall]. now intros call [H _].
      * intros rd H; discriminate H.
Qed.

(** When every item asks to continue, the loop goes through them all
    unless the [catch] block meets a value it cannot read a message from. *)
Lemma output_loop_continues (items : list GravityOutput.InputItem)
    (returnData : list GravityOutput.ReturnItem) (w : Envelope.World) :
  Forall (fun item => output_continues item = true) items ->
  (forall reason, GravityOutput.credentials this = inl reason -> ~ nullish reason) ->
  (forall publisher message reason,
      publish_outcome publisher channel message = Some reason -> ~ nullish reason) ->
  exists returnData' w',
    GravityOutput.loop P publish_outcome channel this items returnData w
    = (Normal returnData', w').
Proof.
  intros Hall Hcred Hbus. revert returnData w.
  induction Hall as [|item rest Hitem _ IH]; intros returnData w.
  - eexists _, _. reflexivity.
  - cbn [GravityOutput.loop]. unfold bind.
    unfold GravityOutput.process_item at 1. unfold try_catch.
    pose proof (output_item_body_throws P publish_outcome channel this item w) as Hthrows.
    destruct (GravityOutput.item_body P publish_outcome channel this item w)
      as [[r|t] w1]; cbn [fst] in Hthrows.
    + apply IH.
    + rewrite output_item_catch_run, Hitem.
      assert (Hreadable : ~ nullish t).
      { destruct (Hthrows t eq_refl) as [H|[[e ->]|[publisher [message H]]]].
        - now apply Hcred.
        - intros [].
        - now apply (Hbus publisher message). }
      destruct t as [e|[v|]]; cbn [JS.message_of].
      * apply IH.
      * destruct v; cbn [JS.get_member]; try apply IH. now elim Hreadable.
      * now elim Hreadable.
Qed.

End OutputLoop.

(** C9, as the claim states it, fails: an item can ask to continue on
    errors (Advanced Options, Error Handling "continue"). With an empty
    chatId on such an item the validation error is raised, but execution
    does not fail: [execute] returns normally and the error is the [error]
    member of the element returned for the item. *)
Lemma C9_continue_mode_returns_normally :
  GravityOutput.param_chatId
    (GravityOutput.parameters (Sample2.advanced_item "text" "" "continue")) = ""
  /\
  fst (GravityOutput.execute Sample.platform Sample.publish_outcome
         Sample.AI_RESULT_CHANNEL
         (Sample.output_context [Sample2.advanced_item "text" "" "continue"])
         Sample.world0)
  = Normal [[GravityOutput.NotSent [] (JString "Required IDs missing")]].
Proof. split; reflexivity. Qed.

(** C9, amended. For every item of GravityOutput whose chatId,
    conversationId or userId is the empty string, no envelope is built and
    none is published: processing the item draws no random token, hands
    nothing to the bus and sends nothing to the UI, and the item is never
    reported as sent. When the credentials can be read, the [try] block
    throws the validation error "Required IDs missing"; the item fails with
    it, and with it [execute] once the items before it are done, unless
    the item asks to continue on errors, in which case the error is
    recorded as the item's result. When the credentials cannot be read,
    the [try] block throws the reason of that instead, before it comes to
    the validation. *)
Theorem C9_empty_id_builds_no_envelope
    (P : Platform)
    (publish_outcome : Envelope.Publisher -> string -> Envelope.Message -> option Thrown)
    (channel : string)
    (this : GravityOutput.Context) (item : GravityOutput.InputItem) (w : Envelope.World)
    (Hempty : GravityOutput.param_chatId (GravityOutput.parameters item) = ""
              \/ GravityOutput.param_conversationId (GravityOutput.parameters item) = ""
              \/ GravityOutput.param_userId (GravityOutput.parameters item) = "") :
  let body := GravityOutput.item_body P publish_outcome channel this item w in
  let processed := GravityOutput.process_item P publish_outcome channel this item w in
  (Envelope.draws (snd processed) = Envelope.draws w
   /\ Envelope.publishCalls (snd processed) = Envelope.publishCalls w
   /\ Envelope.uiMessages (snd processed) = Envelope.uiMessages w)
  /\
  (forall r,
      fst processed = Normal r ->
      output_continues item = true
      /\ exists error, r = GravityOutput.NotSent (GravityOutput.json item) error)
  /\
  (forall cred,
      GravityOutput.credentials this = inr cred ->
      fst body = Throw (AnError (NodeOperationError "Required IDs missing"))
      /\ fst processed
         = if output_continues item
           then Normal (GravityOutput.NotSent (GravityOutput.json item)
                          (JString "Required IDs missing"))
           else Throw (AnError (NodeOperationError "Required IDs missing")))
  /\
  (forall reason,
      GravityOutput.credentials this = inl reason -> fst body = Throw reason)
  /\
  (forall cred before rest returnData1 w0,
      GravityOutput.credentials this = inr cred ->
      output_continues item = false ->
      GravityOutput.inputData this = before ++ item :: rest ->
      GravityOutput.loop P publish_outcome channel this before [] w0
      = (Normal returnData1, w) ->
      let run := GravityOutput.execute P publish_outcome channel this w0 in
      fst run = Throw (AnError (NodeOperationError "Required IDs missing"))
      /\ Envelope.draws (snd run) = Envelope.draws w
      /\ Envelope.publishCalls (snd run) = Envelope.publishCalls w).
Proof.
  cbv zeta.
  assert (Hbody : exists thrown w1,
             GravityOutput.item_body P publish_outcome channel this item w
             = (Throw thrown, w1)
             /\ Envelope.draws w1 = Envelope.draws w
             /\ Envelope.publishCalls w1 = Envelope.publishCalls w
             /\ Envelope.uiMessages w1 = Envelope.uiMessages w
             /\ (forall cred, GravityOutput.credentials this = inr cred ->
                   thrown = AnError (NodeOperationError "Required IDs missing"))
             /\ (forall reason, GravityOutput.credentials this = inl reason ->
                   thrown = reason)).
  { unfold GravityOutput.item_body, bind at 1.
    destruct (GravityOutput.credentials this) as [reason|cred]; cbn [lift_sum throw ret].
    - exists reason, w. repeat split; try reflexivity.
      + intros cred H; discriminate H.
      + intros reason' H. now injection H as <-.
    - assert (Hcheck :
        negb (JS.truthy_string
                (GravityOutput.param_conversationId (GravityOutput.parameters item)))
        || negb (JS.truthy_string
                   (GravityOutput.param_chatId (GravityOutput.parameters item)))
        || negb (JS.truthy_string
                   (GravityOutput.param_userId (GravityOutput.parameters item))) = true).
      { destruct Hempty as [H|[H|H]]; rewrite H; cbn [JS.truthy_string negb orb];
          rewrite ?orb_true_r; reflexivity. }
      rewrite Hcheck, throwNodeOperationError_run.
      eexists _, _. split; [reflexivity|]. repeat split; try reflexivity.
      intros reason H; discriminate H. }
  destruct Hbody as [thrown [w1 [Hbody [Hdraws [Hcalls [Hui [Hwith Hwithout]]]]]]].
  assert (Hitem : GravityOutput.process_item P publish_outcome channel this item w
                  = (fst (GravityOutput.item_catch item thrown w1), w1)).
  { unfold GravityOutput.process_item, try_catch. rewrite Hbody.
    now rewrite output_item_catch_run. }
  rewrite Hitem, Hbody. cbn [fst snd].
  split; [auto|]. split; [|split; [|split]].
  - intros r. rewrite output_item_catch_run. cbn [fst].
    destruct (output_continues item); [|intros H; discriminate H].
    destruct (JS.message_of thrown); intros H; [discriminate H|].
    injection H as <-. split; [reflexivity | eexists; reflexivity].
  - intros cred Hcred. rewrite (Hwith cred Hcred). split; [reflexivity|].
    rewrite output_item_catch_run. cbn [fst JS.message_of].
    destruct (output_continues item); reflexivity.
  - intros reason Hcred. now rewrite (Hwithout reason Hcred).
  - intros cred before rest returnData1 w0 Hcred Hmode Hinput Hbefore.
    unfold GravityOutput.execute, bind. rewrite Hinput.
    rewrite output_loop_app, Hbefore. cbn [GravityOutput.loop]. unfold bind.
    rewrite Hitem, output_item_catch_run, Hmode, (Hwith cred Hcred). cbn [fst snd].
    auto.
Qed.

Lemma C9_witness :
  let item := Sample.output_item "text" "" "conv1" "user1" "{}" in
  let run := GravityOutput.execute Sample.platform Sample.publish_outcome
               Sample.AI_RESULT_CHANNEL (Sample.output_context [item]) Sample.world0 in
  fst run = Throw (AnError (NodeOperationError "Required IDs missing"))
  /\ Envelope.draws (snd run) = 0
  /\ Envelope.publishCalls (snd run) = [].
Proof.
  exact (proj2 (proj2 (proj2 (proj2
           (C9_empty_id_builds_no_envelope
              Sample.platform Sample.publish_outcome Sample.AI_RESULT_CHANNEL
              (Sample.output_context [Sample.output_item "text" "" "conv1" "user1" "{}"])
              (Sample.output_item "text" "" "conv1" "user1" "{}") Sample.world0
              (or_introl eq_refl)))))
           Sample.gravity_credentials [] [] [] Sample.world0
           eq_refl eq_refl eq_refl eq_refl).
Defined.

(** Whenever GravityOutput reports an item as sent, it has handed exactly
    one message to the bus for that item and the bus has accepted it: the
    message went to the result channel, is of the item's output type and
    carries the state and identifiers the report shows. *)
Theorem output_sent_means_published
    (P : Platform)
    (publish_outcome : Envelope.Publisher -> string -> Envelope.Message -> option Thrown)
    (channel : string)
    (this : GravityOutput.Context) (item : GravityOutput.InputItem) (w : Envelope.World)
    (inherited : list (string * JSON))
    (outputType state timestamp conversationId chatId userId : string)
    (Hsent : fst (GravityOutput.process_item P publish_outcome channel this item w)
             = Normal (GravityOutput.Sent inherited outputType state timestamp
                         conversationId chatId userId)) :
  exists publisher message,
    Envelope.publishCalls
      (snd (GravityOutput.process_item P publish_outcome channel this item w))
    = Envelope.publishCalls w ++ [(channel, message)]
    /\ publish_outcome publisher channel message = None
    /\ Envelope.type message
       = GravityOutput.param_outputType (GravityOutput.parameters item)
    /\ Envelope.state (Envelope.base message) = state
    /\ Envelope.conversationId (Envelope.base message) = conversationId
    /\ Envelope.chatId (Envelope.base message) = chatId
    /\ Envelope.userId (Envelope.base message) = userId.
Proof.
  destruct (output_process_item_shape P publish_outcome channel this item w)
    as [calls [Hcalls [_ [Hall Hone]]]].
  destruct (Hone _ _ _ _ _ _ _ Hsent) as [publisher [message [-> H]]].
  exists publisher, message. split; [exact Hcalls|].
  inversion Hall as [|call rest [_ Htype] _]; subst.
  destruct H as [Hpo [Hs [Hc [Hch Hu]]]]. repeat split; assumption.
Qed.

Lemma output_sent_means_published_witness :
  exists publisher message,
    Envelope.publishCalls
      (snd (GravityOutput.process_item Sample.platform Sample.publish_outcome
              Sample.AI_RESULT_CHANNEL
              (Sample.output_context [Sample.output_item "text" "chat1" "conv1" "user1" "{}"])
              (Sample.output_item "text" "chat1" "conv1" "user1" "{}") Sample.world0))
    = [] ++ [(Sample.AI_RESULT_CHANNEL, message)]
    /\ Sample.publish_outcome publisher Sample.AI_RESULT_CHANNEL message = None
    /\ Envelope.type message = "text"
    /\ Envelope.state (Envelope.base message) = "active"
    /\ Envelope.conversationId (Envelope.base message) = "conv1"
    /\ Envelope.chatId (Envelope.base message) = "chat1"
    /\ Envelope.userId (Envelope.base message) = "user1".
Proof.
  exact (output_sent_means_published
           Sample.platform Sample.publish_outcome Sample.AI_RESULT_CHANNEL
           (Sample.output_context [Sample.output_item "text" "chat1" "conv1" "user1" "{}"])
           (Sample.output_item "text" "chat1" "conv1" "user1" "{}") Sample.world0
           [] "text" "active" "1700000000002" "conv1" "chat1" "user1" eq_refl).
Defined.

(** [GravityOutput.execute] hands at most one message to the bus per input
    item, always on the result channel, and never removes or reorders what
    was handed before; when it returns, it returns one output holding
    exactly one element per input item. *)
Theorem output_execute_one_message_and_one_element_per_item
    (P : Platform)
    (publish_outcome : Envelope.Publisher -> string -> Envelope.Message -> option Thrown)
    (channel : string) (this : GravityOutput.Context) (w : Envelope.World) :
  (exists calls,
      Envelope.publishCalls (snd (GravityOutput.execute P publish_outcome channel this w))
      = Envelope.publishCalls w ++ calls
      /\ List.length calls <= List.length (GravityOutput.inputData this)
      /\ Forall (fun call => fst call = channel) calls)
  /\
  (forall outputs,
      fst (GravityOutput.execute P publish_outcome channel this w) = Normal outputs ->
      exists returnData,
        outputs = [returnData]
        /\ List.length returnData = List.length (GravityOutput.inputData this)).
Proof.
  unfold GravityOutput.execute, bind.
  destruct (output_loop_shape P publish_outcome channel this
              (GravityOutput.inputData this) [] w) as [calls [Hcalls [Hlen [Hall Hrd]]]].
  destruct (GravityOutput.loop P publish_outcome channel this
              (GravityOutput.inputData this) [] w) as [[rd|e] w1]; cbn [fst snd] in *.
  - split; [exists calls; auto|].
    intros outputs H. injection H as <-. exists rd. split; [reflexivity|].
    now rewrite (Hrd rd eq_refl).
  - split; [exists calls; auto|]. intros outputs H; discriminate H.
Qed.

(** For a text or image item past validation, the [try] block throws the
    very reason for which the bus rejects the message. *)
Lemma output_item_body_relays_bus_rejection
    (P : Platform)
    (publish_outcome : Envelope.Publisher -> string -> Envelope.Message -> option Thrown)
    (channel : string)
    (this : GravityOutput.Context) (item : GravityOutput.InputItem)
    (cred : Envelope.GravityApiCredentials) (w : Envelope.World) (reason : Thrown) :
  GravityOutput.credentials this = inr cred ->
  GravityOutput.param_chatId (GravityOutput.parameters item) <> "" ->
  GravityOutput.param_conversationId (GravityOutput.parameters item) <> "" ->
  GravityOutput.param_userId (GravityOutput.parameters item) <> "" ->
  GravityOutput.param_outputType (GravityOutput.parameters item) = MessageType.TEXT
  \/ GravityOutput.param_outputType (GravityOutput.parameters item)
     = MessageType.IMAGE_RESPONSE ->
  (forall publisher ch message, publish_outcome publisher ch message = Some reason) ->
  fst (GravityOutput.item_body P publish_outcome channel this item w) = Throw reason.
Proof.
  intros Hcred Hchat Hconv Huser Htype Hdown.
  pose proof (output_item_body_valid P publish_outcome channel this item cred w
                Hcred Hchat Hconv Huser) as Hbody.
  cbv zeta in Hbody. unfold bind at 1 in Hbody. rewrite newBaseEvent_run in Hbody.
  cbv beta iota in Hbody. unfold bind at 1 in Hbody.
  rewrite Hbody. clear Hbody. unfold GravityOutput.dispatch.
  destruct Htype as [Htype|Htype]; rewrite Htype;
    cbn [String.eqb Ascii.eqb Bool.eqb MessageType.TEXT MessageType.JSON_DATA
         MessageType.IMAGE_RESPONSE];
    unfold bind, Envelope.sendMessageToUI, Envelope.publishEvent;
    cbv beta zeta; rewrite Hdown; reflexivity.
Qed.

(** If every input item has Advanced Options on and asks to continue on
    errors, [GravityOutput.execute] goes through all the items and returns,
    each failure becoming the element of its item, provided that neither
    the credentials store nor the bus rejects with [null] or [undefined].
    The [catch] block reads [error.message] without a guard: when the
    credentials store rejects with [null] or [undefined], or the bus does
    so for a text or image item, the first item makes it throw a
    TypeError, which ends the run although the item asked to continue. *)
Theorem output_execute_continues_through_errors
    (P : Platform)
    (publish_outcome : Envelope.Publisher -> string -> Envelope.Message -> option Thrown)
    (channel : string) (this : GravityOutput.Context) (w : Envelope.World)
    (Hcontinue : Forall (fun item => output_continues item = true)
                   (GravityOutput.inputData this)) :
  ((forall reason, GravityOutput.credentials this = inl reason -> ~ nullish reason) ->
   (forall publisher message reason,
       publish_outcome publisher channel message = Some reason -> ~ nullish reason) ->
   exists returnData w',
     GravityOutput.execute P publish_outcome channel this w = (Normal [returnData], w')
     /\ List.length returnData = List.length (GravityOutput.inputData this))
  /\
  (forall reason,
      GravityOutput.credentials this = inl reason ->
      nullish reason ->
      GravityOutput.inputData this <> [] ->
      exists unreadable,
        GravityOutput.execute P publish_outcome channel this w
        = (Throw (AnError unreadable), w)
        /\ err_name unreadable = "TypeError")
  /\
  (forall cred item rest reason,
      GravityOutput.credentials this = inr cred ->
      GravityOutput.inputData this = item :: rest ->
      GravityOutput.param_chatId (GravityOutput.parameters item) <> "" ->
      GravityOutput.param_conversationId (GravityOutput.parameters item) <> "" ->
      GravityOutput.param_userId (GravityOutput.parameters item) <> "" ->
      GravityOutput.param_outputType (GravityOutput.parameters item) = MessageType.TEXT
      \/ GravityOutput.param_outputType (GravityOutput.parameters item)
         = MessageType.IMAGE_RESPONSE ->
      (forall publisher ch message, publish_outcome publisher ch message = Some reason) ->
      nullish reason ->
      exists unreadable,
        fst (GravityOutput.execute P publish_outcome channel this w)
        = Throw (AnError unreadable)
        /\ err_name unreadable = "TypeError").
Proof.
  split; [|split].
  - intros Hcred Hbus.
    destruct (output_loop_continues P publish_outcome channel this
                (GravityOutput.inputData this) [] w Hcontinue Hcred Hbus)
      as [returnData [w' Hloop]].
    destruct (output_loop_shape P publish_outcome channel this
                (GravityOutput.inputData this) [] w) as [_ [_ [_ [_ Hrd]]]].
    exists returnData, w'. unfold GravityOutput.execute, bind. rewrite Hloop in *.
    split; [reflexivity|]. now rewrite (Hrd returnData eq_refl).
  - intros reason Hcred Hnull Hitems.
    unfold GravityOutput.execute, bind.
    destruct (GravityOutput.inputData this) as [|item rest]; [now elim Hitems|].
    inversion Hcontinue as [|? ? Hitem _]; subst.
    cbn [GravityOutput.loop]. unfold bind, GravityOutput.process_item, try_catch.
    unfold GravityOutput.item_body, bind at 1. rewrite Hcred. cbn [lift_sum throw].
    rewrite output_item_catch_run, Hitem.
    destruct reason as [e|[[| | | | |]|]]; try now elim Hnull.
    + eexists. split; reflexivity.
    + eexists. split; reflexivity.
  - intros cred item rest reason Hcred Hitems Hchat Hconv Huser Htype Hdown Hnull.
    unfold GravityOutput.execute, bind. rewrite Hitems in *.
    inversion Hcontinue as [|? ? Hitem _]; subst.
    cbn [GravityOutput.loop]. unfold bind, GravityOutput.process_item, try_catch.
    pose proof (output_item_body_relays_bus_rejection P publish_outcome channel this
                  item cred w reason Hcred Hchat Hconv Huser Htype Hdown) as Hbody.
    destruct (GravityOutput.item_body P publish_outcome channel this item w)
      as [r w1]. cbn [fst] in Hbody. subst r.
    rewrite output_item_catch_run, Hitem.
    destruct reason as [e|[[| | | | |]|]]; try now elim Hnull.
    + eexists. split; reflexivity.
    + eexists. split; reflexivity.
Qed.

Lemma output_execute_continues_through_errors_witness :
  (exists returnData w',
      GravityOutput.execute Sample.platform Sample2.bus_down Sample.AI_RESULT_CHANNEL
        (Sample.output_context
           [Sample2.advanced_item "text" "chat1" "continue";
            Sample2.advanced_item "text" "" "continue"])
        Sample.world0
      = (Normal [returnData], w')
      /\ List.length returnData = 2)
  /\
  (exists unreadable,
      GravityOutput.execute Sample.platform Sample.publish_outcome Sample.AI_RESULT_CHANNEL
        (Sample2.output_context_without_credentials
           [Sample2.advanced_item "text" "chat1" "continue"])
        Sample.world0
      = (Throw (AnError unreadable), Sample.world0)
      /\ err_name unreadable = "TypeError")
  /\
  (exists unreadable,
      fst (GravityOutput.execute Sample.platform Sample2.bus_rejects_undefined
             Sample.AI_RESULT_CHANNEL
             (Sample.output_context [Sample2.advanced_item "text" "chat1" "continue"])
             Sample.world0)
      = Throw (AnError unreadable)
      /\ err_name unreadable = "TypeError").
Proof.
  split; [|split].
  - refine (proj1 (output_execute_continues_through_errors
              Sample.platform Sample2.bus_down Sample.AI_RESULT_CHANNEL
              (Sample.output_context
                 [Sample2.advanced_item "text" "chat1" "continue";
                  Sample2.advanced_item "text" "" "continue"])
              Sample.world0 _) _ _).
    + repeat constructor.
    + intros reason H; discriminate H.
    + intros publisher message reason H. injection H as <-. intros [].
  - refine (proj1 (proj2 (output_execute_continues_through_errors
              Sample.platform Sample.publish_outcome Sample.AI_RESULT_CHANNEL
              (Sample2.output_context_without_credentials
                 [Sample2.advanced_item "text" "chat1" "continue"])
              Sample.world0 _)) (NotAnError None) eq_refl I _).
    + repeat constructor.
    + discriminate.
  - refine (proj2 (proj2 (output_execute_continues_through_errors
              Sample.platform Sample2.bus_rejects_undefined Sample.AI_RESULT_CHANNEL
              (Sample.output_context [Sample2.advanced_item "text" "chat1" "continue"])
              Sample.world0 _))
              Sample.gravity_credentials _ [] (NotAnError None)
              eq_refl eq_refl _ _ _ (or_introl eq_refl) (fun _ _ _ => eq_refl) I).
    + repeat constructor.
    + discriminate.
    + discriminate.
    + discriminate.
Defined.

Lemma not_in_types_eqb (t : string) (types : list string) :
  ~ In t types -> Forall (fun known => String.eqb t known = false) types.
Proof.
  intros H. apply Forall_forall. intros known Hin.
  apply String.eqb_neq. intros ->. now apply H.
Qed.

(** For an item past validation whose output type is none of the five the
    [switch] knows, GravityOutput throws "Unsupported output type: ..."
    naming the type, and hands nothing to the bus. *)
Theorem output_unsupported_type_publishes_nothing
    (P : Platform)
    (publish_outcome : Envelope.Publisher -> string -> Envelope.Message -> option Thrown)
    (channel : string)
    (this : GravityOutput.Context) (item : GravityOutput.InputItem)
    (cred : Envelope.GravityApiCredentials) (w : Envelope.World)
    (Hcred : GravityOutput.credentials this = inr cred)
    (Hchat : GravityOutput.param_chatId (GravityOutput.parameters item) <> "")
    (Hconv : GravityOutput.param_conversationId (GravityOutput.parameters item) <> "")
    (Huser : GravityOutput.param_userId (GravityOutput.parameters item) <> "")
    (Htype : ~ In (GravityOutput.param_outputType (GravityOutput.parameters item))
               output_types) :
  exists w',
    GravityOutput.item_body P publish_outcome channel this item w
    = (Throw (AnError
                (NodeOperationError
                   ("Unsupported output type: "
                    ++ GravityOutput.param_outputType
                         (GravityOutput.parameters item))%string)),
       w')
    /\ Envelope.publishCalls w' = Envelope.publishCalls w
    /\ Envelope.uiMessages w' = Envelope.uiMessages w.
Proof.
  rewrite (output_item_body_valid P publish_outcome channel this item cred w
             Hcred Hchat Hconv Huser).
  cbv zeta. unfold bind at 1. rewrite newBaseEvent_run. cbv beta iota.
  unfold bind at 1. unfold GravityOutput.dispatch.
  apply not_in_types_eqb in Htype. unfold output_types in Htype.
  inversion Htype as [|? ? H1 Ht1]; subst. inversion Ht1 as [|? ? H2 Ht2]; subst.
  inversion Ht2 as [|? ? H3 Ht3]; subst. inversion Ht3 as [|? ? H4 Ht4]; subst.
  inversion Ht4 as [|? ? H5 _]; subst.
  rewrite H1, H2, H3, H4, H5.
  eexists. split; [reflexivity|]. split; reflexivity.
Qed.

Lemma output_unsupported_type_publishes_nothing_witness :
  exists w',
    GravityOutput.item_body Sample.platform Sample.publish_outcome Sample.AI_RESULT_CHANNEL
      (Sample.output_context [Sample.output_item "mdx" "chat1" "conv1" "user1" "{}"])
      (Sample.output_item "mdx" "chat1" "conv1" "user1" "{}") Sample.world0
    = (Throw (AnError (NodeOperationError "Unsupported output type: mdx")), w')
    /\ Envelope.publishCalls w' = []
    /\ Envelope.uiMessages w' = [].
Proof.
  refine (output_unsupported_type_publishes_nothing
            Sample.platform Sample.publish_outcome Sample.AI_RESULT_CHANNEL
            (Sample.output_context [Sample.output_item "mdx" "chat1" "conv1" "user1" "{}"])
            (Sample.output_item "mdx" "chat1" "conv1" "user1" "{}")
            Sample.gravity_credentials Sample.world0 eq_refl _ _ _ _);
    cbn; try discriminate.
  intros [H|[H|[H|[H|[H|[]]]]]]; discriminate H.
Defined.

(** An item of GravityOutput that throws ends the run there: the items
    after it are not processed, and what the items before it have handed
    to the bus stays handed (nothing is taken back). *)
Theorem output_error_stops_the_loop_without_rollback
    (P : Platform)
    (publish_outcome : Envelope.Publisher -> string -> Envelope.Message -> option Thrown)
    (channel : string) (this : GravityOutput.Context)
    (before rest : list GravityOutput.InputItem) (item : GravityOutput.InputItem)
    (returnData returnData1 : list GravityOutput.ReturnItem)
    (w w1 w2 : Envelope.World) (e : Thrown)
    (Hbefore : GravityOutput.loop P publish_outcome channel this before returnData w
               = (Normal returnData1, w1))
    (Hitem : GravityOutput.process_item P publish_outcome channel this item w1
             = (Throw e, w2)) :
  GravityOutput.loop P publish_outcome channel this (before ++ item :: rest) returnData w
  = (Throw e, w2)
  /\ exists earlier last,
       Envelope.publishCalls w1 = Envelope.publishCalls w ++ earlier
       /\ Envelope.publishCalls w2 = Envelope.publishCalls w ++ earlier ++ last
       /\ List.length last <= 1.
Proof.
  split.
  - rewrite output_loop_app, Hbefore. cbn [GravityOutput.loop]. unfold bind.
    now rewrite Hitem.
  - destruct (output_loop_shape P publish_outcome channel this before returnData w)
      as [earlier [Hearlier _]].
    destruct (output_process_item_shape P publish_outcome channel this item w1)
      as [last [Hlast [Hlen _]]].
    rewrite Hbefore in Hearlier. rewrite Hitem in Hlast. cbn [snd] in *.
    exists earlier, last. split; [exact Hearlier|]. split; [|exact Hlen].
    now rewrite Hlast, Hearlier, app_assoc.
Qed.

Lemma output_error_stops_the_loop_without_rollback_witness :
  let first := Sample.output_item "text" "chat1" "conv1" "user1" "{}" in
  let second := Sample.output_item "text" "" "conv1" "user1" "{}" in
  let result :=
    GravityOutput.loop Sample.platform Sample.publish_outcome Sample.AI_RESULT_CHANNEL
      (Sample.output_context [first; second; first]) ([first] ++ second :: [first]) []
      Sample.world0 in
  fst result = Throw (AnError (NodeOperationError "Required IDs missing"))
  /\ List.length (Envelope.publishCalls (snd result)) = 1.
Proof.
  cbv zeta.
  pose proof (output_error_stops_the_loop_without_rollback
                Sample.platform Sample.publish_outcome Sample.AI_RESULT_CHANNEL
                (Sample.output_context
                   [Sample.output_item "text" "chat1" "conv1" "user1" "{}";
                    Sample.output_item "text" "" "conv1" "user1" "{}";
                    Sample.output_item "text" "chat1" "conv1" "user1" "{}"])
                [Sample.output_item "text" "chat1" "conv1" "user1" "{}"]
                [Sample.output_item "text" "chat1" "conv1" "user1" "{}"]
                (Sample.output_item "text" "" "conv1" "user1" "{}")
                [] _ Sample.world0 _ _ _ eq_refl eq_refl) as [H _].
  rewrite H. split; reflexivity.
Defined.

(** With Advanced Options off, GravityOutput ignores the Message State and
    Error Handling parameters: the item is processed exactly as with any
    other values for them, the envelope state being "active" and an error
    being rethrown. *)
Theorem output_advanced_values_need_the_switch
    (P : Platform)
    (publish_outcome : Envelope.Publisher -> string -> Envelope.Message -> option Thrown)
    (channel : string)
    (this : GravityOutput.Context) (item : GravityOutput.InputItem)
    (state1 state2 handling1 handling2 : string) (w : Envelope.World)
    (Hoff : GravityOutput.param_advancedOptions (GravityOutput.parameters item) = false) :
  GravityOutput.process_item P publish_outcome channel this
    (output_with_advanced_values item state1 handling1) w
  = GravityOutput.process_item P publish_outcome channel this
      (output_with_advanced_values item state2 handling2) w
  /\ output_continues (output_with_advanced_values item state1 handling1) = false
  /\ Forall (fun call => Envelope.state (Envelope.base (snd call)) = ChatState.ACTIVE)
       (skipn (List.length (Envelope.publishCalls w))
          (Envelope.publishCalls
             (snd (GravityOutput.process_item P publish_outcome channel this
                     (output_with_advanced_values item state1 handling1) w)))).
Proof.
  split; [|split].
  - unfold GravityOutput.process_item, GravityOutput.item_body, GravityOutput.item_catch,
      GravityOutput.dispatch.
    cbn [output_with_advanced_values GravityOutput.parameters GravityOutput.json
         GravityOutput.param_conversationId GravityOutput.param_chatId
         GravityOutput.param_userId GravityOutput.param_outputType
         GravityOutput.param_advancedOptions GravityOutput.param_state
         GravityOutput.param_textContent GravityOutput.param_enableAudio
         GravityOutput.param_jsonData GravityOutput.param_jsonDataFieldName
         GravityOutput.param_imageUrl GravityOutput.param_imageAlt
         GravityOutput.param_toolName GravityOutput.param_actionType
         GravityOutput.param_errorHandling].
    rewrite Hoff. reflexivity.
  - unfold output_continues. cbn [output_with_advanced_values GravityOutput.parameters
                                  GravityOutput.param_advancedOptions].
    now rewrite Hoff.
  - set (item1 := output_with_advanced_values item state1 handling1).
    unfold GravityOutput.process_item, try_catch.
    assert (Hcatch : forall r w1,
               Envelope.publishCalls
                 (snd (match r with
                       | Normal a => (Normal a, w1)
                       | Throw e => GravityOutput.item_catch item1 e w1
                       end)) = Envelope.publishCalls w1).
    { intros [a|e] w1; [reflexivity|].
      now rewrite output_item_catch_run. }
    destruct (GravityOutput.item_body P publish_outcome channel this item1 w)
      as [r w1] eqn:Hbody.
    rewrite Hcatch.
    replace w1 with (snd (GravityOutput.item_body P publish_outcome channel this item1 w))
      by now rewrite Hbody.
    clear Hbody Hcatch r w1.
    assert (Hnone : forall w', Envelope.publishCalls w' = Envelope.publishCalls w ->
              Forall (fun call => Envelope.state (Envelope.base (snd call))
                                  = ChatState.ACTIVE)
                (skipn (List.length (Envelope.publishCalls w)) (Envelope.publishCalls w'))).
    { intros w' ->. rewrite skipn_all. constructor. }
    destruct (GravityOutput.credentials this) as [e|cred] eqn:Hcred.
    { apply Hnone. unfold GravityOutput.item_body, bind at 1. now rewrite Hcred. }
    destruct (JS.truthy_string
                (GravityOutput.param_chatId (GravityOutput.parameters item1))) eqn:Hchat;
    destruct (JS.truthy_string
                (GravityOutput.param_conversationId (GravityOutput.parameters item1)))
      eqn:Hconv;
    destruct (JS.truthy_string
                (GravityOutput.param_userId (GravityOutput.parameters item1))) eqn:Huser;
    try (apply Hnone; unfold GravityOutput.item_body, bind at 1; rewrite Hcred;
         cbn [lift_sum ret]; rewrite Hchat, Hconv, Huser; reflexivity).
    apply truthy_string_nonempty in Hchat, Hconv, Huser.
    rewrite (output_item_body_valid P publish_outcome channel this item1 cred w
               Hcred Hchat Hconv Huser).
    cbv zeta. unfold bind at 1. rewrite newBaseEvent_run. cbv beta iota.
    unfold bind at 1.
    match goal with
    | |- context [GravityOutput.dispatch P publish_outcome channel ?pub ?be ?p ?w1] =>
        destruct (output_dispatch_shape P publish_outcome channel pub be p w1)
          as [calls [Hcalls [_ [Hall _]]]];
        destruct (GravityOutput.dispatch P publish_outcome channel pub be p w1)
          as [[[]|e] w2]
    end; unfold Envelope.nowISO, bind, Envelope.DateNow, ret;
      cbn [fst snd Envelope.publishCalls] in *; rewrite Hcalls;
      rewrite skipn_app, skipn_all, Nat.sub_diag; cbn [skipn app];
      (eapply Forall_impl; [|exact Hall]); intros call [_ [-> _]];
      cbn [Envelope.state item1 output_with_advanced_values GravityOutput.parameters
           GravityOutput.param_advancedOptions];
      now rewrite Hoff.
Qed.

Lemma output_advanced_values_need_the_switch_witness :
  GravityOutput.process_item Sample.platform Sample.publish_outcome Sample.AI_RESULT_CHANNEL
    (Sample.output_context [])
    (output_with_advanced_values
       (Sample.output_item "text" "chat1" "conv1" "user1" "{}") "thinking" "continue")
    Sample.world0
  = GravityOutput.process_item Sample.platform Sample.publish_outcome
      Sample.AI_RESULT_CHANNEL (Sample.output_context [])
      (output_with_advanced_values
         (Sample.output_item "text" "chat1" "conv1" "user1" "{}") "active" "throw")
      Sample.world0.
Proof.
  exact (proj1 (output_advanced_values_need_the_switch
                  Sample.platform Sample.publish_outcome Sample.AI_RESULT_CHANNEL
                  (Sample.output_context [])
                  (Sample.output_item "text" "chat1" "conv1" "user1" "{}")
                  "thinking" "active" "continue" "throw" Sample.world0 eq_refl)).
Defined.

(** When the bus rejects every publication, GravityOutput reports the
    rejection itself only for text and image items. For jsonData,
    toolOutput and actionSuggestion items the inner [catch] replaces it by
    "Invalid JSON data ...", whether or not the JSON text parses: the
    bus error is not visible in what the item throws. *)
Theorem output_bus_rejection_reported_as_invalid_json
    (P : Platform)
    (publish_outcome : Envelope.Publisher -> string -> Envelope.Message -> option Thrown)
    (channel : string)
    (this : GravityOutput.Context) (item : GravityOutput.InputItem)
    (cred : Envelope.GravityApiCredentials) (w : Envelope.World) (e : Thrown)
    (Hcred : GravityOutput.credentials this = inr cred)
    (Hchat : GravityOutput.param_chatId (GravityOutput.parameters item) <> "")
    (Hconv : GravityOutput.param_conversationId (GravityOutput.parameters item) <> "")
    (Huser : GravityOutput.param_userId (GravityOutput.parameters item) <> "")
    (Hdown : forall publisher ch message, publish_outcome publisher ch message = Some e) :
  let outputType := GravityOutput.param_outputType (GravityOutput.parameters item) in
  let thrown := fst (GravityOutput.item_body P publish_outcome channel this item w) in
  (outputType = MessageType.TEXT \/ outputType = MessageType.IMAGE_RESPONSE ->
   thrown = Throw e)
  /\ (outputType = MessageType.JSON_DATA ->
      thrown = Throw (AnError (NodeOperationError "Invalid JSON data")))
  /\ (outputType = MessageType.TOOL_OUTPUT ->
      thrown = Throw (AnError (NodeOperationError "Invalid JSON data for tool output")))
  /\ (outputType = MessageType.ACTION_SUGGESTION ->
      thrown
      = Throw (AnError (NodeOperationError "Invalid JSON data for action payload"))).
Proof.
  cbv zeta.
  pose proof (output_item_body_valid P publish_outcome channel this item cred w
                Hcred Hchat Hconv Huser) as Hbody.
  cbv zeta in Hbody. unfold bind at 1 in Hbody. rewrite newBaseEvent_run in Hbody.
  cbv beta iota in Hbody. unfold bind at 1 in Hbody.
  rewrite Hbody. clear Hbody. unfold GravityOutput.dispatch.
  split; [|split; [|split]].
  - intros [Htype|Htype]; rewrite Htype;
      cbn [String.eqb Ascii.eqb Bool.eqb MessageType.TEXT MessageType.JSON_DATA
           MessageType.IMAGE_RESPONSE];
      unfold bind, Envelope.sendMessageToUI, Envelope.publishEvent;
      cbv beta zeta; rewrite Hdown; reflexivity.
  - intros Htype; rewrite Htype.
    cbn [String.eqb Ascii.eqb Bool.eqb MessageType.TEXT MessageType.JSON_DATA].
    unfold try_catch, bind, Envelope.sendMessageToUI, Envelope.publishEvent.
    cbv beta zeta.
    destruct (JSON_parse P _); [rewrite Hdown|]; reflexivity.
  - intros Htype; rewrite Htype.
    cbn [String.eqb Ascii.eqb Bool.eqb MessageType.TEXT MessageType.JSON_DATA
         MessageType.IMAGE_RESPONSE MessageType.TOOL_OUTPUT].
    unfold try_catch, bind, Envelope.sendMessageToUI, Envelope.publishEvent.
    cbv beta zeta.
    destruct (JSON_parse P _); [rewrite Hdown|]; reflexivity.
  - intros Htype; rewrite Htype.
    cbn [String.eqb Ascii.eqb Bool.eqb MessageType.TEXT MessageType.JSON_DATA
         MessageType.IMAGE_RESPONSE MessageType.TOOL_OUTPUT MessageType.ACTION_SUGGESTION].
    unfold try_catch, bind, Envelope.sendMessageToUI, Envelope.publishEvent.
    cbv beta zeta.
    destruct (JSON_parse P _); [rewrite Hdown|]; reflexivity.
Qed.

Lemma output_bus_rejection_reported_as_invalid_json_witness :
  fst (GravityOutput.item_body Sample.platform Sample2.bus_down Sample.AI_RESULT_CHANNEL
         (Sample.output_context [])
         (Sample.output_item "jsonData" "chat1" "conv1" "user1" "{}") Sample.world0)
  = Throw (AnError (NodeOperationError "Invalid JSON data")).
Proof.
  refine (proj1 (proj2 (output_bus_rejection_reported_as_invalid_json
            Sample.platform Sample2.bus_down Sample.AI_RESULT_CHANNEL
            (Sample.output_context [])
            (Sample.output_item "jsonData" "chat1" "conv1" "user1" "{}")
            Sample.gravity_credentials Sample.world0 (AnError Sample.socket_error)
            eq_refl _ _ _ (fun _ _ _ => eq_refl))) eq_refl);
    cbn; discriminate.
Defined.

(** ** Further properties of GravityUpdate *)

Ltac settle_update E :=
  cbn [fst snd Envelope.publishCalls];
  first
    [ exists []; split; [now rewrite app_nil_r|];
      split; [cbn; lia|]; split; [constructor|];
      intros r0 Hnormal; discriminate Hnormal
    | eexists [_]; split; [reflexivity|];
      split; [cbn; lia|];
      split; [constructor; [|constructor]; unfold call_for; rewrite E;
              repeat split|];
      first [ intros r0 Hnormal; discriminate Hnormal
            | intros r0 Hnormal; injection Hnormal as <-;
              eexists; split; [reflexivity|]; split; [eassumption|];
              cbn; eauto ] ].

(** What the [switch] of GravityUpdate hands to the bus: at most one
    message, on the result channel, built on the base event and of the
    requested type; exactly one, accepted by the bus and agreeing with the
    element pushed, when the [switch] completes. *)
Lemma update_dispatch_shape (P : Platform)
    (publish_outcome : Envelope.Publisher -> string -> Envelope.Message -> option Thrown)
    (channel : string) (publisher : Envelope.Publisher) (baseEvent : Envelope.BaseEvent)
    (p : GravityUpdate.Parameters) (w : Envelope.World) :
  exists calls,
    Envelope.publishCalls
      (snd (GravityUpdate.dispatch P publish_outcome channel publisher baseEvent p w))
    = Envelope.publishCalls w ++ calls
    /\ List.length calls <= 1
    /\ Forall (call_for channel baseEvent (GravityUpdate.param_updateType p)) calls
    /\ (forall r,
           fst (GravityUpdate.dispatch P publish_outcome channel publisher baseEvent p w)
           = Normal r ->
           exists message,
             calls = [(channel, message)]
             /\ publish_outcome publisher channel message = None
             /\ update_report_matches P r message).
Proof.
  unfold GravityUpdate.dispatch.
  destruct (String.eqb_spec (GravityUpdate.param_updateType p) MessageType.PROGRESS_UPDATE)
    as [E|_].
  { unfold bind, Envelope.publishEvent, Envelope.nowISO, bind, Envelope.DateNow, ret.
    match goal with
    | |- context [publish_outcome ?a ?b ?c] => destruct (publish_outcome a b c) eqn:Hpo
    end; settle_update E. }
  destruct (String.eqb_spec (GravityUpdate.param_updateType p) MessageType.MESSAGE_CHUNK)
    as [E|_].
  { unfold bind, Envelope.publishEvent, Envelope.nowISO, bind, Envelope.DateNow, ret.
    match goal with
    | |- context [publish_outcome ?a ?b ?c] => destruct (publish_outcome a b c) eqn:Hpo
    end; settle_update E. }
  destruct (String.eqb_spec (GravityUpdate.param_updateType p) MessageType.JSON_DATA)
    as [E|_].
  { unfold try_catch, bind, Envelope.publishEvent, Envelope.nowISO, bind,
      Envelope.DateNow, ret, throw.
    destruct (JSON_parse P _); [|settle_update E].
    match goal with
    | |- context [publish_outcome ?a ?b ?c] => destruct (publish_outcome a b c) eqn:Hpo
    end; settle_update E. }
  destruct (String.eqb_spec (GravityUpdate.param_updateType p) MessageType.METADATA)
    as [E|_].
  { unfold bind, Envelope.publishEvent, Envelope.nowISO, bind, Envelope.DateNow, ret.
    match goal with
    | |- context [publish_outcome ?a ?b ?c] => destruct (publish_outcome a b c) eqn:Hpo
    end; settle_update E. }
  unfold throw. settle_update (@eq_refl nat 0).
Qed.

Lemma string_length_append (a b : string) :
  String.length (a ++ b)%string = String.length a + String.length b.
Proof. induction a as [|c a IH]; cbn; [reflexivity | now rewrite IH]. Qed.

Lemma string_length_substring0 (n : nat) (s : string) :
  String.length (JS.substring0 n s) = Nat.min n (String.length s).
Proof.
  unfold JS.substring0. revert s. induction n as [|n IH]; intros s.
  - now destruct s.
  - destruct s as [|c s]; cbn; [reflexivity | now rewrite IH].
Qed.

(** The preview GravityUpdate returns for a text chunk is the text itself
    up to 30 characters, and otherwise its first 30 characters followed by
    three dots: it is never longer than 33 characters. *)
Theorem update_text_preview_is_bounded (text : string) :
  String.length (GravityUpdate.textPreview text) <= 33
  /\ (String.length text <= 30 -> GravityUpdate.textPreview text = text)
  /\ (30 < String.length text ->
      GravityUpdate.textPreview text = (JS.substring0 30 text ++ "...")%string
      /\ String.length (GravityUpdate.textPreview text) = 33).
Proof.
  unfold GravityUpdate.textPreview.
  destruct (Nat.ltb_spec 30 (String.length text)) as [Hlong|Hshort].
  - rewrite string_length_append, string_length_substring0.
    rewrite Nat.min_l by lia. cbn [String.length].
    split; [lia|]. split; [lia|]. intros _. split; [reflexivity | lia].
  - split; [lia|]. split; [reflexivity|]. lia.
Qed.

(** Reading [error.message] throws only on [null] and [undefined], and
    what it throws then is a TypeError. *)
Lemma message_of_unreadable (error : Thrown) (unreadable : JSError) :
  JS.message_of error = inl unreadable ->
  nullish error /\ err_name unreadable = "TypeError".
Proof.
  destruct error as [e|[v|]]; cbn [JS.message_of].
  - intros H; discriminate H.
  - destruct v; cbn [JS.get_member]; intros H; try discriminate H.
    injection H as <-. split; [exact I | reflexivity].
  - intros H. injection H as <-. split; [exact I | reflexivity].
Qed.

(** What the [switch] of GravityUpdate can throw: an [Error], or the very
    reason for which the bus rejected the message. *)
Lemma update_dispatch_throws (P : Platform)
    (publish_outcome : Envelope.Publisher -> string -> Envelope.Message -> option Thrown)
    (channel : string) (publisher : Envelope.Publisher) (baseEvent : Envelope.BaseEvent)
    (p : GravityUpdate.Parameters) (w : Envelope.World) (thrown : Thrown) :
  fst (GravityUpdate.dispatch P publish_outcome channel publisher baseEvent p w)
  = Throw thrown ->
  (exists e, thrown = AnError e)
  \/ (exists message, publish_outcome publisher channel message = Some thrown).
Proof.
  unfold GravityUpdate.dispatch.
  repeat match goal with
         | |- context [if String.eqb ?a ?b then _ else _] => destruct (String.eqb a b)
         end;
    unfold try_catch, bind, Envelope.publishEvent, Envelope.nowISO,
      Envelope.throwNodeOperationError, Envelope.newNodeOperationError,
      Envelope.DateNow, bind, ret, throw;
    repeat match goal with
           | |- context [JSON_parse P ?t] => destruct (JSON_parse P t)
           | |- context [publish_outcome ?a ?b ?c] =>
               destruct (publish_outcome a b c) eqn:Hpo
           end;
    cbn [fst]; intros H; try discriminate H; injection H as <-;
    first [ left; eexists; reflexivity | right; eexists; exact Hpo ].
Qed.

(** The outer [catch] block of GravityUpdate throws again what it caught:
    [execute] is its outer [try] block. *)
Lemma update_execute_run (P : Platform)
    (publish_outcome : Envelope.Publisher -> string -> Envelope.Message -> option Thrown)
    (channel : string) (this : GravityUpdate.Context) (w : Envelope.World) :
  GravityUpdate.execute P publish_outcome channel this w
  = GravityUpdate.execute_body P publish_outcome channel this w.
Proof.
  unfold GravityUpdate.execute, try_catch, GravityUpdate.execute_catch, throw.
  destruct (GravityUpdate.execute_body P publish_outcome channel this w) as [[r|e] w1];
    reflexivity.
Qed.

Section UpdateLoop.
Variable P : Platform.
Variable publish_outcome : Envelope.Publisher -> string -> Envelope.Message -> option Thrown.
Variable channel : string.
Variable this : GravityUpdate.Context.
Variable publisher : Envelope.Publisher.
Variable providerId : string.

(** The inner [catch] block of GravityUpdate hands nothing to the bus. When
    the node continues on failure it records the message read from the
    caught value, or throws the TypeError of that reading; otherwise what
    it throws is a NodeOperationError. *)
Lemma update_item_catch_shape (error : Thrown) (w : Envelope.World) :
  Envelope.publishCalls (snd (GravityUpdate.item_catch P this error w))
  = Envelope.publishCalls w
  /\ (GravityUpdate.continueOnFail this = true ->
      fst (GravityUpdate.item_catch P this error w)
      = match JS.message_of error with
        | inl unreadable => Throw (AnError unreadable)
        | inr message => Normal (GravityUpdate.NotSent message)
        end)
  /\ (GravityUpdate.continueOnFail this = false ->
      exists thrown,
        fst (GravityUpdate.item_catch P this error w) = Throw (AnError thrown)
        /\ err_name thrown = "NodeOperationError").
Proof.
  unfold GravityUpdate.item_catch.
  destruct (GravityUpdate.continueOnFail this).
  - unfold bind. destruct (JS.message_of error);
      (split; [reflexivity|]); (split; [reflexivity | discriminate]).
  - destruct error as [e|v].
    + destruct (String.eqb_spec (err_name e) "NodeOperationError") as [E|E]; cbn [negb].
      * split; [reflexivity|]. split; [discriminate|]. intros _.
        exists e. split; [reflexivity | exact E].
      * split; [reflexivity|]. split; [discriminate|]. intros _.
        eexists. split; reflexivity.
    + split; [reflexivity|]. split; [discriminate|]. intros _.
      eexists. split; reflexivity.
Qed.

(** What the [try] block of GravityUpdate does for one item. *)
Lemma update_item_body_shape (p : GravityUpdate.Parameters) (w : Envelope.World) :
  exists calls,
    Envelope.publishCalls
      (snd (GravityUpdate.item_body P publish_outcome channel publisher providerId p w))
    = Envelope.publishCalls w ++ calls
    /\ List.length calls <= 1
    /\ Forall (fun call =>
                 fst call = channel
                 /\ Envelope.type (snd call) = GravityUpdate.param_updateType p
                 /\ Envelope.chatId (Envelope.base (snd call)) = GravityUpdate.param_chatId p
                 /\ Envelope.conversationId (Envelope.base (snd call))
                    = GravityUpdate.param_conversationId p
                 /\ Envelope.userId (Envelope.base (snd call))
                    = GravityUpdate.param_userId p)
              calls
    /\ (forall r,
           fst (GravityUpdate.item_body P publish_outcome channel publisher providerId p w)
           = Normal r ->
           exists message,
             calls = [(channel, message)]
             /\ publish_outcome publisher channel message = None
             /\ update_report_matches P r message)
    /\ (forall thrown,
           fst (GravityUpdate.item_body P publish_outcome channel publisher providerId p w)
           = Throw thrown ->
           (exists e, thrown = AnError e)
           \/ (exists message, publish_outcome publisher channel message = Some thrown)).
Proof.
  unfold GravityUpdate.item_body, bind. rewrite !newBaseEvent_run. cbv beta iota.
  match goal with
  | |- context [GravityUpdate.dispatch P publish_outcome channel ?pub ?be ?q ?w1] =>
      destruct (update_dispatch_shape P publish_outcome channel pub be q w1)
        as [calls [Hcalls [Hlen [Hall Hone]]]];
      pose proof (update_dispatch_throws P publish_outcome channel pub be q w1) as Hthrows
  end.
  cbn [Envelope.publishCalls] in Hcalls.
  exists calls. split; [exact Hcalls|]. split; [exact Hlen|].
  split; [|split; [exact Hone | exact Hthrows]].
  eapply Forall_impl; [|exact Hall].
  intros call [H1 [H2 H3]]. rewrite H2. cbn. repeat split; assumption.
Qed.

Lemma update_loop_shape (items : list GravityUpdate.Parameters)
    (returnData : list GravityUpdate.ReturnItem) (w : Envelope.World) :
  exists calls,
    Envelope.publishCalls
      (snd (GravityUpdate.loop P publish_outcome channel this publisher providerId
              items returnData w))
    = Envelope.publishCalls w ++ calls
    /\ List.length calls <= List.length items
    /\ Forall (fun call => fst call = channel) calls
    /\ (forall returnData',
           fst (GravityUpdate.loop P publish_outcome channel this publisher providerId
                  items returnData w) = Normal returnData' ->
           List.length returnData' = List.length returnData + List.length items)
    /\ (forall thrown,
           fst (GravityUpdate.loop P publish_outcome channel this publisher providerId
                  items returnData w) = Throw thrown ->
           exists e,
             thrown = AnError e
             /\ if GravityUpdate.continueOnFail this
                then err_name e = "TypeError"
                     /\ exists message reason,
                          publish_outcome publisher channel message = Some reason
                          /\ nullish reason
                else err_name e = "NodeOperationError").
Proof.
  revert returnData w. induction items as [|p rest IH]; intros returnData w.
  - exists []. cbn. split; [now rewrite app_nil_r|]. split; [lia|]. split; [constructor|].
    split; [intros rd H; injection H as <-; lia | intros e H; discriminate H].
  - cbn [GravityUpdate.loop]. unfold bind, try_catch.
    destruct (update_item_body_shape p w) as [calls [Hcalls [Hlen [Hall [_ Hthrows]]]]].
    assert (Hchannel : Forall (fun call => fst call = channel) calls)
      by (eapply Forall_impl; [|exact Hall]; now intros call [H _]).
    destruct (GravityUpdate.item_body P publish_outcome channel publisher providerId p w)
      as [[r|t] w1]; cbn [fst snd] in *.
    + destruct (IH (returnData ++ [r]) w1)
        as [calls' [Hcalls' [Hlen' [Hall' [Hrd Hthrow]]]]].
      exists (calls ++ calls').
      split; [now rewrite Hcalls', Hcalls, app_assoc|].
      split; [rewrite length_app; cbn [List.length]; lia|].
      split; [apply Forall_app; now split|].
      split; [|exact Hthrow].
      intros rd H. rewrite (Hrd rd H), length_app. cbn [List.length]. lia.
    + destruct (update_item_catch_shape t w1) as [Hw [Hcont Hstop]].
      destruct (GravityUpdate.item_catch P this t w1) as [[r|t'] w'] eqn:Hcatch;
        cbn [fst snd] in *.
      * destruct (IH (returnData ++ [r]) w')
          as [calls' [Hcalls' [Hlen' [Hall' [Hrd Hthrow]]]]].
        exists (calls ++ calls').
        split; [now rewrite Hcalls', Hw, Hcalls, app_assoc|].
        split; [rewrite length_app; cbn [List.length]; lia|].
        split; [apply Forall_app; now split|].
        split; [|exact Hthrow].
        intros rd H. rewrite (Hrd rd H), length_app. cbn [List.length]. lia.
      * exists calls. split; [now rewrite Hw|]. split; [cbn [List.length]; lia|].
        split; [exact Hchannel|].
        split; [intros rd H; discriminate H|].
        intros t0 H. injection H as <-.
        destruct (GravityUpdate.continueOnFail this) eqn:Hmode.
        -- specialize (Hcont eq_refl).
           destruct (JS.message_of t) as [unreadable|message] eqn:Hmessage;
             [|discriminate Hcont].
           injection Hcont as ->. exists unreadable. split; [reflexivity|].
           destruct (message_of_unreadable t unreadable Hmessage) as [Hnull Hname].
           split; [exact Hname|].
           destruct (Hthrows t eq_refl) as [[e ->]|[message Hpo]]; [now elim Hnull|].
           exists message, t. split; assumption.
        -- destruct (Hstop eq_refl) as [thrown [Heq Hname]].
           injection Heq as ->. exists thrown. split; [reflexivity | exact Hname].
Qed.

End UpdateLoop.

(** Whenever the [try] block of GravityUpdate completes for an item, it
    has handed exactly one message to the bus and the bus has accepted it.
    The message went to the result channel, is of the item's update type,
    carries the item's three identifiers as given, and agrees with the
    element pushed: same progress text, metadata entry, data type and
    number of items, and a preview that is the preview of the chunk text
    sent in full. *)
Theorem update_report_matches_published_message
    (P : Platform)
    (publish_outcome : Envelope.Publisher -> string -> Envelope.Message -> option Thrown)
    (channel : string) (publisher : Envelope.Publisher) (providerId : string)
    (p : GravityUpdate.Parameters) (w : Envelope.World) (r : GravityUpdate.ReturnItem)
    (Hdone : fst (GravityUpdate.item_body P publish_outcome channel publisher providerId p w)
             = Normal r) :
  exists message,
    Envelope.publishCalls
      (snd (GravityUpdate.item_body P publish_outcome channel publisher providerId p w))
    = Envelope.publishCalls w ++ [(channel, message)]
    /\ publish_outcome publisher channel message = None
    /\ Envelope.type message = GravityUpdate.param_updateType p
    /\ Envelope.chatId (Envelope.base message) = GravityUpdate.param_chatId p
    /\ Envelope.conversationId (Envelope.base message) = GravityUpdate.param_conversationId p
    /\ Envelope.userId (Envelope.base message) = GravityUpdate.param_userId p
    /\ update_report_matches P r message.
Proof.
  destruct (update_item_body_shape P publish_outcome channel publisher providerId p w)
    as [calls [Hcalls [_ [Hall [Hone _]]]]].
  destruct (Hone r Hdone) as [message [-> [Hpo Hmatch]]].
  inversion Hall as [|call rest [_ [Ht [Hc [Hv Hu]]]] _]; subst.
  exists message. repeat split; assumption.
Qed.

Lemma update_report_matches_published_message_witness :
  exists message,
    Envelope.publishCalls
      (snd (GravityUpdate.item_body Sample.platform Sample.publish_outcome
              Sample.AI_RESULT_CHANNEL Sample.update_publisher "n8n:wf1:node2"
              (Sample.update_parameters "jsonData" "chat1" "conv1" "user1"
                 (Sample.stringify (JArray [Sample.object_a 1; Sample.object_a 2])))
              Sample.world0))
    = [] ++ [(Sample.AI_RESULT_CHANNEL, message)]
    /\ Sample.publish_outcome Sample.update_publisher Sample.AI_RESULT_CHANNEL message = None
    /\ Envelope.type message = "jsonData"
    /\ Envelope.chatId (Envelope.base message) = "chat1"
    /\ Envelope.conversationId (Envelope.base message) = "conv1"
    /\ Envelope.userId (Envelope.base message) = "user1"
    /\ update_report_matches Sample.platform
         (GravityUpdate.JsonSent "1700000000002" "calls" 2) message.
Proof.
  exact (update_report_matches_published_message
           Sample.platform Sample.publish_outcome Sample.AI_RESULT_CHANNEL
           Sample.update_publisher "n8n:wf1:node2"
           (Sample.update_parameters "jsonData" "chat1" "conv1" "user1"
              (Sample.stringify (JArray [Sample.object_a 1; Sample.object_a 2])))
           Sample.world0 (GravityUpdate.JsonSent "1700000000002" "calls" 2) eq_refl).
Defined.

(** [GravityUpdate.execute] hands at most one message to the bus per input
    item, always on the result channel, and never removes or reorders what
    was handed before; when it returns, it returns one output holding
    exactly one element per input item. *)
Theorem update_execute_one_message_and_one_element_per_item
    (P : Platform)
    (publish_outcome : Envelope.Publisher -> string -> Envelope.Message -> option Thrown)
    (channel : string) (this : GravityUpdate.Context) (w : Envelope.World) :
  (exists calls,
      Envelope.publishCalls (snd (GravityUpdate.execute P publish_outcome channel this w))
      = Envelope.publishCalls w ++ calls
      /\ List.length calls <= List.length (GravityUpdate.inputData this)
      /\ Forall (fun call => fst call = channel) calls)
  /\
  (forall outputs,
      fst (GravityUpdate.execute P publish_outcome channel this w) = Normal outputs ->
      exists returnData,
        outputs = [returnData]
        /\ List.length returnData = List.length (GravityUpdate.inputData this)).
Proof.
  rewrite update_execute_run. unfold GravityUpdate.execute_body, bind.
  destruct (GravityUpdate.credentials this) as [e|cred]; cbn [lift_sum throw ret].
  { split; [|intros outputs H; discriminate H].
    exists []. cbn. split; [now rewrite app_nil_r|]. split; [lia | constructor]. }
  match goal with
  | |- context [GravityUpdate.loop P publish_outcome channel this ?pub ?pid ?items [] w] =>
      destruct (update_loop_shape P publish_outcome channel this pub pid items [] w)
        as [calls [Hcalls [Hlen [Hall [Hrd _]]]]];
      destruct (GravityUpdate.loop P publish_outcome channel this pub pid items [] w)
        as [[rd|e] w1]
  end; cbn [fst snd] in *.
  - split; [exists calls; auto|].
    intros outputs H. injection H as <-. exists rd. split; [reflexivity|].
    now rewrite (Hrd rd eq_refl).
  - split; [exists calls; auto|]. intros outputs H; discriminate H.
Qed.

(** What [GravityUpdate.execute] can throw. When the credentials cannot be
    read, the reason of that, whatever it is. Otherwise, when the node does
    not continue on failure, a NodeOperationError and nothing else: the
    inner [catch] block wraps every other [Error] in one and replaces every
    other value by one. When the node continues on failure, [execute]
    throws in one case only: the bus has rejected a publication with [null]
    or [undefined], from which the inner [catch] block cannot read
    [error.message]; what is thrown is the TypeError of that reading. *)
Theorem update_execute_thrown_values
    (P : Platform)
    (publish_outcome : Envelope.Publisher -> string -> Envelope.Message -> option Thrown)
    (channel : string) (this : GravityUpdate.Context)
    (w : Envelope.World) (thrown : Thrown)
    (Hthrow : fst (GravityUpdate.execute P publish_outcome channel this w) = Throw thrown) :
  GravityUpdate.credentials this = inl thrown
  \/ exists cred e,
       GravityUpdate.credentials this = inr cred
       /\ thrown = AnError e
       /\ if GravityUpdate.continueOnFail this
          then err_name e = "TypeError"
               /\ exists publisher message reason,
                    publish_outcome publisher channel message = Some reason
                    /\ nullish reason
          else err_name e = "NodeOperationError".
Proof.
  revert Hthrow. rewrite update_execute_run. unfold GravityUpdate.execute_body, bind.
  destruct (GravityUpdate.credentials this) as [reason|cred]; cbn [lift_sum throw ret].
  { intros H. injection H as <-. now left. }
  match goal with
  | |- context [GravityUpdate.loop P publish_outcome channel this ?pub ?pid ?items [] w] =>
      destruct (update_loop_shape P publish_outcome channel this pub pid items [] w)
        as [_ [_ [_ [_ [_ Hthrown]]]]];
      destruct (GravityUpdate.loop P publish_outcome channel this pub pid items [] w)
        as [[rd|t] w1]
  end; cbn [fst snd] in *.
  - intros H; discriminate H.
  - intros H. injection H as <-. right.
    destruct (Hthrown t eq_refl) as [e [-> Hkind]].
    exists cred, e. split; [reflexivity|]. split; [reflexivity|].
    destruct (GravityUpdate.continueOnFail this); [|exact Hkind].
    destruct Hkind as [Hname [message [reason [Hpo Hnull]]]].
    split; [exact Hname|]. eexists _, message, reason. split; eassumption.
Qed.

Lemma update_execute_thrown_values_witness :
  (exists e,
      fst (GravityUpdate.execute Sample.platform Sample2.bus_down Sample.AI_RESULT_CHANNEL
             (Sample.update_context
                [Sample.update_parameters "progressUpdate" "chat1" "conv1" "user1" "{}"])
             Sample.world0) = Throw (AnError e)
      /\ err_name e = "NodeOperationError")
  /\
  (exists e,
      fst (GravityUpdate.execute Sample.platform Sample2.bus_rejects_undefined
             Sample.AI_RESULT_CHANNEL
             (Sample2.update_context_continue
                [Sample.update_parameters "progressUpdate" "chat1" "conv1" "user1" "{}"])
             Sample.world0) = Throw (AnError e)
      /\ err_name e = "TypeError").
Proof.
  split.
  - destruct (update_execute_thrown_values
                Sample.platform Sample2.bus_down Sample.AI_RESULT_CHANNEL
                (Sample.update_context
                   [Sample.update_parameters "progressUpdate" "chat1" "conv1" "user1" "{}"])
                Sample.world0 _ eq_refl) as [H|[cred [e [_ [He Hname]]]]];
      [discriminate H|].
    exists e. split; [|exact Hname].
    exact (f_equal (fun t => Throw t) He).
  - destruct (update_execute_thrown_values
                Sample.platform Sample2.bus_rejects_undefined Sample.AI_RESULT_CHANNEL
                (Sample2.update_context_continue
                   [Sample.update_parameters "progressUpdate" "chat1" "conv1" "user1" "{}"])
                Sample.world0 _ eq_refl) as [H|[cred [e [_ [He [Hname _]]]]]];
      [discriminate H|].
    exists e. split; [|exact Hname].
    exact (f_equal (fun t => Throw t) He).
Defined.

(** ** Properties of GravityEmbed *)

Lemma trim_empty_is_blank (text : string) :
  JS.trim text = "" -> GravityEmbed.is_blank text = true.
Proof.
  intros H. unfold GravityEmbed.is_blank. rewrite H. cbn. apply orb_true_r.
Qed.

Lemma not_blank_trim (text : string) :
  GravityEmbed.is_blank text = false -> JS.trim text <> "".
Proof.
  unfold GravityEmbed.is_blank. intros H Htrim. rewrite Htrim in H. cbn in H.
  now rewrite orb_true_r in H.
Qed.

(** An input text that is empty or only white space is refused before
    anything is sent to Bedrock: the item fails with "Input text is
    required" and no command leaves the node. *)
Theorem embed_blank_text_sends_nothing
    (P : Platform)
    (invoke_model : GravityEmbed.ClientConfig -> GravityEmbed.InvokeModelInput ->
                    Thrown + string)
    (client : GravityEmbed.ClientConfig) (item : GravityEmbed.InputItem)
    (sent : GravityEmbed.Sent)
    (Hblank : JS.trim (GravityEmbed.param_inputText (GravityEmbed.parameters item)) = "") :
  GravityEmbed.item_body P invoke_model client item sent
  = (Throw (AnError (NodeOperationError "Input text is required")), sent).
Proof.
  unfold GravityEmbed.item_body. now rewrite (trim_empty_is_blank _ Hblank).
Qed.

Lemma embed_blank_text_sends_nothing_witness :
  GravityEmbed.item_body Sample2.embed_platform Sample2.invoke_model Sample2.embed_client
    (Sample2.embed_item "   ") []
  = (Throw (AnError (NodeOperationError "Input text is required")), []).
Proof.
  exact (embed_blank_text_sends_nothing
           Sample2.embed_platform Sample2.invoke_model Sample2.embed_client
           (Sample2.embed_item "   ") [] eq_refl).
Defined.

(** Whenever GravityEmbed yields an embedding for an item, it has sent
    exactly one command, for the item's model and with the trimmed text as
    body; the response parsed to an object whose [embedding] member is an
    array, which is the embedding returned; [_embeddingDimension] is the
    length of that array and [_originalText] is the text as given, not
    trimmed. *)
Theorem embed_output_comes_from_response
    (P : Platform)
    (invoke_model : GravityEmbed.ClientConfig -> GravityEmbed.InvokeModelInput ->
                    Thrown + string)
    (client : GravityEmbed.ClientConfig) (item : GravityEmbed.InputItem)
    (sent : GravityEmbed.Sent) (r : GravityEmbed.ReturnItem)
    (Hdone : fst (GravityEmbed.item_body P invoke_model client item sent) = Normal r) :
  let model := GravityEmbed.param_model (GravityEmbed.parameters item) in
  let inputText := GravityEmbed.param_inputText (GravityEmbed.parameters item) in
  let command :=
    {| GravityEmbed.modelId := model;
       GravityEmbed.body :=
         JSON_stringify P (JObject [("inputText", JString (JS.trim inputText))]);
       GravityEmbed.contentType := "application/json";
       GravityEmbed.accept := "application/json" |} in
  exists text members embedding,
    JS.trim inputText <> ""
    /\ snd (GravityEmbed.item_body P invoke_model client item sent) = sent ++ [command]
    /\ invoke_model client command = inr text
    /\ JSON_parse P text = Some (JObject members)
    /\ JS.lookup "embedding" members = Some (JArray embedding)
    /\ r = GravityEmbed.Embedded (GravityEmbed.json item) embedding model
             (List.length embedding) inputText.
Proof.
  cbv zeta. revert Hdone. unfold GravityEmbed.item_body.
  destruct (GravityEmbed.is_blank _) eqn:Hblank; [intros H; discriminate H|].
  apply not_blank_trim in Hblank.
  unfold bind, GravityEmbed.send, GravityEmbed.command_for.
  destruct (invoke_model client _) as [e|text] eqn:Hinvoke; [intros H; discriminate H|].
  unfold GravityEmbed.parse_body.
  destruct (JSON_parse P text) as [responseBody|] eqn:Hparse; [|intros H; discriminate H].
  unfold ret at 1. unfold GravityEmbed.extract_embedding, bind.
  destruct responseBody as [| | | | |members]; cbn [JS.get_member lift_sum ret throw];
    try (intros H; discriminate H).
  destruct (JS.lookup "embedding" members) as [[| | | |embedding|]|] eqn:Hlookup;
    try (intros H; discriminate H).
  cbn [fst snd ret]. intros H. injection H as <-.
  exists text, members, embedding. repeat split; assumption.
Qed.

Lemma embed_output_comes_from_response_witness :
  exists text members embedding,
    JS.trim "  hello " <> ""
    /\ snd (GravityEmbed.item_body Sample2.embed_platform Sample2.invoke_model
              Sample2.embed_client (Sample2.embed_item "  hello ") [])
       = [] ++ [ {| GravityEmbed.modelId := "amazon.titan-embed-text-v2:0";
                    GravityEmbed.body :=
                      Sample.stringify (JObject [("inputText", JString "hello")]);
                    GravityEmbed.contentType := "application/json";
                    GravityEmbed.accept := "application/json" |} ]
    /\ Sample2.invoke_model Sample2.embed_client
         {| GravityEmbed.modelId := "amazon.titan-embed-text-v2:0";
            GravityEmbed.body :=
              Sample.stringify (JObject [("inputText", JString "hello")]);
            GravityEmbed.contentType := "application/json";
            GravityEmbed.accept := "application/json" |} = inr text
    /\ Sample2.embed_parse text = Some (JObject members)
    /\ JS.lookup "embedding" members = Some (JArray embedding)
    /\ GravityEmbed.Embedded [("id", JNumber (7 # 1))]
         [JNumber (1 # 1); JNumber (2 # 1); JNumber (3 # 1)]
         "amazon.titan-embed-text-v2:0" 3 "  hello "
       = GravityEmbed.Embedded [("id", JNumber (7 # 1))] embedding
           "amazon.titan-embed-text-v2:0" (List.length embedding) "  hello ".
Proof.
  exact (embed_output_comes_from_response
           Sample2.embed_platform Sample2.invoke_model Sample2.embed_client
           (Sample2.embed_item "  hello ") []
           (GravityEmbed.Embedded [("id", JNumber (7 # 1))]
              [JNumber (1 # 1); JNumber (2 # 1); JNumber (3 # 1)]
              "amazon.titan-embed-text-v2:0" 3 "  hello ")
           eq_refl).
Defined.

(** A response that parses to an object without an array under
    [embedding] (missing, null, a number, a string, an object) makes the
    item fail with "Failed to extract embedding from response: " followed
    by the response as JSON; the command has been sent all the same. *)
Theorem embed_response_without_array_fails
    (P : Platform)
    (invoke_model : GravityEmbed.ClientConfig -> GravityEmbed.InvokeModelInput ->
                    Thrown + string)
    (client : GravityEmbed.ClientConfig) (item : GravityEmbed.InputItem)
    (sent : GravityEmbed.Sent) (text : string) (members : list (string * JSON))
    (Htext : GravityEmbed.is_blank
               (GravityEmbed.param_inputText (GravityEmbed.parameters item)) = false)
    (Hinvoke : invoke_model client
                 (GravityEmbed.command_for P
                    (GravityEmbed.param_model (GravityEmbed.parameters item))
                    (GravityEmbed.param_inputText (GravityEmbed.parameters item)))
               = inr text)
    (Hparse : JSON_parse P text = Some (JObject members))
    (Hshape : forall elements, JS.lookup "embedding" members <> Some (JArray elements)) :
  GravityEmbed.item_body P invoke_model client item sent
  = (Throw (AnError
              (NodeOperationError
                 ("Failed to extract embedding from response: "
                  ++ JSON_stringify P (JObject members))%string)),
     sent ++ [GravityEmbed.command_for P
                (GravityEmbed.param_model (GravityEmbed.parameters item))
                (GravityEmbed.param_inputText (GravityEmbed.parameters item))]).
Proof.
  unfold GravityEmbed.item_body. rewrite Htext.
  unfold bind at 1. unfold GravityEmbed.send. rewrite Hinvoke.
  unfold bind at 1. unfold GravityEmbed.parse_body. rewrite Hparse.
  unfold ret at 1. unfold bind at 1. unfold GravityEmbed.extract_embedding, bind.
  cbn [JS.get_member lift_sum ret].
  destruct (JS.lookup "embedding" members) as [[| | | |elements|]|] eqn:Hlookup;
    try reflexivity.
  now elim (Hshape elements).
Qed.

Lemma embed_response_without_array_fails_witness :
  GravityEmbed.item_body Sample2.embed_platform Sample2.invoke_model_empty_object
    Sample2.embed_client (Sample2.embed_item "hello") []
  = (Throw (AnError (NodeOperationError "Failed to extract embedding from response: {}")),
     [GravityEmbed.command_for Sample2.embed_platform "amazon.titan-embed-text-v2:0"
        "hello"]).
Proof.
  refine (embed_response_without_array_fails
            Sample2.embed_platform Sample2.invoke_model_empty_object Sample2.embed_client
            (Sample2.embed_item "hello") [] "{}" [] eq_refl eq_refl eq_refl _).
  intros elements H; discriminate H.
Defined.

Section EmbedLoop.
Variable P : Platform.
Variable invoke_model : GravityEmbed.ClientConfig -> GravityEmbed.InvokeModelInput ->
                        Thrown + string.
Variable this : GravityEmbed.Context.
Variable client : GravityEmbed.ClientConfig.

(** The [try] block sends at most one command; what it throws is an
    [Error], or the very reason for which Bedrock rejected the command. *)
Lemma embed_item_body_sends (item : GravityEmbed.InputItem) (sent : GravityEmbed.Sent) :
  exists commands,
    snd (GravityEmbed.item_body P invoke_model client item sent) = sent ++ commands
    /\ List.length commands <= 1
    /\ (forall thrown,
           fst (GravityEmbed.item_body P invoke_model client item sent) = Throw thrown ->
           (exists e, thrown = AnError e)
           \/ (exists command, invoke_model client command = inl thrown)).
Proof.
  unfold GravityEmbed.item_body.
  destruct (GravityEmbed.is_blank _).
  { exists []. cbn. split; [now rewrite app_nil_r|]. split; [lia|].
    intros thrown H. injection H as <-. left. eexists. reflexivity. }
  unfold bind, GravityEmbed.send.
  match goal with
  | |- context [invoke_model client ?c] =>
      exists [c]; destruct (invoke_model client c) as [reason|text] eqn:Hinvoke
  end.
  { split; [reflexivity|]. split; [cbn; lia|].
    intros thrown H. injection H as <-. right. eexists. exact Hinvoke. }
  unfold GravityEmbed.parse_body.
  destruct (JSON_parse P text) as [responseBody|].
  2:{ split; [reflexivity|]. split; [cbn; lia|].
      intros thrown H. injection H as <-. left. eexists. reflexivity. }
  cbv beta iota delta [ret bind GravityEmbed.extract_embedding].
  destruct (JS.get_member responseBody "embedding") as [e|[[| | | |elements|]|]];
    cbn [lift_error ret throw fst snd];
    (split; [reflexivity|]); (split; [cbn; lia|]);
    intros thrown H; try discriminate H;
    injection H as <-; left; eexists; reflexivity.
Qed.

Lemma embed_loop_shape (items : list GravityEmbed.InputItem)
    (returnData : list GravityEmbed.ReturnItem) (sent : GravityEmbed.Sent) :
  exists commands,
    snd (GravityEmbed.loop P invoke_model this client items returnData sent)
    = sent ++ commands
    /\ List.length commands <= List.length items
    /\ (forall returnData',
           fst (GravityEmbed.loop P invoke_model this client items returnData sent)
           = Normal returnData' ->
           List.length returnData' = List.length returnData + List.length items)
    /\ (forall thrown,
           fst (GravityEmbed.loop P invoke_model this client items returnData sent)
           = Throw thrown ->
           GravityEmbed.continueOnFail this = false
           \/ exists unreadable command reason,
                thrown = AnError unreadable
                /\ err_name unreadable = "TypeError"
                /\ invoke_model client command = inl reason
                /\ nullish reason).
Proof.
  revert returnData sent. induction items as [|item rest IH]; intros returnData sent.
  - exists []. cbn. split; [now rewrite app_nil_r|]. split; [lia|].
    split; [intros rd H; injection H as <-; lia | intros e H; discriminate H].
  - cbn [GravityEmbed.loop]. unfold bind, try_catch.
    destruct (embed_item_body_sends item sent) as [commands [Hsent [Hlen Hthrows]]].
    destruct (GravityEmbed.item_body P invoke_model client item sent) as [[r|t] sent1];
      cbn [fst snd] in *.
    + destruct (IH (returnData ++ [r]) sent1) as [commands' [Hsent' [Hlen' [Hrd Hthrow]]]].
      exists (commands ++ commands').
      split; [now rewrite Hsent', Hsent, app_assoc|].
      split; [rewrite length_app; cbn [List.length]; lia|].
      split; [|exact Hthrow].
      intros rd H. rewrite (Hrd rd H), length_app. cbn [List.length]. lia.
    + unfold GravityEmbed.item_catch.
      destruct (GravityEmbed.continueOnFail this) eqn:Hmode.
      * unfold bind.
        destruct (JS.message_of t) as [unreadable|message] eqn:Hmessage;
          cbn [lift_error throw ret].
        -- exists commands. split; [exact Hsent|]. split; [cbn [List.length]; lia|].
           split; [intros rd H; discriminate H|].
           intros thrown H. injection H as <-. right.
           destruct (message_of_unreadable t unreadable Hmessage) as [Hnull Hname].
           destruct (Hthrows t eq_refl) as [[e ->]|[command Hinvoke]]; [now elim Hnull|].
           exists unreadable, command, t. repeat split; assumption.
        -- destruct (IH (returnData ++ [GravityEmbed.Failed message]) sent1)
             as [commands' [Hsent' [Hlen' [Hrd Hthrow]]]].
           exists (commands ++ commands').
           split; [now rewrite Hsent', Hsent, app_assoc|].
           split; [rewrite length_app; cbn [List.length]; lia|].
           split; [|exact Hthrow].
           intros rd H. rewrite (Hrd rd H), length_app. cbn [List.length]. lia.
      * exists commands. cbn [throw fst snd].
        split; [exact Hsent|]. split; [cbn [List.length]; lia|].
        split; [intros rd H; discriminate H | intros thrown _; now left].
Qed.

End EmbedLoop.

(** [GravityEmbed.execute] sends at most one command per input item and,
    when it returns, returns one output holding exactly one element per
    input item. Credentials that cannot be read are thrown before any item
    is looked at, whatever the node's setting. With credentials, a node
    that continues on failure throws in one case only: Bedrock has
    rejected a command with [null] or [undefined], from which the [catch]
    block cannot read [error.message]; what is thrown is the TypeError of
    that reading. *)
Theorem embed_execute_one_command_and_one_element_per_item
    (P : Platform)
    (invoke_model : GravityEmbed.ClientConfig -> GravityEmbed.InvokeModelInput ->
                    Thrown + string)
    (this : GravityEmbed.Context) (sent : GravityEmbed.Sent) :
  (exists commands,
      snd (GravityEmbed.execute P invoke_model this sent) = sent ++ commands
      /\ List.length commands <= List.length (GravityEmbed.inputData this))
  /\
  (forall outputs,
      fst (GravityEmbed.execute P invoke_model this sent) = Normal outputs ->
      exists returnData,
        outputs = [returnData]
        /\ List.length returnData = List.length (GravityEmbed.inputData this))
  /\
  (forall thrown,
      fst (GravityEmbed.execute P invoke_model this sent) = Throw thrown ->
      GravityEmbed.credentials this = inl thrown
      \/ GravityEmbed.continueOnFail this = false
      \/ exists unreadable client command reason,
           thrown = AnError unreadable
           /\ err_name unreadable = "TypeError"
           /\ invoke_model client command = inl reason
           /\ nullish reason)
  /\
  (forall reason,
      GravityEmbed.credentials this = inl reason ->
      GravityEmbed.execute P invoke_model this sent = (Throw reason, sent)).
Proof.
  unfold GravityEmbed.execute, bind.
  destruct (GravityEmbed.credentials this) as [e|cred]; cbn [lift_sum throw ret].
  { split; [exists []; cbn; split; [now rewrite app_nil_r | lia]|].
    split; [intros outputs H; discriminate H|].
    split; [intros e0 H; injection H as <-; now left|].
    intros e0 H. now injection H as <-. }
  match goal with
  | |- context [GravityEmbed.loop P invoke_model this ?client ?items [] sent] =>
      destruct (embed_loop_shape P invoke_model this client items [] sent)
        as [commands [Hsent [Hlen [Hrd Hthrow]]]];
      destruct (GravityEmbed.loop P invoke_model this client items [] sent)
        as [[rd|t] sent1]
  end; cbn [fst snd] in *.
  - split; [exists commands; auto|].
    split; [|split; [intros e H; discriminate H | intros e H; discriminate H]].
    intros outputs H. injection H as <-. exists rd. split; [reflexivity|].
    now rewrite (Hrd rd eq_refl).
  - split; [exists commands; auto|].
    split; [intros outputs H; discriminate H|].
    split; [|intros e0 H; discriminate H].
    intros thrown H. injection H as <-. right.
    destruct (Hthrow t eq_refl) as [Hmode|[unreadable [command [reason H]]]];
      [now left|].
    right. eexists unreadable, _, command, reason. exact H.
Qed.

(** A node that continues on failure, with a Bedrock client that rejects
    with [undefined]: the one item makes [execute] throw a TypeError. *)
Lemma embed_execute_one_command_and_one_element_per_item_witness :
  exists unreadable,
    GravityEmbed.execute Sample2.embed_platform Sample2.invoke_model_rejects_undefined
      (Sample2.embed_context [Sample2.embed_item "hello"] true) []
    = (Throw (AnError unreadable),
       [GravityEmbed.command_for Sample2.embed_platform "amazon.titan-embed-text-v2:0"
          "hello"])
    /\ err_name unreadable = "TypeError".
Proof.
  pose proof (embed_execute_one_command_and_one_element_per_item
                Sample2.embed_platform Sample2.invoke_model_rejects_undefined
                (Sample2.embed_context [Sample2.embed_item "hello"] true) [])
    as [_ [_ [Hthrown _]]].
  destruct (Hthrown _ eq_refl)
    as [H|[H|[unreadable [client [command [reason [He [Hname _]]]]]]]];
    [discriminate H | discriminate H |].
  exists unreadable. split; [|exact Hname].
  exact (f_equal (fun t => (Throw t,
                            [GravityEmbed.command_for Sample2.embed_platform
                               "amazon.titan-embed-text-v2:0" "hello"])) He).
Defined.

(** ** Properties of the error utilities *)

(** The inline [catch] block of GravityUpdate and [handleNodeError]
    compared. For a caught [Error] they decide alike: both continue
    exactly when the node continues on failure, recording the same
    message, and otherwise both throw the same error, which is the caught
    one if it is a NodeOperationError and one built from it if not. For
    any other caught value they part. When the node does not continue, the
    utility throws the value again as it is, the inline block a
    NodeOperationError "Unknown error occurred". When the node continues
    and the value is [null] or [undefined], the utility records "Unknown
    error" and the inline block throws a TypeError. *)
Theorem update_catch_and_handleNodeError_compared
    (P : Platform) (this : GravityUpdate.Context) (itemIndex : nat)
    (w : Envelope.World) :
  (forall error : JSError,
      match ErrorUtils.handleNodeError (Some (GravityUpdate.continueOnFail this))
              (ErrorUtils.AnError error) itemIndex with
      | ErrorUtils.Returned [item] =>
          fst (GravityUpdate.item_catch P this (AnError error) w)
          = Normal (GravityUpdate.NotSent (Some (JString (ErrorUtils.item_error item))))
          /\ ErrorUtils.item_itemIndex item = itemIndex
          /\ ErrorUtils.pairedItem item = itemIndex
      | ErrorUtils.Raised thrown =>
          fst (GravityUpdate.item_catch P this (AnError error) w) = Throw thrown
          /\ exists e, thrown = AnError e /\ err_name e = "NodeOperationError"
      | _ => False
      end)
  /\
  (forall v,
      GravityUpdate.continueOnFail this = false ->
      ErrorUtils.handleNodeError (Some (GravityUpdate.continueOnFail this))
        (ErrorUtils.NotAnError v) itemIndex
      = ErrorUtils.Raised (NotAnError v)
      /\ fst (GravityUpdate.item_catch P this (NotAnError v) w)
         = Throw (AnError (NodeOperationError "Unknown error occurred")))
  /\
  (forall v,
      GravityUpdate.continueOnFail this = true ->
      nullish (NotAnError v) ->
      (exists item,
          ErrorUtils.handleNodeError (Some (GravityUpdate.continueOnFail this))
            (ErrorUtils.NotAnError v) itemIndex
          = ErrorUtils.Returned [item]
          /\ ErrorUtils.item_error item = "Unknown error")
      /\ exists unreadable,
           fst (GravityUpdate.item_catch P this (NotAnError v) w)
           = Throw (AnError unreadable)
           /\ err_name unreadable = "TypeError").
Proof.
  unfold ErrorUtils.handleNodeError, GravityUpdate.item_catch.
  split; [|split].
  - intros error. destruct (GravityUpdate.continueOnFail this).
    + repeat split.
    + destruct (String.eqb_spec (err_name error) "NodeOperationError") as [E|E];
        cbn [negb].
      * split; [reflexivity|]. exists error. split; [reflexivity | exact E].
      * split; [reflexivity|]. eexists. split; reflexivity.
  - intros v ->. split; reflexivity.
  - intros v -> Hnull. split; [eexists; split; reflexivity|].
    destruct v as [[| | | | |]|]; try now elim Hnull.
    + eexists. split; reflexivity.
    + eexists. split; reflexivity.
Qed.

(** A node that does not continue, caught the text "boom"; a node that
    continues, caught [undefined]. *)
Lemma update_catch_and_handleNodeError_compared_witness :
  (ErrorUtils.handleNodeError (Some false) (ErrorUtils.NotAnError (Some (JString "boom"))) 0
   = ErrorUtils.Raised (NotAnError (Some (JString "boom")))
   /\ fst (GravityUpdate.item_catch Sample.platform (Sample.update_context [])
             (NotAnError (Some (JString "boom"))) Sample.world0)
      = Throw (AnError (NodeOperationError "Unknown error occurred")))
  /\
  (exists unreadable,
      fst (GravityUpdate.item_catch Sample.platform (Sample2.update_context_continue [])
             (NotAnError None) Sample.world0)
      = Throw (AnError unreadable)
      /\ err_name unreadable = "TypeError").
Proof.
  split.
  - exact (proj1 (proj2 (update_catch_and_handleNodeError_compared
             Sample.platform (Sample.update_context []) 0 Sample.world0))
             (Some (JString "boom")) eq_refl).
  - exact (proj2 (proj2 (proj2 (update_catch_and_handleNodeError_compared
             Sample.platform (Sample2.update_context_continue []) 0 Sample.world0))
             None eq_refl I)).
Defined.

(** [handleNodeError] without a [continueOnFail] function, or with one that
    answers no, always throws: a caught value that is not an [Error] is
    thrown again as it is, a caught [Error] as a NodeOperationError with
    the same message. With an answer yes it never throws and returns one
    element paired with the item, whose message is "Unknown error" when
    the caught value is not an [Error]. *)
Theorem handleNodeError_throws_unless_told_to_continue
    (continueOnFail : option bool) (error : ErrorUtils.Caught) (itemIndex : nat) :
  (continueOnFail <> Some true ->
   exists thrown,
     ErrorUtils.handleNodeError continueOnFail error itemIndex = ErrorUtils.Raised thrown
     /\ match error, thrown with
        | ErrorUtils.NotAnError v, ErrorUtils.NotAnError v' => v' = v
        | ErrorUtils.AnError e, ErrorUtils.AnError e' =>
            err_name e' = "NodeOperationError" /\ err_message e' = err_message e
        | _, _ => False
        end)
  /\
  (continueOnFail = Some true ->
   exists item,
     ErrorUtils.handleNodeError continueOnFail error itemIndex = ErrorUtils.Returned [item]
     /\ ErrorUtils.pairedItem item = itemIndex
     /\ ErrorUtils.item_error item
        = match error with
          | ErrorUtils.AnError e => err_message e
          | ErrorUtils.NotAnError _ => "Unknown error"
          end).
Proof.
  split.
  - intros Hmode. unfold ErrorUtils.handleNodeError.
    assert (Hno : match continueOnFail with Some answer => answer | None => false end
                  = false)
      by (destruct continueOnFail as [[|]|]; [now elim Hmode | reflexivity | reflexivity]).
    rewrite Hno. destruct error as [e|v].
    + destruct (String.eqb_spec (err_name e) "NodeOperationError") as [E|E]; cbn [negb];
        eexists; split; try reflexivity; cbn; split; auto.
    + eexists; split; reflexivity.
  - intros ->. unfold ErrorUtils.handleNodeError.
    destruct error; eexists; repeat split.
Qed.

(** The inline [catch] block of GravityOutput and [handleOutputError]
    compared, Advanced Options being on. On "throw" both throw, the inline
    block the caught error itself and the utility a fresh NodeOperationError
    with its message; on "continue" both record the message. On any other
    value of the error handling they part: the utility continues, the
    inline block throws. *)
Theorem output_catch_and_handleOutputError_compared
    (P : Platform) (now itemIndex : nat) (item : GravityOutput.InputItem)
    (error : JSError) (w : Envelope.World)
    (Hon : GravityOutput.param_advancedOptions (GravityOutput.parameters item) = true) :
  let handling := GravityOutput.param_errorHandling (GravityOutput.parameters item) in
  let outputType := GravityOutput.param_outputType (GravityOutput.parameters item) in
  let utility := ErrorUtils.handleOutputError P now (ErrorUtils.AnError error) itemIndex
                   handling outputType (GravityOutput.json item) in
  let inline := GravityOutput.item_catch item (AnError error) w in
  (handling = "throw" ->
   utility = ErrorUtils.Raised
               (ErrorUtils.AnError (NodeOperationError (err_message error)))
   /\ inline = (Throw (AnError error), w))
  /\
  (handling = "continue" ->
   (exists element,
       utility = ErrorUtils.Returned [element]
       /\ ErrorUtils.success element = false
       /\ ErrorUtils.output_error element = err_message error
       /\ ErrorUtils.inherited element = GravityOutput.json item)
   /\ inline = (Normal (GravityOutput.NotSent (GravityOutput.json item)
                          (JString (JS.or_string (err_message error)
                                      "Unknown error in Gravity Output"))), w))
  /\
  (handling <> "throw" -> handling <> "continue" ->
   (exists element, utility = ErrorUtils.Returned [element])
   /\ inline = (Throw (AnError error), w)).
Proof.
  cbv zeta. unfold ErrorUtils.handleOutputError, GravityOutput.item_catch. rewrite Hon.
  split; [|split].
  - intros ->. split; reflexivity.
  - intros ->. split; [eexists; repeat split|].
    cbn [String.eqb Ascii.eqb Bool.eqb]. unfold bind.
    cbn [JS.message_of lift_error ret]. now rewrite or_value_text.
  - intros Hthrow Hcontinue.
    rewrite (eqb_neq_false _ _ Hthrow), (eqb_neq_false _ _ Hcontinue).
    split; [eexists|]; reflexivity.
Qed.

Lemma output_catch_and_handleOutputError_compared_witness :
  (exists element,
      ErrorUtils.handleOutputError Sample.platform 0
        (ErrorUtils.AnError Sample.socket_error) 0 "retry" "text" []
      = ErrorUtils.Returned [element])
  /\ GravityOutput.item_catch (Sample2.advanced_item "text" "chat1" "retry")
       (AnError Sample.socket_error) Sample.world0
     = (Throw (AnError Sample.socket_error), Sample.world0).
Proof.
  refine (proj2 (proj2 (output_catch_and_handleOutputError_compared
            Sample.platform 0 0 (Sample2.advanced_item "text" "chat1" "retry")
            Sample.socket_error Sample.world0 eq_refl)) _ _); discriminate.
Defined.
